(** * featureio: gene records, interval comparisons and FASTA access

    A shallow embedding of [featureio/gene.py] and [featureio/seq.py].
    Python integers are [Z]; Python strings are [string], one [ascii] per
    character (code points below 256); a Python [dict] is an
    insertion-ordered association list with distinct keys; a raised
    exception is the [Err] case of [result]. *)

From Stdlib Require Import ZArith List Bool Ascii String Lia DecimalString.
From Stdlib Require DecimalPos DecimalZ Permutation.
Import ListNotations.
Open Scope string_scope.
Open Scope list_scope.
Open Scope Z_scope.

(** ** Exceptions *)

Inductive exn : Type :=
| ValueError (msg : string)
| KeyError (msg : string)
| IndexError
| StopIteration.

Inductive result (A : Type) : Type :=
| Ok (a : A)
| Err (e : exn).
Arguments Ok {A} a.
Arguments Err {A} e.

Definition bind {A B : Type} (r : result A) (k : A -> result B) : result B :=
  match r with
  | Ok a => k a
  | Err e => Err e
  end.

Notation "x <- r ;; k" := (bind r (fun x => k))
  (at level 61, r at next level, right associativity).

(** A list comprehension whose element expression may raise: the first
    exception aborts the whole comprehension. *)
Fixpoint mapM {A B : Type} (f : A -> result B) (l : list A) : result (list B) :=
  match l with
  | [] => Ok []
  | x :: t => y <- f x ;; ys <- mapM f t ;; Ok (y :: ys)
  end.

(** ** Python dictionaries *)

Module PyDict.
Section Dict.
Variables K V : Type.
Variable eqb : K -> K -> bool.

Definition t := list (K * V).

Fixpoint get (d : t) (k : K) : option V :=
  match d with
  | [] => None
  | (k', v) :: r => if eqb k k' then Some v else get r k
  end.

Definition contains (d : t) (k : K) : bool :=
  match get d k with Some _ => true | None => false end.

(** [d[k] = v]: an existing key keeps its place, a new one goes last. *)
Fixpoint set (d : t) (k : K) (v : V) : t :=
  match d with
  | [] => [(k, v)]
  | (k', v') :: r => if eqb k k' then (k', v) :: r else (k', v') :: set r k v
  end.

Definition keys (d : t) : list K := map fst d.

(** [dict(pairs)] and dict comprehensions: items are stored in turn. *)
Definition of_pairs (l : list (K * V)) : t :=
  fold_left (fun d kv => set d (fst kv) (snd kv)) l [].
End Dict.
Arguments get {K V} eqb d k.
Arguments contains {K V} eqb d k.
Arguments set {K V} eqb d k v.
Arguments keys {K V} d.
Arguments of_pairs {K V} eqb l.
End PyDict.

(** ** Python built-ins used by the sources *)

Module Py.

(** An argument that the source passes through [int()]: the callers hand
    over either integers or the text fields of a line. *)
Inductive pyval : Type :=
| VInt (z : Z)
| VStr (s : string).

Definition code (c : ascii) : N := N_of_ascii c.

(** [str.isspace] / [str.strip] white space, for code points below 256. *)
Definition isspace (c : ascii) : bool :=
  let n := code c in
  ((9 <=? n) && (n <=? 13) || (28 <=? n) && (n <=? 32)
   || (n =? 133) || (n =? 160))%N.

(** White space that [int()] skips around a literal: the C white space and
    the non-ASCII Unicode white space. *)
Definition int_space (c : ascii) : bool :=
  let n := code c in
  ((9 <=? n) && (n <=? 13) || (n =? 32) || (n =? 133) || (n =? 160))%N.

Fixpoint lstrip_by (sp : ascii -> bool) (l : list ascii) : list ascii :=
  match l with
  | c :: r => if sp c then lstrip_by sp r else l
  | [] => []
  end.

Definition strip_by (sp : ascii -> bool) (l : list ascii) : list ascii :=
  rev (lstrip_by sp (rev (lstrip_by sp l))).

(** [s.strip()] *)
Definition strip (s : string) : string :=
  string_of_list_ascii (strip_by isspace (list_ascii_of_string s)).

(** [s.split(sep)] for a one-character separator: every separator ends a
    field, so the result is never empty. *)
Fixpoint split_on (sep : ascii) (l : list ascii) : list (list ascii) :=
  match l with
  | [] => [[]]
  | c :: r =>
      if Ascii.eqb c sep then [] :: split_on sep r
      else match split_on sep r with
           | f :: fs => (c :: f) :: fs
           | [] => [[c]]
           end
  end.

Definition split (sep : ascii) (s : string) : list string :=
  map string_of_list_ascii (split_on sep (list_ascii_of_string s)).

(** [sep.join(parts)] *)
Fixpoint join (sep : string) (parts : list string) : string :=
  match parts with
  | [] => ""
  | [p] => p
  | p :: r => (p ++ sep ++ join sep r)%string
  end.

Definition is_digit (c : ascii) : bool :=
  ((48 <=? code c) && (code c <=? 57))%N.

Definition digit_val (c : ascii) : Z := Z.of_N (code c) - 48.

(** Digits of a base-10 literal: single underscores may separate digits. *)
Fixpoint digits (acc : Z) (prev_digit : bool) (l : list ascii) : option Z :=
  match l with
  | [] => if prev_digit then Some acc else None
  | c :: r =>
      if is_digit c then digits (10 * acc + digit_val c) true r
      else if Ascii.eqb c "_" && prev_digit then
             match r with
             | [] => None
             | _ => digits acc false r
             end
      else None
  end.

Definition parse_int (s : string) : option Z :=
  match strip_by int_space (list_ascii_of_string s) with
  | "+"%char :: r => digits 0 false r
  | "-"%char :: r => option_map Z.opp (digits 0 false r)
  | l => digits 0 false l
  end.

(** [int(x)]; the literal is quoted in the message without escapes. *)
Definition int (x : pyval) : result Z :=
  match x with
  | VInt z => Ok z
  | VStr s =>
      match parse_int s with
      | Some z => Ok z
      | None =>
          Err (ValueError ("invalid literal for int() with base 10: '"
                           ++ s ++ "'")%string)
      end
  end.

(** [str(z)] *)
Definition str (z : Z) : string := NilZero.string_of_int (Z.to_int z).

(** [sorted(l)]: the order is total and equal keys are equal values, so
    the sorted list does not depend on the algorithm; insertion is used. *)
Section Sorted.
Variable A : Type.
Variable leb : A -> A -> bool.

Fixpoint insert (x : A) (l : list A) : list A :=
  match l with
  | [] => [x]
  | y :: r => if leb x y then x :: l else y :: insert x r
  end.

Fixpoint sorted (l : list A) : list A :=
  match l with
  | [] => []
  | x :: r => insert x (sorted r)
  end.
End Sorted.
Arguments insert {A} leb x l.
Arguments sorted {A} leb l.

(** Comparison of 2-tuples of integers. *)
Definition pair_leb (a b : Z * Z) : bool :=
  (fst a <? fst b) || ((fst a =? fst b) && (snd a <=? snd b)).

Definition pair_eqb (a b : Z * Z) : bool :=
  (fst a =? fst b) && (snd a =? snd b).

Definition sum (l : list Z) : Z := fold_left Z.add l 0.

End Py.

(** ** gene.py: complement table *)

Module Gene.

Definition chars : string := "acgtumrwsykvhdbnACGTUMRWSYKVHDBN".
Definition compl : string := "tgcaakywsrmbdhvnTGCAAKYWSRMBDHVN".

Definition compd : PyDict.t ascii ascii :=
  PyDict.of_pairs Ascii.eqb
    (combine (list_ascii_of_string chars) (list_ascii_of_string compl)).

Definition complement_char (c : ascii) : ascii :=
  if PyDict.contains Ascii.eqb compd c then
    match PyDict.get Ascii.eqb compd c with
    | Some c' => c'
    | None => c
    end
  else c.

Definition reverse_complement (seq : string) : string :=
  string_of_list_ascii (rev (map complement_char (list_ascii_of_string seq))).

(** The characters the table covers, and those on which complementing
    twice gives the character back. *)
Definition supported (s : string) : Prop :=
  Forall (fun c => In c (list_ascii_of_string chars)) (list_ascii_of_string s).

Definition is_u (c : ascii) : bool :=
  Ascii.eqb c "u"%char || Ascii.eqb c "U"%char.

Definition supported_no_u (s : string) : Prop :=
  Forall (fun c => In c (list_ascii_of_string chars) /\ is_u c = false)
         (list_ascii_of_string s).

(** ** gene.py: the [Gene] record *)

(** Which interval list a comparison reads, [getattr(self, comparison)]. *)
Inductive comparison : Type := Exons | CdsExons.

(** What the [attrs] dictionary can hold: a value handed over by a
    caller, or one of the values that [copy] finds in the instance
    dictionary, a list of intervals or the view [kwargs.keys()]. *)
Inductive attr_value : Type :=
| Plain (v : Py.pyval)
| Intervals (l : list (Z * Z))
| KeysView (ks : list string).

(** [aux] is the [kwargs] dictionary as the constructor received it; its
    keys are [_aux_attrs].  [__init__] merges it into the instance
    dictionary (line 42) and assigns [_aux_attrs], [exons], [cds_exons],
    [length], [cds_length], [fivep] and [cds_fivep] afterwards, so an
    extra of one of these names is overwritten there; the names of the
    thirteen parameters cannot be those of keyword extras. *)
Record t : Type := mk {
  chrom : string;
  start : Z;
  end_ : Z;
  name : string;
  score : Z;
  strand : string;
  cds_start : Z;
  cds_end : Z;
  item_rgb : Py.pyval;
  block_count : Z;
  block_sizes : list Z;
  block_starts : list Z;
  attrs : PyDict.t string attr_value;
  aux : PyDict.t string Py.pyval;
  exons : list (Z * Z);
  cds_exons : list (Z * Z);
  length : Z;
  cds_length : Z;
  fivep : Z;
  cds_fivep : Z
}.

(** [[int(s) for s in text.split(',') if len(s)]] *)
Definition int_list (text : string) : result (list Z) :=
  mapM (fun s => Py.int (Py.VStr s))
       (filter (fun s => negb (String.length s =? 0)%nat) (Py.split "," text)).

(** One turn of the block loop of [__init__] (lines 48-57): the exon is
    always appended; the CDS exon is appended unless the two smallest of the
    four sorted bounds are the block's own or the CDS's own. *)
Definition block_step (g_start g_cds_start g_cds_end : Z)
    (acc : list (Z * Z) * list (Z * Z)) (b : Z * Z)
    : list (Z * Z) * list (Z * Z) :=
  let '(exs, cds) := acc in
  let '(bstart, size) := b in
  let start' := bstart + g_start in
  let end' := start' + size in
  let sc := Py.sorted Z.leb [start'; end'; g_cds_start; g_cds_end] in
  let exs' := exs ++ [(start', end')] in
  if ((nth 0 sc 0 =? start') && (nth 1 sc 0 =? end'))
     || ((nth 0 sc 0 =? g_cds_start) && (nth 1 sc 0 =? g_cds_end))
  then (exs', cds)
  else (exs', cds ++ [(Z.max g_cds_start start', Z.min g_cds_end end')]).

Definition span_sum (l : list (Z * Z)) : Z :=
  Py.sum (map (fun e => snd e - fst e + 1) l).

(** [Gene.__init__]; [attrs_arg = None] is the default [attrs=None]. *)
Definition init (chrom_arg : string) (start_arg end_arg : Py.pyval)
    (name_arg : string) (score_arg : Py.pyval) (strand_arg : string)
    (cds_start_arg cds_end_arg item_rgb_arg block_count_arg : Py.pyval)
    (block_sizes_arg block_starts_arg : string)
    (attrs_arg : option (PyDict.t string attr_value))
    (kwargs : PyDict.t string Py.pyval) : result t :=
  start_v <- Py.int start_arg ;;
  end_v <- Py.int end_arg ;;
  score_v <- Py.int score_arg ;;
  cds_start_v <- Py.int cds_start_arg ;;
  cds_end_v <- Py.int cds_end_arg ;;
  block_count_v <- Py.int block_count_arg ;;
  sizes <- int_list block_sizes_arg ;;
  starts <- int_list block_starts_arg ;;
  let attrs_v := match attrs_arg with None => [] | Some d => d end in
  let '(exs, cds) :=
    fold_left (block_step start_v cds_start_v cds_end_v)
              (combine starts sizes) ([], []) in
  let plus := String.eqb strand_arg "+" in
  Ok {| chrom := chrom_arg; start := start_v; end_ := end_v;
        name := name_arg; score := score_v; strand := strand_arg;
        cds_start := cds_start_v; cds_end := cds_end_v;
        item_rgb := item_rgb_arg; block_count := block_count_v;
        block_sizes := sizes; block_starts := starts;
        attrs := attrs_v; aux := kwargs;
        exons := exs; cds_exons := cds;
        length := span_sum exs; cds_length := span_sum cds;
        fivep := if plus then start_v else end_v;
        cds_fivep := if plus then cds_start_v else cds_end_v |}.

(** [self.__dict__[k]] for the name [k] of a keyword extra that was given
    the value [v]: the attribute that [__init__] assigned after the merge
    if [k] names one, the value of the extra otherwise. *)
Definition dict_item (self : t) (k : string) (v : Py.pyval) : attr_value :=
  if String.eqb k "exons" then Intervals (exons self)
  else if String.eqb k "cds_exons" then Intervals (cds_exons self)
  else if String.eqb k "length" then Plain (Py.VInt (length self))
  else if String.eqb k "cds_length" then Plain (Py.VInt (cds_length self))
  else if String.eqb k "fivep" then Plain (Py.VInt (fivep self))
  else if String.eqb k "cds_fivep" then Plain (Py.VInt (cds_fivep self))
  else if String.eqb k "_aux_attrs" then KeysView (PyDict.keys (aux self))
  else Plain v.

(** [{k: self.__dict__[k] for k in self._aux_attrs}] *)
Definition aux_items (self : t) : PyDict.t string attr_value :=
  PyDict.of_pairs String.eqb
    (map (fun kv => (fst kv, dict_item self (fst kv) (snd kv))) (aux self)).

(** [Gene.copy]: the thirteenth positional argument of the constructor is
    [attrs], so the dictionary made of the keyword extras is what the copy
    receives as its [attrs]; no keyword argument is passed. *)
Definition copy (self : t) : result t :=
  init (chrom self) (Py.VInt (start self)) (Py.VInt (end_ self)) (name self)
       (Py.VInt (score self)) (strand self)
       (Py.VInt (cds_start self)) (Py.VInt (cds_end self)) (item_rgb self)
       (Py.VInt (block_count self))
       (Py.join "," (map Py.str (block_sizes self)))
       (Py.join "," (map Py.str (block_starts self)))
       (Some (aux_items self))
       [].

Definition intervals (g : t) (c : comparison) : list (Z * Z) :=
  match c with
  | Exons => exons g
  | CdsExons => cds_exons g
  end.

Definition locus_overlap (self other : t) : bool :=
  if (start self >? end_ other) || (start other >? end_ self) then false
  else if negb (String.eqb (chrom self) (chrom other)) then false
  else if negb (String.eqb (strand self) (strand other)) then false
  else true.

Definition is_isoform (self other : t) (c : comparison) : bool :=
  if negb (locus_overlap self other) then false
  else existsb (fun ab => (fst (fst ab) =? fst (snd ab))
                          && (snd (fst ab) =? snd (snd ab)))
               (list_prod (intervals self c) (intervals other c)).

Definition identical (self other : t) (c : comparison) : bool :=
  let self_exons := Py.sorted Py.pair_leb (intervals self c) in
  let other_exons := Py.sorted Py.pair_leb (intervals other c) in
  (List.length self_exons =? List.length other_exons)%nat
  && forallb (fun ab => Py.pair_eqb (fst ab) (snd ab))
             (combine self_exons other_exons).

Definition overlap (self other : t) (c : comparison) : bool :=
  if negb (locus_overlap self other) then false
  else existsb (fun ab => (fst (fst ab) <=? snd (snd ab))
                          && (fst (snd ab) <=? snd (fst ab)))
               (list_prod (intervals self c) (intervals other c)).

Definition overlap_length (self other : t) (c : comparison) : Z :=
  if negb (locus_overlap self other) then 0
  else fold_left
         (fun len ab =>
            len + Z.max 0 (Z.min (snd (fst ab)) (snd (snd ab))
                           - Z.max (fst (fst ab)) (fst (snd ab))))
         (list_prod (intervals self c) (intervals other c)) 0.

End Gene.

(** ** Properties the statements below are about *)

Module Props.
Import Gene.

(** What a block contributes, read off the loop body of [__init__]. *)
Definition block_exon (g_start : Z) (b : Z * Z) : Z * Z :=
  (fst b + g_start, fst b + g_start + snd b).

Definition block_cds (g_start cs ce : Z) (b : Z * Z) : list (Z * Z) :=
  snd (block_step g_start cs ce ([], []) b).





(** Intervals with their bounds in order, and lists of intervals no two of
    which meet (as closed intervals, the test [overlap] makes). *)
Definition ordered (e : Z * Z) : Prop := fst e <= snd e.

Definition disjoint (a b : Z * Z) : Prop := snd a < fst b \/ snd b < fst a.

Definition pairwise_disjoint (l : list (Z * Z)) : Prop :=
  ForallOrdPairs disjoint l.

(** What one pair of intervals adds in [overlap_length] (line 134). *)
Definition pair_overlap (ab : (Z * Z) * (Z * Z)) : Z :=
  Z.max 0 (Z.min (snd (fst ab)) (snd (snd ab))
           - Z.max (fst (fst ab)) (fst (snd ab))).

(** The double sum over [itertools.product(l1, l2)], and its rows and
    columns. *)
Definition product_sum (l1 l2 : list (Z * Z)) : Z :=
  Py.sum (map pair_overlap (list_prod l1 l2)).

Definition row_sum (x : Z * Z) (l : list (Z * Z)) : Z :=
  Py.sum (map (fun y => pair_overlap (x, y)) l).

Definition column_sum (l : list (Z * Z)) (y : Z * Z) : Z :=
  Py.sum (map (fun x => pair_overlap (x, y)) l).

(** An exon's length as [length] counts it, and its span. *)
Definition own_length (e : Z * Z) : Z := snd e - fst e + 1.
Definition span (e : Z * Z) : Z := snd e - fst e.

End Props.

(** ** seq.py *)

Module Fasta.

Record Seq : Type := mkSeq {
  name : string;
  sequence : string;
  description : option string
}.

(** An opened text file: its decoded characters and the read position,
    which is what [tell] returns and [seek] sets. *)
Record file : Type := mkFile {
  content : list ascii;
  pos : nat
}.

Definition remaining (f : file) : list ascii := skipn (pos f) (content f).

(** The first loop of [parse_fasta_record] (lines 42-47): [read(1)] until
    a ['>'] has been read; [None] when the end of the file comes first.
    [rest] is what is still unread and [p] the position. *)
Fixpoint find_header (rest : list ascii) (p : nat)
    : option (list ascii * nat) :=
  match rest with
  | [] => None
  | c :: r => if Ascii.eqb c ">" then Some (r, S p) else find_header r (S p)
  end.

(** [file.readline()]: up to and including the next newline. *)
Fixpoint readline (rest : list ascii) : list ascii * list ascii :=
  match rest with
  | [] => ([], [])
  | c :: r =>
      if Ascii.eqb c "010" then ([c], r)
      else let '(line, r') := readline r in (c :: line, r')
  end.

Fixpoint span_word (l : list ascii) : list ascii * list ascii :=
  match l with
  | [] => ([], [])
  | c :: r =>
      if Py.isspace c then ([], l)
      else let '(w, r') := span_word r in (c :: w, r')
  end.

(** [s.split(maxsplit=1)]: the first word, then whatever follows the
    white space after it. *)
Definition split_maxsplit1 (l : list ascii) : list (list ascii) :=
  match Py.lstrip_by Py.isspace l with
  | [] => []
  | l' =>
      let '(w, r) := span_word l' in
      match Py.lstrip_by Py.isspace r with
      | [] => [w]
      | d => [w; d]
      end
  end.

(** The second loop (lines 55-63), with the [sequence] read so far: white
    space is skipped, anything else is appended, a ['>'] is appended and
    ends the loop.  The flag is [end_of_file]. *)
Fixpoint read_body (rest : list ascii) (sequence_acc : list ascii) (p : nat)
    : list ascii * nat * bool :=
  match rest with
  | [] => (sequence_acc, p, true)
  | c :: r =>
      if Py.isspace c then read_body r sequence_acc (S p)
      else if Ascii.eqb c ">" then (sequence_acc ++ [c], S p, false)
      else read_body r (sequence_acc ++ [c]) (S p)
  end.

(** [parse_fasta_record]: the record and the file as it is left. *)
Definition parse_fasta_record (f : file) : result (Seq * file) :=
  match find_header (remaining f) (pos f) with
  | None => Err StopIteration
  | Some (rest, p1) =>
      let '(header, rest2) := readline rest in
      let p2 := (p1 + List.length header)%nat in
      match split_maxsplit1 (Py.strip_by Py.isspace header) with
      | [] => Err IndexError
      | id :: fields_tl =>
          let descr := option_map string_of_list_ascii (hd_error fields_tl) in
          let '(sequence_v, p3, end_of_file) := read_body rest2 [] p2 in
          if end_of_file then
            Ok (mkSeq (string_of_list_ascii id)
                      (string_of_list_ascii sequence_v) descr,
                mkFile (content f) p3)
          else
            Ok (mkSeq (string_of_list_ascii id)
                      (string_of_list_ascii (removelast sequence_v)) descr,
                mkFile (content f) (p3 - 1))
      end
  end.

(** *** Index records *)

Module FastaIndexRecord.

Record t : Type := mk {
  name : string;
  length : Z;
  offset : Z;
  line_bases : Z;
  line_width : Z
}.

(** [FastaIndexRecord.from_string] *)
Definition from_string (line : string) : result t :=
  match Py.split "009" line with
  | [f0; f1; f2; f3; f4] =>
      len <- Py.int (Py.VStr f1) ;;
      off <- Py.int (Py.VStr f2) ;;
      lb <- Py.int (Py.VStr f3) ;;
      lw <- Py.int (Py.VStr f4) ;;
      Ok (mk f0 len off lb lw)
  | fields =>
      Err (ValueError
             ("Malformed fasta index record. Expected 5 but got "
              ++ Py.str (Z.of_nat (List.length fields))
              ++ ". Offending line was: " ++ String "010" line)%string)
  end.

End FastaIndexRecord.

(** The files on disk: a path is mapped to the text of the file there. *)
Definition filesystem : Type := string -> option string.

Definition exists_ (fs : filesystem) (path : string) : bool :=
  match fs path with Some _ => true | None => false end.

(** Iterating over an opened file: each line keeps its newline. *)
Fixpoint lines_of (l : list ascii) (cur : list ascii) : list string :=
  match l with
  | [] => match cur with
          | [] => []
          | _ => [string_of_list_ascii (rev cur)]
          end
  | c :: r =>
      if Ascii.eqb c "010"
      then string_of_list_ascii (rev (c :: cur)) :: lines_of r []
      else lines_of r (c :: cur)
  end.

Definition file_lines (text : string) : list string :=
  lines_of (list_ascii_of_string text) [].

Module IndexedFasta.

Record t : Type := mk {
  filename : string;
  index_filename : string;
  records : PyDict.t string FastaIndexRecord.t
}.

(** [IndexedFasta.__init__] *)
Definition init (fs : filesystem) (filename_arg : string) : result t :=
  let index_fn := (filename_arg ++ ".fai")%string in
  if negb (exists_ fs filename_arg) then
    Err (ValueError (filename_arg ++ " does not exist")%string)
  else
    match fs index_fn with
    | None =>
        Err (ValueError
               ("No " ++ index_fn ++ " found! Indexed fasta files require an"
                ++ " index. See e.g. samtools faidx for help.")%string)
    | Some text =>
        recs <- mapM FastaIndexRecord.from_string (file_lines text) ;;
        let d := PyDict.of_pairs String.eqb
                   (map (fun r => (FastaIndexRecord.name r, r)) recs) in
        if negb (List.length d =? List.length recs)%nat then
          Err (ValueError
                 ("Non-unique sequence names in " ++ filename_arg)%string)
        else Ok (mk filename_arg index_fn d)
    end.

Definition sequences (self : t) : list string :=
  PyDict.keys (records self).

End IndexedFasta.

Module IndexedFastaCollection.

Record t : Type := mk {
  index_map : PyDict.t string IndexedFasta.t
}.

Definition collision_message (k : string) : string :=
  ("Key collision: sequence name " ++ k ++ " appears more than once.")%string.

(** The inner loop of [__init__] (lines 222-225). *)
Fixpoint add_sequences (indexed_fasta : IndexedFasta.t) (ks : list string)
    (m : PyDict.t string IndexedFasta.t)
    : result (PyDict.t string IndexedFasta.t) :=
  match ks with
  | [] => Ok m
  | k :: r =>
      if PyDict.contains String.eqb m k
      then Err (ValueError (collision_message k))
      else add_sequences indexed_fasta r
             (PyDict.set String.eqb m k indexed_fasta)
  end.

(** The outer loop (line 221). *)
Fixpoint add_indices (indexed_fastas : list IndexedFasta.t)
    (m : PyDict.t string IndexedFasta.t)
    : result (PyDict.t string IndexedFasta.t) :=
  match indexed_fastas with
  | [] => Ok m
  | x :: r =>
      m' <- add_sequences x (IndexedFasta.sequences x) m ;; add_indices r m'
  end.

(** [IndexedFastaCollection.__init__] *)
Definition init (fs : filesystem) (files : list string) : result t :=
  indexed_fastas <- mapM (IndexedFasta.init fs) files ;;
  m <- add_indices indexed_fastas [] ;;
  Ok (mk m).

Definition keys (self : t) : list string := PyDict.keys (index_map self).

End IndexedFastaCollection.

(** *** What the statements about FASTA parsing use *)

Definition newline : ascii := "010"%char.

(** The characters of a record body that reach the sequence. *)
Definition nonspace (body : list ascii) : list ascii :=
  filter (fun c => negb (Py.isspace c)) body.

(** [header.strip().split(maxsplit=1)] *)
Definition header_fields (header : list ascii) : list (list ascii) :=
  split_maxsplit1 (Py.strip_by Py.isspace header).

(** A name found in the indices at two different places of the list. *)
Definition shared (indexed_fastas : list IndexedFasta.t) (k : string) : Prop :=
  exists l1 a l2 b l3,
    indexed_fastas = l1 ++ a :: l2 ++ b :: l3
    /\ In k (IndexedFasta.sequences a) /\ In k (IndexedFasta.sequences b).

(** A name that the loops of [IndexedFastaCollection.__init__] would find
    already stored: one stored before the loops began and found in an
    index, or one shared by two indices. *)
Definition collides (m : PyDict.t string IndexedFasta.t)
    (indexed_fastas : list IndexedFasta.t) (k : string) : Prop :=
  (In k (PyDict.keys m)
   /\ exists a, In a indexed_fastas /\ In k (IndexedFasta.sequences a))
  \/ shared indexed_fastas k.

(** Two index files for the statements to be tried on: [a.fa] lists
    [s1] and [s2], [b.fa] lists [s3] and [s2], [c.fa] lists [s4]. *)
Definition index_line (nm : string) : string :=
  (nm ++ String "009" ("2" ++ String "009" ("4" ++ String "009"
      ("2" ++ String "009" ("3" ++ String "010" "")))))%string.

Definition example_fs : filesystem := fun path =>
  if String.eqb path "a.fa" then Some ">s1"
  else if String.eqb path "a.fa.fai"
       then Some (index_line "s1" ++ index_line "s2")%string
  else if String.eqb path "b.fa" then Some ">s3"
  else if String.eqb path "b.fa.fai"
       then Some (index_line "s3" ++ index_line "s2")%string
  else if String.eqb path "c.fa" then Some ">s4"
  else if String.eqb path "c.fa.fai" then Some (index_line "s4")
  else None.

End Fasta.

(** ** gene.py: printing and sequence extraction *)

Module GeneMethods.
Import Gene.

(** [str(x)] of a value that is an integer or already a string. *)
Definition str_val (x : Py.pyval) : string :=
  match x with
  | Py.VInt z => Py.str z
  | Py.VStr s => s
  end.

(** The twelve columns that [__str__] and the BED writer print. *)
Definition columns (self : t) : list string :=
  [chrom self; Py.str (start self); Py.str (end_ self); name self;
   Py.str (score self); strand self;
   Py.str (cds_start self); Py.str (cds_end self); str_val (item_rgb self);
   Py.str (block_count self);
   Py.join "," (map Py.str (block_sizes self));
   Py.join "," (map Py.str (block_starts self))].

(** [Gene.__str__] *)
Definition to_str (self : t) : string :=
  Py.join (String "009" "") (columns self).

(** An index of a slice, brought into [[0, n]] as slicing does. *)
Definition clamp (n i : Z) : Z :=
  if i <? 0 then Z.max 0 (i + n) else Z.min i n.

(** [seq[a:b]] *)
Definition slice (l : list ascii) (a b : Z) : list ascii :=
  let n := Z.of_nat (List.length l) in
  let a' := clamp n a in
  let b' := clamp n b in
  firstn (Z.to_nat (b' - a')) (skipn (Z.to_nat a') l).

Definition start_leb (a b : Z * Z) : bool := fst a <=? fst b.

(** [Gene._get_seq] *)
Definition get_seq (self : t) (seq : string) (exs : list (Z * Z)) : string :=
  let gseq :=
    string_of_list_ascii
      (List.concat
         (map (fun c => slice (list_ascii_of_string seq) (fst c - 1) (snd c))
              (Py.sorted start_leb exs))) in
  if String.eqb (strand self) "-" then reverse_complement gseq else gseq.

Definition get_cds (self : t) (seq : string) : string :=
  get_seq self seq (cds_exons self).

Definition get_exons (self : t) (seq : string) : string :=
  get_seq self seq (exons self).

End GeneMethods.

(** ** seq.py: writing records and looking sequences up *)

Module FastaOps.
Import Fasta.

(** [range(0, n, step)] for [n >= 0]; a zero step is refused. *)
Definition range0 (n step : Z) : result (list Z) :=
  if step =? 0 then Err (ValueError "range() arg 3 must not be zero")
  else if step <? 0 then Ok []
  else Ok (map (fun k => Z.of_nat k * step)
               (seq 0 (Z.to_nat ((n + step - 1) / step)))).

(** [fasta_string] *)
Definition fasta_string (s : Seq) (wrap : Z) : result string :=
  let descr := match description s with
               | Some d => (" " ++ d)%string
               | None => ""
               end in
  let chars := list_ascii_of_string (sequence s) in
  starts <- range0 (Z.of_nat (List.length chars)) wrap ;;
  let wrapped_seq :=
    Py.join (String "010" "")
      (map (fun i => string_of_list_ascii
                       (GeneMethods.slice chars i (i + wrap))) starts) in
  Ok (">" ++ name s ++ descr ++ String "010" (wrapped_seq ++ String "010" ""))%string.

(** [write_fasta_record]: the text is appended to what the file holds. *)
Definition write_fasta_record (s : Seq) (written : string) (wrap : Z)
    : result string :=
  text <- fasta_string s wrap ;; Ok (written ++ text)%string.

(** What a file opened in text mode gives to read from a place in its
    content (the default [newline=None]): a carriage return, with the line
    feed that follows it if one does, is read as one line feed. *)
Fixpoint universal_newlines (data : list ascii) : list ascii :=
  match data with
  | [] => []
  | c :: r =>
      if Ascii.eqb c "013" then
        "010"%char :: match r with
                      | c' :: r' =>
                          if Ascii.eqb c' "010" then universal_newlines r'
                          else universal_newlines r
                      | [] => []
                      end
      else c :: universal_newlines r
  end.

(** The loop of [IndexedFasta.get_sequence] (lines 204-206): from
    [offset] backwards until the character read is ['>']; seeking before
    the start of the file is refused.  The character read at a place is
    ['>'] exactly when the content has ['>'] there. *)
Fixpoint scan_back (text : list ascii) (offset : nat) : result nat :=
  match nth_error text offset with
  | Some ">"%char => Ok offset
  | _ => match offset with
         | O => Err (ValueError "negative seek position -1")
         | S o => scan_back text o
         end
  end.

(** [IndexedFasta.get_sequence]; [text] is the content of
    [self.filename], one character for each byte: [seek] goes to a byte
    of the file, and what [parse_fasta_record] reads from there is the
    content after it as text mode gives it.  Bytes below 128 are read as
    themselves; what a byte of 128 or more is read as is the choice of
    the platform's encoding, so the statements that depend on what is
    read are about content below 128. *)
Definition get_sequence (text : list ascii) (self : IndexedFasta.t)
    (nm : string) : result Seq :=
  match PyDict.get String.eqb (IndexedFasta.records self) nm with
  | None =>
      Err (KeyError ("No such sequence " ++ nm ++ " in "
                     ++ IndexedFasta.filename self)%string)
  | Some record =>
      let offset := FastaIndexRecord.offset record in
      if offset <? 0 then
        Err (ValueError ("negative seek position " ++ Py.str offset)%string)
      else
        o <- scan_back text (Z.to_nat offset) ;;
        r <- parse_fasta_record
               (mkFile (universal_newlines (skipn o text)) 0) ;;
        Ok (fst r)
  end.

(** [IndexedFasta.__len__] and [__contains__] *)
Definition len (self : IndexedFasta.t) : nat :=
  List.length (IndexedFasta.records self).

Definition contains (self : IndexedFasta.t) (item : string) : bool :=
  PyDict.contains String.eqb (IndexedFasta.records self) item.

(** [IndexedFastaCollection.__contains__] *)
Definition collection_contains (self : IndexedFastaCollection.t)
    (item : string) : bool :=
  PyDict.contains String.eqb (IndexedFastaCollection.index_map self) item.

(** [IndexedFastaCollection.get_sequence]; [open_text] gives the text of
    the member files by name, all present since construction. *)
Definition collection_get_sequence (open_text : string -> list ascii)
    (self : IndexedFastaCollection.t) (nm : string) : result Seq :=
  match PyDict.get String.eqb (IndexedFastaCollection.index_map self) nm with
  | None =>
      Err (KeyError ("No such sequence " ++ nm ++ " found in any index!")%string)
  | Some index =>
      get_sequence (open_text (IndexedFasta.filename index)) index nm
  end.

End FastaOps.

(** ** parsers.py: BED and PSL lines *)

Module Parsers.

Definition tab : string := String "009" "".

(** [line.startswith(c)] for a one-character prefix. *)
Definition startswith (line : string) (c : ascii) : bool :=
  match line with
  | String a _ => Ascii.eqb a c
  | EmptyString => false
  end.

(** [BedIterator]: the records yielded, in order, and the exception that
    ended the iteration if one did.  [n] is the number of the line. *)
Fixpoint BedIterator_from (n : nat) (handle : list string)
    : list Gene.t * option exn :=
  match handle with
  | [] => ([], None)
  | line :: rest =>
      let skip := BedIterator_from (S n) rest in
      if startswith line "#" then skip
      else if (String.length (Py.strip line) =? 0)%nat then skip
      else
        match Py.split "009" (Py.strip line) with
        | [f0; f1; f2; f3; f4; f5; f6; f7; f8; f9; f10; f11] =>
            match Gene.init f0 (Py.VStr f1) (Py.VStr f2) f3 (Py.VStr f4)
                            f5 (Py.VStr f6) (Py.VStr f7) (Py.VStr f8)
                            (Py.VStr f9) f10 f11 None [] with
            | Ok g => (g :: fst skip, snd skip)
            | Err e => ([], Some e)
            end
        | _ =>
            ([], Some (ValueError
                         ("Incorrect number of fields on line "
                          ++ Py.str (Z.of_nat n) ++ String ":"
                               (String "010" line))%string))
        end
  end.

Definition BedIterator (handle : list string) : list Gene.t * option exn :=
  BedIterator_from 0 handle.

(** [Bed12Writer.write_gene]: the line appended to the handle. *)
Definition write_gene (written : string) (g : Gene.t) : string :=
  (written ++ GeneMethods.to_str g ++ String "010" "")%string.

(** The block starts of [parse_psl_line], made relative to [start]. *)
Definition corr_block_starts (start_arg : Py.pyval) (block_starts_arg : string)
    : result string :=
  parts <- mapM (fun s => a <- Py.int (Py.VStr s) ;;
                          b <- Py.int start_arg ;;
                          Ok (Py.str (a - b)))
                (filter (fun s => negb (String.length s =? 0)%nat)
                        (Py.split "," block_starts_arg)) ;;
  Ok (Py.join "," parts).

(** [parse_psl_line], with the columns it uses. *)
Definition parse_psl_line (matches strand_arg name_arg chrom_arg : string)
    (start_arg end_arg block_count_arg : Py.pyval)
    (block_sizes_arg block_starts_arg : string) : result Gene.t :=
  corr <- corr_block_starts start_arg block_starts_arg ;;
  Gene.init chrom_arg start_arg end_arg name_arg (Py.VStr matches) strand_arg
            (Py.VInt 0) (Py.VInt 0) (Py.VInt 0) block_count_arg
            block_sizes_arg corr None [].

End Parsers.

(** ** The record that the constructor assembles *)

Module GeneProps.
Import Gene.

(** The result of the block loop of [__init__]. *)
Definition derive (s cs ce : Z) (starts sizes : list Z)
    : list (Z * Z) * list (Z * Z) :=
  fold_left (block_step s cs ce) (combine starts sizes) ([], []).

(** The record [__init__] leaves once its arguments are converted. *)
Definition build (ch : string) (s e : Z) (nm : string) (sco : Z) (st : string)
    (cs ce : Z) (rgb : Py.pyval) (bc : Z) (sizes starts : list Z)
    (attrs_v : PyDict.t string attr_value) (kw : PyDict.t string Py.pyval)
    : t :=
  let d := derive s cs ce starts sizes in
  let plus := String.eqb st "+" in
  {| chrom := ch; start := s; end_ := e; name := nm; score := sco;
     strand := st; cds_start := cs; cds_end := ce; item_rgb := rgb;
     block_count := bc; block_sizes := sizes; block_starts := starts;
     attrs := attrs_v; aux := kw;
     exons := fst d; cds_exons := snd d;
     length := span_sum (fst d); cds_length := span_sum (snd d);
     fivep := if plus then s else e;
     cds_fivep := if plus then cs else ce |}.

(** A record as the constructor leaves it: the derived fields are those
    of its own positional fields. *)
Definition constructed (g : t) : Prop :=
  g = build (chrom g) (start g) (end_ g) (name g) (score g) (strand g)
            (cds_start g) (cds_end g) (item_rgb g) (block_count g)
            (block_sizes g) (block_starts g) (attrs g) (aux g).

(** The order of 2-tuples that [sorted] uses. *)
Definition lex_le (a b : Z * Z) : Prop :=
  fst a < fst b \/ (fst a = fst b /\ snd a <= snd b).

(** A 1-based inclusive interval that lies in a sequence of [n] letters. *)
Definition in_range (n : Z) (e : Z * Z) : Prop :=
  1 <= fst e /\ fst e <= snd e /\ snd e <= n.

End GeneProps.

(** ** What the statements about the index use *)

Module IndexProps.
Import Fasta.

(** Content that text mode reads as it is, in every encoding that
    extends ASCII: bytes below 128 and no carriage return. *)
Definition plain_bytes (text : list ascii) : Prop :=
  Forall (fun c => (Py.code c < 128)%N /\ c <> "013"%char) text.

(** Every stored name is stored with a member index that lists it. *)
Definition owned (xs : list IndexedFasta.t)
    (m : PyDict.t string IndexedFasta.t) : Prop :=
  forall k x, PyDict.get String.eqb m k = Some x ->
              In x xs /\ In k (IndexedFasta.sequences x).

End IndexProps.

(** ** What the statement about writing and reading a record uses *)

Module RoundTripProps.
Import Fasta.

(** A list that [strip] leaves alone at both ends. *)
Definition trimmed (l : list ascii) : Prop :=
  (forall c r, l = c :: r -> Py.isspace c = false)
  /\ (forall r c, l = r ++ [c] -> Py.isspace c = false).

(** Names, descriptions and sequences that a FASTA file can hold as they
    are: a name is not empty and has no white space; a description is
    not empty, has no newline and no white space at its ends; a sequence
    has no white space and no ['>']. *)
Definition plain_name (n : string) : Prop :=
  list_ascii_of_string n <> []
  /\ Forall (fun c => Py.isspace c = false) (list_ascii_of_string n).

Definition plain_description (d : option string) : Prop :=
  match d with
  | None => True
  | Some d =>
      list_ascii_of_string d <> []
      /\ trimmed (list_ascii_of_string d)
      /\ ~ In newline (list_ascii_of_string d)
  end.

Definition plain_sequence (q : string) : Prop :=
  Forall (fun c => Py.isspace c = false /\ c <> ">"%char)
         (list_ascii_of_string q).

End RoundTripProps.

(** ** What the statements about BED and PSL lines use *)

Module ParsersProps.

(** A text column: no tab and no newline in it. *)
Definition column_text (s : string) : Prop :=
  ~ In "009"%char (list_ascii_of_string s)
  /\ ~ In "010"%char (list_ascii_of_string s).

(** A record whose BED line can be read back: its text columns hold no
    tab and no newline, the chromosome name begins with a character that
    is neither white space nor ['#'], and there is a block start. *)
Definition bed_printable (g : Gene.t) : Prop :=
  (exists c r, list_ascii_of_string (Gene.chrom g) = c :: r
               /\ Py.isspace c = false /\ c <> "#"%char)
  /\ column_text (Gene.chrom g) /\ column_text (Gene.name g)
  /\ column_text (Gene.strand g)
  /\ column_text (GeneMethods.str_val (Gene.item_rgb g))
  /\ Gene.block_starts g <> [].

(** The lines that [BedIterator] does not skip. *)
Definition bed_data_line (line : string) : bool :=
  negb (Parsers.startswith line "#")
  && negb (String.length (Py.strip line) =? 0)%nat.

End ParsersProps.

(** ** Names for what [str] prints *)

Module PyProps.

Definition chars_of_uint (d : Decimal.uint) : list ascii :=
  list_ascii_of_string (NilEmpty.string_of_uint d).

Definition printed (z : Z) : list ascii := list_ascii_of_string (Py.str z).

End PyProps.

(** ** Theorems *)

Module GeneFacts.
Import Gene.

(** *** The complement table *)

Lemma In_chars (c : ascii) :
  existsb (Ascii.eqb c) (list_ascii_of_string chars) = true ->
  In c (list_ascii_of_string chars).
Proof.
  intros H. apply existsb_exists in H. destruct H as [x [Hx Heq]].
  apply Ascii.eqb_eq in Heq. now subst.
Qed.

Lemma complement_char_twice (c : ascii) :
  is_u c = false -> complement_char (complement_char c) = c.
Proof.
  destruct c as [[] [] [] [] [] [] [] []]; intros H;
    solve [reflexivity | discriminate H].
Qed.

Lemma reverse_complement_twice_list (l : list ascii) :
  Forall (fun c => is_u c = false) l ->
  rev (map complement_char (rev (map complement_char l))) = l.
Proof.
  intros H. rewrite map_rev, rev_involutive, map_map.
  induction H as [|c l Hc _ IH]; simpl; [reflexivity|].
  now rewrite complement_char_twice, IH.
Qed.

(** C1, as stated, fails: ['u'] complements to ['a'], whose complement is
    ['t']; so a supported string containing ['u'] is not restored. *)
Lemma C1_reverse_complement_u :
  supported "u" /\ reverse_complement (reverse_complement "u") = "t"
  /\ reverse_complement (reverse_complement "u") <> "u".
Proof.
  split; [|split].
  - constructor; [now apply In_chars | constructor].
  - reflexivity.
  - vm_compute. discriminate.
Qed.

(** C1, amended: for every string drawn from the supported alphabet other
    than ['u'] and ['U'], reverse-complementing twice gives the string
    back. *)
Theorem C1_reverse_complement_involutive (s : string) :
  supported_no_u s -> reverse_complement (reverse_complement s) = s.
Proof.
  intros H. unfold reverse_complement.
  rewrite list_ascii_of_string_of_list_ascii.
  rewrite reverse_complement_twice_list.
  - apply string_of_list_ascii_of_string.
  - eapply Forall_impl; [|exact H]. now intros c [_ Hc].
Qed.

Lemma C1_reverse_complement_involutive_witness :
  supported_no_u "acgtMRWSYKVHDBN"
  /\ reverse_complement (reverse_complement "acgtMRWSYKVHDBN")
     = "acgtMRWSYKVHDBN".
Proof.
  assert (H : supported_no_u "acgtMRWSYKVHDBN").
  { unfold supported_no_u. simpl.
    repeat (constructor; [split; [now apply In_chars | reflexivity]|]).
    constructor. }
  split; [exact H | exact (C1_reverse_complement_involutive _ H)].
Defined.


(** *** The block loop *)

Lemma block_step_split s cs ce exs cds b :
  block_step s cs ce (exs, cds) b
  = (exs ++ [Props.block_exon s b], cds ++ Props.block_cds s cs ce b).
Proof.
  unfold Props.block_cds, Props.block_exon, block_step.
  destruct b as [bstart size]. cbn [fst snd].
  destruct (_ || _); cbn [snd]; now rewrite ?app_nil_r.
Qed.

Lemma block_loop s cs ce bs : forall exs cds,
  fold_left (block_step s cs ce) bs (exs, cds)
  = (exs ++ map (Props.block_exon s) bs,
     cds ++ flat_map (Props.block_cds s cs ce) bs).
Proof.
  induction bs as [|b bs IH]; intros exs cds; cbn [fold_left map flat_map].
  - now rewrite !app_nil_r.
  - rewrite block_step_split, IH, <- !app_assoc. reflexivity.
Qed.

(** What every accepted record looks like. *)
Lemma init_derived ch sa ea nm sc st csa cea rgb bca bsz bst at_ kw g :
  init ch sa ea nm sc st csa cea rgb bca bsz bst at_ kw = Ok g ->
  exons g = map (Props.block_exon (start g))
                (combine (block_starts g) (block_sizes g))
  /\ cds_exons g = flat_map (Props.block_cds (start g) (cds_start g) (cds_end g))
                            (combine (block_starts g) (block_sizes g))
  /\ int_list bsz = Ok (block_sizes g)
  /\ int_list bst = Ok (block_starts g)
  /\ Py.int sa = Ok (start g) /\ Py.int ea = Ok (end_ g)
  /\ Py.int csa = Ok (cds_start g) /\ Py.int cea = Ok (cds_end g)
  /\ Py.int bca = Ok (block_count g).
Proof.
  unfold init.
  destruct (Py.int sa) as [s|]; [|discriminate].
  destruct (Py.int ea) as [e|]; [|discriminate].
  destruct (Py.int sc) as [sco|]; [|discriminate].
  destruct (Py.int csa) as [cs|]; [|discriminate].
  destruct (Py.int cea) as [ce|]; [|discriminate].
  destruct (Py.int bca) as [bc|]; [|discriminate].
  destruct (int_list bsz) as [sizes|]; [|discriminate].
  destruct (int_list bst) as [starts|]; [|discriminate].
  cbn [bind]. rewrite block_loop. cbn [app].
  intros H. injection H as <-. cbn. repeat split; reflexivity.
Qed.

Ltac order_bounds :=
  repeat (cbn [Py.sorted Py.insert];
          match goal with
          | |- context [Z.leb ?a ?b] => destruct (Z.leb_spec a b)
          end);
  cbn [Py.sorted Py.insert nth];
  repeat match goal with
         | |- context [Z.eqb ?a ?b] => destruct (Z.eqb_spec a b)
         end;
  cbn [andb orb snd fst app].

(** A block with ordered bounds contributes no CDS exon exactly when it
    ends at or before the CDS start or begins at or after the CDS end. *)
Lemma block_cds_nil s cs ce b :
  fst b + s <= fst b + s + snd b -> cs <= ce ->
  (Props.block_cds s cs ce b = []
   <-> fst b + s + snd b <= cs \/ ce <= fst b + s).
Proof.
  destruct b as [bstart size]. cbn [fst snd]. intros Hb Hc.
  unfold Props.block_cds, block_step. cbn [Py.sorted].
  order_bounds; split; intros Hx; try reflexivity; try discriminate Hx; lia.
Qed.

Lemma block_cds_whole s cs ce b :
  fst b + s = cs -> fst b + s + snd b = ce -> cs < ce ->
  Props.block_cds s cs ce b = [(cs, ce)].
Proof.
  destruct b as [bstart size]. cbn [fst snd]. intros Hs He Hlt.
  unfold Props.block_cds, block_step. cbn [Py.sorted].
  order_bounds; try lia; cbn [app]; f_equal; f_equal; lia.
Qed.

(** *** Construction *)

(** C9: the scenario record has [exons == [(100,150),(200,250)]] and
    [cds_exons == [(120,150)]], the part of the first exon inside
    [[120,180]]; the second exon lies past the CDS and contributes nothing.
    The fields the scenario leaves open are arbitrary. *)
Theorem C9_scenario_exons (chrom_arg name_arg : string) (score_arg bc : Z)
    (rgb : Py.pyval) (attrs_arg : option (PyDict.t string attr_value))
    (kwargs : PyDict.t string Py.pyval) :
  exists g,
    init chrom_arg (Py.VInt 100) (Py.VInt 200) name_arg (Py.VInt score_arg)
         "+" (Py.VInt 120) (Py.VInt 180) rgb (Py.VInt bc)
         "50,50" "0,100" attrs_arg kwargs = Ok g
    /\ exons g = [(100, 150); (200, 250)]
    /\ cds_exons g = [(120, 150)].
Proof.
  eexists. split; [reflexivity|]. split; reflexivity.
Qed.

(** C2: on a record built with [attrs={'ID': 'g1'}] and no keyword extras,
    [copy()] succeeds and the copy's [attrs] is empty: [copy] hands the
    dictionary of keyword extras to the constructor in the [attrs]
    position and never passes [self.attrs]. *)
Theorem C2_copy_drops_attrs :
  exists g c,
    init "chr1" (Py.VInt 100) (Py.VInt 200) "g" (Py.VInt 0) "+"
         (Py.VInt 120) (Py.VInt 180) (Py.VInt 0) (Py.VInt 2)
         "50,50" "0,100" (Some [("ID", Plain (Py.VStr "g1"))]) [] = Ok g
    /\ copy g = Ok c
    /\ attrs g = [("ID", Plain (Py.VStr "g1"))]
    /\ attrs c = []
    /\ attrs c <> attrs g.
Proof.
  eexists. eexists. split; [reflexivity|]. split; [reflexivity|].
  split; [reflexivity|]. split; [reflexivity|]. discriminate.
Qed.

(** What [copy] does with the two dictionaries, for every record. *)
Lemma copy_attrs (g c : t) :
  copy g = Ok c -> attrs c = aux_items g /\ aux c = [].
Proof.
  unfold copy, init. cbn [Py.int bind].
  destruct (int_list _) as [sizes|]; [|discriminate].
  destruct (int_list _) as [starts|]; [|discriminate].
  cbn [bind]. rewrite block_loop. intros H. injection H as <-. now cbn.
Qed.

(** An extra named like an attribute that [__init__] assigns itself is
    found by [copy] with the constructor's value, not the caller's. *)
Lemma copy_reads_instance_dictionary :
  exists g c,
    init "chr1" (Py.VInt 100) (Py.VInt 200) "g" (Py.VInt 0) "+"
         (Py.VInt 120) (Py.VInt 180) (Py.VInt 0) (Py.VInt 2)
         "50,50" "0,100" None
         [("fivep", Py.VStr "x"); ("tag", Py.VStr "t")] = Ok g
    /\ copy g = Ok c
    /\ attrs c = [("fivep", Plain (Py.VInt 100)); ("tag", Plain (Py.VStr "t"))]
    /\ aux c = [].
Proof.
  eexists. eexists. split; [reflexivity|]. split; [reflexivity|].
  split; reflexivity.
Qed.


(** C4, as stated, fails: the one block of this record is the whole CDS
    span [(100,150)], and it is not skipped. *)
Lemma C4_block_equal_to_cds_not_skipped :
  exists g,
    init "chr1" (Py.VInt 100) (Py.VInt 150) "g" (Py.VInt 0) "+"
         (Py.VInt 100) (Py.VInt 150) (Py.VInt 0) (Py.VInt 1)
         "50" "0" None [] = Ok g
    /\ exons g = [(cds_start g, cds_end g)]
    /\ cds_start g < cds_end g
    /\ cds_exons g = [(100, 150)]
    /\ cds_exons g <> [].
Proof.
  eexists. split; [reflexivity|]. cbn.
  repeat split; try reflexivity; try lia; discriminate.
Qed.

(** C4, amended: a block whose interval is the full CDS span, with
    [start' < end'], is kept: [(cds_start, cds_end)] is appended to
    [cds_exons] for it.  With ordered bounds, the blocks for which nothing
    is appended are exactly those that end at or before [cds_start] or
    begin at or after [cds_end]. *)
Theorem C4_block_equal_to_cds_kept (s cs ce : Z) (exs cds : list (Z * Z))
    (b : Z * Z) :
  fst b + s <= fst b + s + snd b -> cs <= ce ->
  (fst b + s = cs -> fst b + s + snd b = ce -> cs < ce ->
   block_step s cs ce (exs, cds) b = (exs ++ [(cs, ce)], cds ++ [(cs, ce)]))
  /\ (snd (block_step s cs ce (exs, cds) b) = cds
      <-> fst b + s + snd b <= cs \/ ce <= fst b + s).
Proof.
  intros Hb Hc. rewrite block_step_split. split.
  - intros Hs He Hlt. rewrite (block_cds_whole s cs ce b Hs He Hlt).
    unfold Props.block_exon. now rewrite He, Hs.
  - cbn [snd]. rewrite <- (block_cds_nil s cs ce b Hb Hc). split.
    + intros H. rewrite <- (app_nil_r cds) in H at 2.
      now apply app_inv_head in H.
    + intros ->. apply app_nil_r.
Qed.

Lemma C4_block_equal_to_cds_kept_witness :
  block_step 100 100 150 ([], []) (0, 50) = ([(100, 150)], [(100, 150)])
  /\ (snd (block_step 100 100 150 ([], []) (0, 50)) = []
      <-> 0 + 100 + 50 <= 100 \/ 150 <= 0 + 100).
Proof.
  assert (H1 : fst (0, 50) + 100 <= fst (0, 50) + 100 + snd (0, 50))
    by (cbn; lia).
  assert (H2 : 100 <= 150) by lia.
  destruct (C4_block_equal_to_cds_kept 100 100 150 [] [] (0, 50) H1 H2)
    as [Ha Hb].
  split; [apply Ha; cbn; lia | exact Hb].
Defined.

End GeneFacts.

(** ** Interval comparisons *)

Module IntervalFacts.
Import Gene.

(** *** [sorted] keeps the elements *)

Section SortedFacts.
Context {A : Type} (leb : A -> A -> bool).

Lemma insert_In x y l : In y (Py.insert leb x l) <-> x = y \/ In y l.
Proof.
  induction l as [|z l IH]; cbn; [tauto|].
  destruct (leb x z); cbn; [tauto|]. rewrite IH. tauto.
Qed.

Lemma sorted_In y l : In y (Py.sorted leb l) <-> In y l.
Proof.
  induction l as [|z l IH]; cbn; [tauto|].
  rewrite insert_In, IH. tauto.
Qed.
End SortedFacts.

Lemma pair_eqb_eq (a b : Z * Z) : Py.pair_eqb a b = true -> a = b.
Proof.
  destruct a, b. unfold Py.pair_eqb. cbn [fst snd].
  rewrite andb_true_iff, !Z.eqb_eq. now intros [-> ->].
Qed.

Lemma all_equal_combine (l1 l2 : list (Z * Z)) :
  List.length l1 = List.length l2 ->
  forallb (fun ab => Py.pair_eqb (fst ab) (snd ab)) (combine l1 l2) = true ->
  l1 = l2.
Proof.
  revert l2. induction l1 as [|x l1 IH]; intros [|y l2] Hlen Hall;
    try discriminate Hlen; [reflexivity|].
  cbn in Hall. apply andb_true_iff in Hall. destruct Hall as [Hxy Hall].
  apply pair_eqb_eq in Hxy. injection Hlen as Hlen.
  now rewrite Hxy, (IH l2 Hlen Hall).
Qed.

Lemma identical_sorted (a b : t) (c : comparison) :
  identical a b c = true ->
  Py.sorted Py.pair_leb (intervals a c) = Py.sorted Py.pair_leb (intervals b c).
Proof.
  unfold identical. cbn zeta. rewrite andb_true_iff, Nat.eqb_eq.
  intros [Hlen Hall]. now apply all_equal_combine.
Qed.

Lemma identical_same_members (a b : t) (c : comparison) (x : Z * Z) :
  identical a b c = true -> In x (intervals a c) <-> In x (intervals b c).
Proof.
  intros H. apply identical_sorted in H.
  now rewrite <- (sorted_In Py.pair_leb x (intervals a c)), H, sorted_In.
Qed.

(** *** The two existential tests *)

Lemma is_isoform_true (a b : t) (c : comparison) :
  is_isoform a b c = true <->
  locus_overlap a b = true
  /\ exists x y, In x (intervals a c) /\ In y (intervals b c)
                 /\ fst x = fst y /\ snd x = snd y.
Proof.
  unfold is_isoform. destruct (locus_overlap a b); cbn [negb].
  - rewrite existsb_exists. split.
    + intros [[x y] [Hin Heq]]. apply in_prod_iff in Hin.
      cbn [fst snd] in Heq. apply andb_true_iff in Heq.
      rewrite !Z.eqb_eq in Heq. split; [reflexivity|]. exists x, y. tauto.
    + intros [_ [x [y (Hx & Hy & H1 & H2)]]]. exists (x, y). split.
      * now apply in_prod_iff.
      * cbn [fst snd]. apply andb_true_iff. now rewrite !Z.eqb_eq.
  - split; [discriminate | intros [H _]; discriminate H].
Qed.

Lemma overlap_true (a b : t) (c : comparison) :
  overlap a b c = true <->
  locus_overlap a b = true
  /\ exists x y, In x (intervals a c) /\ In y (intervals b c)
                 /\ fst x <= snd y /\ fst y <= snd x.
Proof.
  unfold overlap. destruct (locus_overlap a b); cbn [negb].
  - rewrite existsb_exists. split.
    + intros [[x y] [Hin Heq]]. apply in_prod_iff in Hin.
      cbn [fst snd] in Heq. apply andb_true_iff in Heq.
      rewrite !Z.leb_le in Heq. split; [reflexivity|]. exists x, y. tauto.
    + intros [_ [x [y (Hx & Hy & H1 & H2)]]]. exists (x, y). split.
      * now apply in_prod_iff.
      * cbn [fst snd]. apply andb_true_iff. now rewrite !Z.leb_le.
  - split; [discriminate | intros [H _]; discriminate H].
Qed.

(** C5, as stated, fails: [identical] never looks at the locus.  These two
    records carry the same single exon on different chromosomes: they are
    identical, yet neither isoforms nor overlapping. *)
Lemma C5_identical_on_other_chromosome :
  exists a b,
    init "chr1" (Py.VInt 100) (Py.VInt 200) "a" (Py.VInt 0) "+"
         (Py.VInt 120) (Py.VInt 180) (Py.VInt 0) (Py.VInt 1)
         "50" "0" None [] = Ok a
    /\ init "chr2" (Py.VInt 100) (Py.VInt 200) "b" (Py.VInt 0) "+"
            (Py.VInt 120) (Py.VInt 180) (Py.VInt 0) (Py.VInt 1)
            "50" "0" None [] = Ok b
    /\ intervals a Exons <> [] /\ intervals b Exons <> []
    /\ identical a b Exons = true
    /\ is_isoform a b Exons = false
    /\ overlap a b Exons = false.
Proof.
  eexists. eexists.
  split; [vm_compute; reflexivity|]. split; [vm_compute; reflexivity|].
  split; [discriminate|]. split; [discriminate|].
  split; [reflexivity|]. split; reflexivity.
Qed.

(** C5, amended: for records [a] and [b] with [locus_overlap(a, b)] whose
    chosen interval sets are both non-empty, [identical(a, b)] implies
    [is_isoform(a, b)], and also [overlap(a, b)] when the intervals of [a]
    have their bounds in order. *)
Theorem C5_identical_implies_isoform_and_overlap (a b : t) (c : comparison) :
  intervals a c <> [] -> intervals b c <> [] ->
  locus_overlap a b = true ->
  identical a b c = true ->
  is_isoform a b c = true
  /\ (Forall Props.ordered (intervals a c) -> overlap a b c = true).
Proof.
  intros Ha _ Hloc Hid.
  destruct (intervals a c) as [|x l] eqn:Hl; [now elim Ha|].
  assert (Hxa : In x (intervals a c)) by (rewrite Hl; now left).
  assert (Hxb : In x (intervals b c))
    by now apply (identical_same_members a b c x Hid).
  rewrite <- Hl. split.
  - apply is_isoform_true. split; [exact Hloc|]. now exists x, x.
  - intros Hord. apply overlap_true. split; [exact Hloc|].
    rewrite Forall_forall in Hord. specialize (Hord x Hxa).
    unfold Props.ordered in Hord. exists x, x. tauto.
Qed.

Lemma C5_identical_implies_isoform_and_overlap_witness :
  exists a b,
    init "chr1" (Py.VInt 100) (Py.VInt 200) "a" (Py.VInt 0) "+"
         (Py.VInt 120) (Py.VInt 180) (Py.VInt 0) (Py.VInt 2)
         "20,30" "0,60" None [] = Ok a
    /\ init "chr1" (Py.VInt 90) (Py.VInt 210) "b" (Py.VInt 7) "+"
            (Py.VInt 100) (Py.VInt 190) (Py.VInt 0) (Py.VInt 2)
            "30,20" "70,10" None [] = Ok b
    /\ identical a b Exons = true
    /\ is_isoform a b Exons = true
    /\ overlap a b Exons = true.
Proof.
  eexists. eexists.
  split; [vm_compute; reflexivity|]. split; [vm_compute; reflexivity|].
  split; [reflexivity|].
  match goal with
  | |- is_isoform ?a ?b _ = _ /\ _ =>
      assert (Ha : intervals a Exons <> []) by discriminate;
      assert (Hb : intervals b Exons <> []) by discriminate;
      destruct (C5_identical_implies_isoform_and_overlap a b Exons Ha Hb
                  eq_refl eq_refl) as [Hiso Hov]
  end.
  split; [exact Hiso|]. apply Hov.
  repeat constructor; unfold Props.ordered; cbn; lia.
Defined.

(** C6: for records whose intervals have their bounds in order,
    [is_isoform(a, b)] implies [overlap(a, b)] on the same comparison set;
    and some pair of records overlaps without being isoforms. *)
Theorem C6_isoform_implies_overlap_not_conversely :
  (forall (a b : t) (c : comparison),
      Forall Props.ordered (intervals a c) ->
      Forall Props.ordered (intervals b c) ->
      is_isoform a b c = true -> overlap a b c = true)
  /\ (exists a b,
        init "chr1" (Py.VInt 100) (Py.VInt 200) "a" (Py.VInt 0) "+"
             (Py.VInt 120) (Py.VInt 180) (Py.VInt 0) (Py.VInt 1)
             "50" "0" None [] = Ok a
        /\ init "chr1" (Py.VInt 120) (Py.VInt 220) "b" (Py.VInt 0) "+"
                (Py.VInt 120) (Py.VInt 180) (Py.VInt 0) (Py.VInt 1)
                "50" "0" None [] = Ok b
        /\ overlap a b Exons = true
        /\ is_isoform a b Exons = false).
Proof.
  split.
  - intros a b c Ha _ Hiso. apply is_isoform_true in Hiso.
    destruct Hiso as [Hloc [x [y (Hx & Hy & H1 & H2)]]].
    apply overlap_true. split; [exact Hloc|].
    rewrite Forall_forall in Ha. specialize (Ha x Hx).
    unfold Props.ordered in Ha. exists x, y. repeat split; try assumption; lia.
  - eexists. eexists.
    split; [vm_compute; reflexivity|]. split; [vm_compute; reflexivity|].
    split; reflexivity.
Qed.

Lemma C6_isoform_implies_overlap_not_conversely_witness :
  exists a b,
    init "chr1" (Py.VInt 100) (Py.VInt 200) "a" (Py.VInt 0) "+"
         (Py.VInt 120) (Py.VInt 180) (Py.VInt 0) (Py.VInt 2)
         "20,30" "0,60" None [] = Ok a
    /\ init "chr1" (Py.VInt 90) (Py.VInt 210) "b" (Py.VInt 7) "+"
            (Py.VInt 100) (Py.VInt 190) (Py.VInt 0) (Py.VInt 2)
            "30,20" "70,40" None [] = Ok b
    /\ is_isoform a b Exons = true
    /\ overlap a b Exons = true.
Proof.
  eexists. eexists.
  split; [vm_compute; reflexivity|]. split; [vm_compute; reflexivity|].
  split; [reflexivity|].
  apply (proj1 C6_isoform_implies_overlap_not_conversely).
  - repeat constructor; unfold Props.ordered; cbn; lia.
  - repeat constructor; unfold Props.ordered; cbn; lia.
  - reflexivity.
Defined.

(** *** Overlap length *)

Lemma sum_from (l : list Z) (acc : Z) : fold_left Z.add l acc = acc + Py.sum l.
Proof.
  unfold Py.sum. revert acc. induction l as [|x l IH]; intros acc; cbn.
  - lia.
  - rewrite (IH (acc + x)), (IH x). lia.
Qed.

Lemma sum_cons (x : Z) (l : list Z) : Py.sum (x :: l) = x + Py.sum l.
Proof. unfold Py.sum. cbn. now rewrite sum_from. Qed.

Lemma sum_app (l1 l2 : list Z) : Py.sum (l1 ++ l2) = Py.sum l1 + Py.sum l2.
Proof.
  induction l1 as [|x l1 IH]; cbn [app]; [reflexivity|].
  rewrite !sum_cons, IH. lia.
Qed.

Lemma accumulate_sum {A : Type} (f : A -> Z) (l : list A) (acc : Z) :
  fold_left (fun len x => len + f x) l acc = acc + Py.sum (map f l).
Proof.
  revert acc. induction l as [|x l IH]; intros acc; cbn [fold_left map].
  - unfold Py.sum. cbn. lia.
  - rewrite IH, sum_cons. lia.
Qed.

Lemma overlap_length_product_sum (a b : t) (c : comparison) :
  locus_overlap a b = true ->
  overlap_length a b c = Props.product_sum (intervals a c) (intervals b c).
Proof.
  intros H. unfold overlap_length. rewrite H. cbn [negb].
  now rewrite (accumulate_sum Props.pair_overlap).
Qed.

Lemma locus_overlap_self (a : t) :
  start a <= end_ a -> locus_overlap a a = true.
Proof.
  intros H. unfold locus_overlap.
  destruct (Z.gtb_spec (start a) (end_ a)); [lia|]. cbn [orb].
  now rewrite !String.eqb_refl.
Qed.

Lemma product_sum_cons_l x l1 l2 :
  Props.product_sum (x :: l1) l2 = Props.row_sum x l2 + Props.product_sum l1 l2.
Proof.
  unfold Props.product_sum, Props.row_sum. cbn [list_prod].
  now rewrite map_app, sum_app, map_map.
Qed.

Lemma product_sum_cons_r l1 y l2 :
  Props.product_sum l1 (y :: l2) = Props.column_sum l1 y + Props.product_sum l1 l2.
Proof.
  induction l1 as [|x l1 IH].
  - reflexivity.
  - rewrite !product_sum_cons_l, IH. unfold Props.row_sum, Props.column_sum.
    cbn [map]. rewrite !sum_cons. lia.
Qed.

Lemma pair_overlap_nonneg ab : 0 <= Props.pair_overlap ab.
Proof. unfold Props.pair_overlap. lia. Qed.

Lemma pair_overlap_self x : Props.span x <= Props.pair_overlap (x, x).
Proof. unfold Props.pair_overlap, Props.span. cbn [fst snd]. lia. Qed.

Lemma pair_overlap_self_ordered x :
  Props.ordered x -> Props.pair_overlap (x, x) = Props.span x.
Proof.
  unfold Props.pair_overlap, Props.span, Props.ordered. cbn [fst snd]. lia.
Qed.

Lemma pair_overlap_disjoint x y :
  Props.disjoint x y ->
  Props.pair_overlap (x, y) = 0 /\ Props.pair_overlap (y, x) = 0.
Proof.
  unfold Props.pair_overlap, Props.disjoint. cbn [fst snd]. lia.
Qed.

Lemma row_sum_nonneg x l : 0 <= Props.row_sum x l.
Proof.
  unfold Props.row_sum. induction l as [|y l IH]; cbn [map].
  - unfold Py.sum. cbn. lia.
  - rewrite sum_cons. pose proof (pair_overlap_nonneg (x, y)). lia.
Qed.

Lemma row_sum_member x l : In x l -> Props.span x <= Props.row_sum x l.
Proof.
  unfold Props.row_sum. induction l as [|y l IH]; intros Hin; [elim Hin|].
  cbn [map]. rewrite sum_cons. destruct Hin as [-> | Hin].
  - pose proof (pair_overlap_self x). pose proof (row_sum_nonneg x l).
    unfold Props.row_sum in *. lia.
  - pose proof (pair_overlap_nonneg (x, y)). specialize (IH Hin). lia.
Qed.

Lemma product_sum_diagonal l1 l2 :
  incl l1 l2 -> Py.sum (map Props.span l1) <= Props.product_sum l1 l2.
Proof.
  induction l1 as [|x l1 IH]; intros Hincl.
  - unfold Props.product_sum, Py.sum. cbn. lia.
  - cbn [map]. rewrite sum_cons, product_sum_cons_l.
    assert (Hx : In x l2) by (apply Hincl; now left).
    assert (Hr : incl l1 l2) by (intros y Hy; apply Hincl; now right).
    pose proof (row_sum_member x l2 Hx). specialize (IH Hr). lia.
Qed.

Lemma sums_disjoint_zero x l :
  Forall (Props.disjoint x) l -> Props.row_sum x l = 0 /\ Props.column_sum l x = 0.
Proof.
  unfold Props.row_sum, Props.column_sum.
  induction 1 as [|y l Hy _ [IH1 IH2]]; cbn [map].
  - now split.
  - rewrite !sum_cons, IH1, IH2.
    destruct (pair_overlap_disjoint x y Hy) as [-> ->]. now split.
Qed.

Lemma product_sum_disjoint l :
  Props.pairwise_disjoint l -> Forall Props.ordered l ->
  Props.product_sum l l = Py.sum (map Props.span l).
Proof.
  unfold Props.pairwise_disjoint.
  induction 1 as [|x l Hx _ IH]; intros Hord.
  - reflexivity.
  - inversion Hord as [|? ? Hox Hol]; subst.
    rewrite product_sum_cons_l, product_sum_cons_r. unfold Props.row_sum at 1.
    cbn [map]. rewrite !sum_cons. fold (Props.row_sum x l).
    destruct (sums_disjoint_zero x l Hx) as [-> ->].
    rewrite (pair_overlap_self_ordered x Hox), (IH Hol). lia.
Qed.

(** C7, as stated, fails: this record has one exon, [(100,150)], of own
    length [51], and its overlap length with itself is [50]. *)
Lemma C7_self_overlap_below_own_length :
  exists g,
    init "chr1" (Py.VInt 100) (Py.VInt 200) "g" (Py.VInt 0) "+"
         (Py.VInt 120) (Py.VInt 180) (Py.VInt 0) (Py.VInt 1)
         "50" "0" None [] = Ok g
    /\ Props.pairwise_disjoint (intervals g Exons)
    /\ overlap_length g g Exons = 50
    /\ Py.sum (map Props.own_length (intervals g Exons)) = 51
    /\ ~ (overlap_length g g Exons
          >= Py.sum (map Props.own_length (intervals g Exons))).
Proof.
  eexists. split; [vm_compute; reflexivity|].
  split; [repeat constructor|]. split; [reflexivity|].
  split; [reflexivity|]. vm_compute. intros H. now apply H.
Qed.

(** C7, amended: for every record [a] with [start <= end] whose chosen
    interval set is pairwise disjoint, [overlap_length(a, a)] is at least
    the sum of the spans [e - s] of its intervals (one less per interval
    than the own length [e - s + 1]), and equals that sum when every
    interval has [s <= e]. *)
Theorem C7_self_overlap_length (a : t) (c : comparison) :
  start a <= end_ a ->
  Props.pairwise_disjoint (intervals a c) ->
  Py.sum (map Props.span (intervals a c)) <= overlap_length a a c
  /\ (Forall Props.ordered (intervals a c) ->
      overlap_length a a c = Py.sum (map Props.span (intervals a c))).
Proof.
  intros Hse Hdis.
  rewrite (overlap_length_product_sum a a c (locus_overlap_self a Hse)).
  split.
  - apply product_sum_diagonal, incl_refl.
  - intros Hord. now apply product_sum_disjoint.
Qed.

Lemma C7_self_overlap_length_witness :
  exists g,
    init "chr1" (Py.VInt 100) (Py.VInt 200) "g" (Py.VInt 0) "+"
         (Py.VInt 120) (Py.VInt 180) (Py.VInt 0) (Py.VInt 2)
         "20,30" "0,60" None [] = Ok g
    /\ Py.sum (map Props.span (intervals g Exons)) <= overlap_length g g Exons
    /\ overlap_length g g Exons = Py.sum (map Props.span (intervals g Exons)).
Proof.
  eexists. split; [vm_compute; reflexivity|].
  match goal with
  | |- _ <= overlap_length ?g _ _ /\ _ =>
      assert (Hse : start g <= end_ g) by (cbn; lia);
      assert (Hdis : Props.pairwise_disjoint (intervals g Exons))
        by (repeat constructor; unfold Props.disjoint; cbn; lia);
      destruct (C7_self_overlap_length g Exons Hse Hdis) as [Hge Heq]
  end.
  split; [exact Hge|]. apply Heq.
  repeat constructor; unfold Props.ordered; cbn; lia.
Defined.

End IntervalFacts.

(** ** Dictionaries *)

Module PyDictFacts.
Section KeyFacts.
Context {K V : Type} (eqb : K -> K -> bool).
Hypothesis eqb_eq : forall a b, eqb a b = true <-> a = b.

Lemma contains_keys (d : PyDict.t K V) (k : K) :
  PyDict.contains eqb d k = true <-> In k (PyDict.keys d).
Proof.
  unfold PyDict.contains, PyDict.keys.
  induction d as [|[k' v] d IH]; cbn.
  - split; [discriminate | intros []].
  - destruct (eqb k k') eqn:E.
    + apply eqb_eq in E. subst. split; [now left | reflexivity].
    + rewrite IH. split; [now right|].
      intros [->|H]; [|exact H].
      assert (eqb k k = true) by now apply eqb_eq. congruence.
Qed.

Lemma keys_set_new (d : PyDict.t K V) (k : K) (v : V) :
  ~ In k (PyDict.keys d) ->
  PyDict.keys (PyDict.set eqb d k v) = PyDict.keys d ++ [k].
Proof.
  unfold PyDict.keys. induction d as [|[k' v'] d IH]; cbn; intros Hnot.
  - reflexivity.
  - destruct (eqb k k') eqn:E.
    + apply eqb_eq in E. subst. elim Hnot. now left.
    + cbn. f_equal. apply IH. intros H. apply Hnot. now right.
Qed.

Lemma keys_set_old (d : PyDict.t K V) (k : K) (v : V) :
  In k (PyDict.keys d) ->
  PyDict.keys (PyDict.set eqb d k v) = PyDict.keys d.
Proof.
  unfold PyDict.keys. induction d as [|[k' v'] d IH]; cbn; intros Hin.
  - elim Hin.
  - destruct (eqb k k') eqn:E; [reflexivity|].
    cbn. f_equal. apply IH. destruct Hin as [->|H]; [|exact H].
    assert (eqb k k = true) by now apply eqb_eq. congruence.
Qed.

Lemma keys_set_NoDup (d : PyDict.t K V) (k : K) (v : V) :
  NoDup (PyDict.keys d) -> NoDup (PyDict.keys (PyDict.set eqb d k v)).
Proof.
  intros Hd. destruct (PyDict.contains eqb d k) eqn:E.
  - apply contains_keys in E. now rewrite keys_set_old.
  - assert (Hnot : ~ In k (PyDict.keys d)).
    { intros H. apply contains_keys in H. congruence. }
    rewrite keys_set_new by exact Hnot.
    apply NoDup_app; [exact Hd | repeat constructor; intros [] |].
    intros x Hx [<-|[]]. contradiction.
Qed.

Lemma of_pairs_NoDup (l : list (K * V)) :
  NoDup (PyDict.keys (PyDict.of_pairs eqb l)).
Proof.
  unfold PyDict.of_pairs.
  assert (H : forall d : PyDict.t K V,
             NoDup (PyDict.keys d) ->
             NoDup (PyDict.keys
                      (fold_left (fun d kv => PyDict.set eqb d (fst kv) (snd kv))
                                 l d))).
  { induction l as [|kv l IH]; intros d Hd; cbn; [exact Hd|].
    apply IH. now apply keys_set_NoDup. }
  apply H. constructor.
Qed.
End KeyFacts.
End PyDictFacts.

(** ** FASTA records *)

Module FastaFacts.
Import Fasta.

Lemma gt_not_space : Py.isspace ">" = false.
Proof. reflexivity. Qed.

Lemma find_header_skips (pre rest : list ascii) (p : nat) :
  ~ In ">"%char pre ->
  find_header (pre ++ ">"%char :: rest) p
  = Some (rest, (p + List.length pre + 1)%nat).
Proof.
  revert p. induction pre as [|c pre IH]; intros p Hnot; cbn.
  - f_equal. f_equal. lia.
  - destruct (Ascii.eqb_spec c ">") as [->|_]; [elim Hnot; now left|].
    rewrite IH by (intros H; apply Hnot; now right). f_equal. f_equal. lia.
Qed.

Lemma readline_to_newline (hdr rest : list ascii) :
  ~ In newline hdr ->
  readline (hdr ++ newline :: rest) = (hdr ++ [newline], rest).
Proof.
  induction hdr as [|c hdr IH]; intros Hnot; cbn.
  - reflexivity.
  - destruct (Ascii.eqb_spec c "010") as [->|_]; [elim Hnot; now left|].
    now rewrite IH by (intros H; apply Hnot; now right).
Qed.

(** The body loop, when a header follows and when the file ends. *)
Lemma read_body_to_header (body rest acc : list ascii) (p : nat) :
  ~ In ">"%char body ->
  read_body (body ++ ">"%char :: rest) acc p
  = ((acc ++ nonspace body) ++ [">"%char], (p + List.length body + 1)%nat,
     false).
Proof.
  revert acc p. induction body as [|c body IH]; intros acc p Hnot.
  - cbn. rewrite app_nil_r. f_equal. f_equal. lia.
  - assert (Hc : c <> ">"%char) by (intros ->; apply Hnot; now left).
    assert (Hb : ~ In ">"%char body) by (intros H; apply Hnot; now right).
    cbn [app read_body nonspace filter]. fold (nonspace body).
    destruct (Py.isspace c); cbn [negb].
    + rewrite IH by exact Hb. f_equal. f_equal. cbn [List.length]. lia.
    + destruct (Ascii.eqb_spec c ">"); [contradiction|].
      rewrite IH by exact Hb. rewrite <- !app_assoc. cbn [app List.length].
      f_equal. f_equal. lia.
Qed.

Lemma read_body_to_end (body acc : list ascii) (p : nat) :
  ~ In ">"%char body ->
  read_body body acc p = (acc ++ nonspace body, (p + List.length body)%nat, true).
Proof.
  revert acc p. induction body as [|c body IH]; intros acc p Hnot.
  - cbn. rewrite app_nil_r. f_equal. f_equal. lia.
  - assert (Hc : c <> ">"%char) by (intros ->; apply Hnot; now left).
    assert (Hb : ~ In ">"%char body) by (intros H; apply Hnot; now right).
    cbn [read_body nonspace filter]. fold (nonspace body).
    destruct (Py.isspace c); cbn [negb].
    + rewrite IH by exact Hb. f_equal. f_equal. cbn [List.length]. lia.
    + destruct (Ascii.eqb_spec c ">"); [contradiction|].
      rewrite IH by exact Hb. rewrite <- !app_assoc. cbn [app List.length].
      f_equal. f_equal. lia.
Qed.

Lemma remaining_after (f : file) (l1 l2 : list ascii) (n : nat) :
  remaining f = l1 ++ l2 -> List.length l1 = n ->
  remaining (mkFile (content f) (pos f + n)) = l2.
Proof.
  unfold remaining. cbn [content pos]. intros H Hn.
  rewrite Nat.add_comm, <- skipn_skipn, H, skipn_app, <- Hn.
  rewrite skipn_all, Nat.sub_diag. reflexivity.
Qed.

Lemma remaining_head (f : file) (c : ascii) (r : list ascii) :
  remaining f = c :: r -> nth_error (content f) (pos f) = Some c.
Proof.
  unfold remaining. intros H. now rewrite <- hd_error_skipn, H.
Qed.

(** One call on a record that is followed by another header. *)
Lemma parse_record_then_header (f : file) (pre hdr body rest id : list ascii)
    (tl : list (list ascii)) :
  remaining f = pre ++ ">"%char :: hdr ++ newline :: body ++ ">"%char :: rest ->
  ~ In ">"%char pre -> ~ In newline hdr -> ~ In ">"%char body ->
  header_fields (hdr ++ [newline]) = id :: tl ->
  parse_fasta_record f
  = Ok (mkSeq (string_of_list_ascii id) (string_of_list_ascii (nonspace body))
              (option_map string_of_list_ascii (hd_error tl)),
        mkFile (content f)
               (pos f + (List.length pre + 1 + (List.length hdr + 1)
                         + List.length body))).
Proof.
  intros Hrem Hpre Hhdr Hbody Hfields. unfold parse_fasta_record.
  rewrite Hrem, find_header_skips by exact Hpre.
  rewrite readline_to_newline by exact Hhdr.
  unfold header_fields in Hfields. rewrite Hfields.
  rewrite read_body_to_header by exact Hbody. cbn [app].
  rewrite removelast_last. f_equal. f_equal. f_equal.
  rewrite length_app. cbn [List.length]. lia.
Qed.

(** One call on the last record of the file. *)
Lemma parse_record_then_end (f : file) (pre hdr body id : list ascii)
    (tl : list (list ascii)) :
  remaining f = pre ++ ">"%char :: hdr ++ newline :: body ->
  ~ In ">"%char pre -> ~ In newline hdr -> ~ In ">"%char body ->
  header_fields (hdr ++ [newline]) = id :: tl ->
  parse_fasta_record f
  = Ok (mkSeq (string_of_list_ascii id) (string_of_list_ascii (nonspace body))
              (option_map string_of_list_ascii (hd_error tl)),
        mkFile (content f)
               (pos f + (List.length pre + 1 + (List.length hdr + 1)
                         + List.length body))).
Proof.
  intros Hrem Hpre Hhdr Hbody Hfields. unfold parse_fasta_record.
  rewrite Hrem, find_header_skips by exact Hpre.
  rewrite readline_to_newline by exact Hhdr.
  unfold header_fields in Hfields. rewrite Hfields.
  rewrite read_body_to_end by exact Hbody. cbn [app].
  f_equal. f_equal. f_equal. rewrite length_app. cbn [List.length]. lia.
Qed.

(** C10: on a file whose unread part is [pre > hdr newline body > rest],
    with no ['>'] in [pre] or [body] and a header line that has an id,
    [parse_fasta_record] returns the record whose sequence is [body]
    without its white space and without the closing ['>'], and leaves the
    position exactly at that ['>'].  The next call therefore starts on the
    following record: whatever header line and body come next, ended by
    another header or by the end of the file, it returns that record's
    id and its body without white space. *)
Theorem C10_parse_leaves_stream_at_next_header
    (f : file) (pre hdr body rest id : list ascii) (tl : list (list ascii)) :
  remaining f = pre ++ ">"%char :: hdr ++ newline :: body ++ ">"%char :: rest ->
  ~ In ">"%char pre -> ~ In newline hdr -> ~ In ">"%char body ->
  header_fields (hdr ++ [newline]) = id :: tl ->
  exists s f',
    parse_fasta_record f = Ok (s, f')
    /\ sequence s = string_of_list_ascii (nonspace body)
    /\ content f' = content f
    /\ nth_error (content f) (pos f') = Some ">"%char
    /\ remaining f' = ">"%char :: rest
    /\ forall (hdr2 body2 tail id2 : list ascii) (tl2 : list (list ascii)),
         rest = hdr2 ++ newline :: body2 ++ tail ->
         tail = [] \/ (exists rest2, tail = ">"%char :: rest2) ->
         ~ In newline hdr2 -> ~ In ">"%char body2 ->
         header_fields (hdr2 ++ [newline]) = id2 :: tl2 ->
         exists s2 f2,
           parse_fasta_record f' = Ok (s2, f2)
           /\ name s2 = string_of_list_ascii id2
           /\ sequence s2 = string_of_list_ascii (nonspace body2).
Proof.
  intros Hrem Hpre Hhdr Hbody Hfields.
  set (n := (List.length pre + 1 + (List.length hdr + 1)
             + List.length body)%nat).
  assert (Hnext : remaining (mkFile (content f) (pos f + n))
                  = ">"%char :: rest).
  { apply (remaining_after f (pre ++ ">"%char :: hdr ++ newline :: body)).
    - rewrite Hrem, <- !app_assoc. cbn [app]. rewrite <- app_assoc.
      reflexivity.
    - unfold n. rewrite !length_app. cbn [List.length].
      rewrite length_app. cbn [List.length]. lia. }
  eexists. eexists. split.
  { exact (parse_record_then_header f pre hdr body rest id tl
             Hrem Hpre Hhdr Hbody Hfields). }
  split; [reflexivity|]. split; [reflexivity|].
  split; [exact (remaining_head _ _ _ Hnext)|].
  split; [exact Hnext|].
  intros hdr2 body2 tail id2 tl2 Hrest Htail Hhdr2 Hbody2 Hfields2.
  destruct Htail as [-> | [rest2 ->]].
  - rewrite app_nil_r in Hrest. eexists. eexists. split.
    + apply (parse_record_then_end _ [] hdr2 body2 id2 tl2);
        [cbn [app]; rewrite <- Hrest; exact Hnext | intros [] | assumption ..].
    + split; reflexivity.
  - eexists. eexists. split.
    + apply (parse_record_then_header _ [] hdr2 body2 rest2 id2 tl2);
        [cbn [app]; rewrite <- Hrest; exact Hnext | intros [] | assumption ..].
    + split; reflexivity.
Qed.

Lemma C10_parse_leaves_stream_at_next_header_witness :
  let text := list_ascii_of_string
                (" >id1 first" ++ String "010" ("AC GT" ++ String "010"
                  (">id2" ++ String "010" ("GG" ++ String "010" ""))))%string in
  exists s f',
    parse_fasta_record (mkFile text 0) = Ok (s, f')
    /\ sequence s = "ACGT"
    /\ pos f' = 18%nat
    /\ nth_error text (pos f') = Some ">"%char
    /\ exists s2 f2,
         parse_fasta_record f' = Ok (s2, f2)
         /\ name s2 = "id2" /\ sequence s2 = "GG".
Proof.
  intros text.
  destruct (C10_parse_leaves_stream_at_next_header
              (mkFile text 0)
              (list_ascii_of_string " ")
              (list_ascii_of_string "id1 first")
              (list_ascii_of_string ("AC GT" ++ String "010" ""))
              (list_ascii_of_string
                 ("id2" ++ String "010" ("GG" ++ String "010" "")))
              (list_ascii_of_string "id1")
              [list_ascii_of_string "first"])
    as (s & f' & Hparse & Hseq & Hcont & Hnth & Hrem & Hnext).
  - reflexivity.
  - cbn. intros [H|[]]. discriminate H.
  - cbn. intuition discriminate.
  - cbn. intuition discriminate.
  - reflexivity.
  - exists s, f'. split; [exact Hparse|]. split; [exact Hseq|].
    assert (Hf : f' = mkFile text 18).
    { vm_compute in Hparse. now injection Hparse. }
    split; [now rewrite Hf|]. split; [exact Hnth|].
    destruct (Hnext (list_ascii_of_string "id2")
                    (list_ascii_of_string ("GG" ++ String "010" ""))
                    [] (list_ascii_of_string "id2") [])
      as (s2 & f2 & Hp2 & Hn2 & Hs2).
    + reflexivity.
    + now left.
    + cbn. intuition discriminate.
    + cbn. intuition discriminate.
    + reflexivity.
    + exists s2, f2. split; [exact Hp2|]. split; [exact Hn2|exact Hs2].
Defined.

(** *** The collection *)

Lemma mapM_Ok {A B : Type} (f : A -> result B) (l : list A) (ys : list B) :
  mapM f l = Ok ys -> Forall (fun y => exists x, f x = Ok y) ys.
Proof.
  revert ys. induction l as [|x l IH]; intros ys H; cbn in H.
  - injection H as <-. constructor.
  - destruct (f x) as [y|] eqn:Hy; [|discriminate H]. cbn in H.
    destruct (mapM f l) as [ys'|]; [|discriminate H]. cbn in H.
    injection H as <-. constructor; [now exists x | now apply IH].
Qed.

(** The names of an index are distinct: they are the keys of a dict. *)
Lemma init_sequences_NoDup (fs : filesystem) (path : string)
    (x : IndexedFasta.t) :
  IndexedFasta.init fs path = Ok x -> NoDup (IndexedFasta.sequences x).
Proof.
  unfold IndexedFasta.init.
  destruct (negb (exists_ fs path)); [discriminate|].
  destruct (fs _) as [text|]; [|discriminate].
  destruct (mapM _ _) as [recs|]; [|discriminate]. cbn [bind].
  destruct (negb _); [discriminate|].
  intros H. injection H as <-. unfold IndexedFasta.sequences. cbn.
  apply PyDictFacts.of_pairs_NoDup, String.eqb_eq.
Qed.

Lemma contains_keys_str (m : PyDict.t string IndexedFasta.t) (k : string) :
  PyDict.contains String.eqb m k = true <-> In k (PyDict.keys m).
Proof. apply PyDictFacts.contains_keys, String.eqb_eq. Qed.

(** The inner loop either stores all the names, none of which was stored
    before, or stops at a name that was. *)
Lemma add_sequences_cases (x : IndexedFasta.t) (ks : list string) :
  forall m : PyDict.t string IndexedFasta.t,
  NoDup ks ->
  (exists m',
      IndexedFastaCollection.add_sequences x ks m = Ok m'
      /\ PyDict.keys m' = PyDict.keys m ++ ks
      /\ forall k, In k ks -> ~ In k (PyDict.keys m))
  \/ (exists k,
        IndexedFastaCollection.add_sequences x ks m
        = Err (ValueError (IndexedFastaCollection.collision_message k))
        /\ In k ks /\ In k (PyDict.keys m)).
Proof.
  induction ks as [|k ks IH]; intros m Hnd; cbn.
  - left. exists m. rewrite app_nil_r. repeat split. intros k [].
  - inversion Hnd as [|? ? Hk Hks]; subst.
    destruct (PyDict.contains String.eqb m k) eqn:E.
    + right. exists k. apply contains_keys_str in E. repeat split; auto.
    + assert (Hnot : ~ In k (PyDict.keys m)).
      { intros H. apply contains_keys_str in H. congruence. }
      pose proof (PyDictFacts.keys_set_new String.eqb String.eqb_eq m k x Hnot)
        as Hkeys.
      destruct (IH (PyDict.set String.eqb m k x) Hks)
        as [(m' & Hok & Hm' & Hnew) | (k' & Herr & Hin & Hold)].
      * left. exists m'. split; [exact Hok|]. split.
        -- rewrite Hm', Hkeys, <- app_assoc. reflexivity.
        -- intros k0 [<-|Hk0]; [exact Hnot|].
           intros H. apply (Hnew k0 Hk0). rewrite Hkeys.
           apply in_or_app. now left.
      * right. exists k'. split; [exact Herr|]. split; [now right|].
        rewrite Hkeys in Hold. apply in_app_or in Hold.
        destruct Hold as [H|[<-|[]]]; [exact H | contradiction].
Qed.

Lemma shared_cons_head (x : IndexedFasta.t) (r : list IndexedFasta.t)
    (b : IndexedFasta.t) (k : string) :
  In k (IndexedFasta.sequences x) -> In b r ->
  In k (IndexedFasta.sequences b) -> shared (x :: r) k.
Proof.
  intros Hx Hb Hkb. apply in_split in Hb. destruct Hb as (l2 & l3 & ->).
  exists [], x, l2, b, l3. now repeat split.
Qed.

Lemma shared_cons_tail (x : IndexedFasta.t) (r : list IndexedFasta.t)
    (k : string) :
  shared r k -> shared (x :: r) k.
Proof.
  intros (l1 & a & l2 & b & l3 & -> & Ha & Hb).
  exists (x :: l1), a, l2, b, l3. now repeat split.
Qed.

Lemma shared_cons_inv (x : IndexedFasta.t) (r : list IndexedFasta.t)
    (k : string) :
  shared (x :: r) k ->
  (In k (IndexedFasta.sequences x)
   /\ exists b, In b r /\ In k (IndexedFasta.sequences b))
  \/ shared r k.
Proof.
  intros (l1 & a & l2 & b & l3 & Heq & Ha & Hb).
  destruct l1 as [|y l1]; cbn in Heq; injection Heq as -> ->.
  - left. split; [exact Ha|]. exists b. split; [|exact Hb].
    apply in_or_app. right. now left.
  - right. exists l1, a, l2, b, l3. now repeat split.
Qed.

(** The two loops together either store every name of every index, no
    name colliding, or stop at a name that collides. *)
Lemma add_indices_cases (xs : list IndexedFasta.t) :
  forall m : PyDict.t string IndexedFasta.t,
  Forall (fun x => NoDup (IndexedFasta.sequences x)) xs ->
  (exists m',
      IndexedFastaCollection.add_indices xs m = Ok m'
      /\ PyDict.keys m'
         = PyDict.keys m ++ List.concat (map IndexedFasta.sequences xs)
      /\ forall k, ~ collides m xs k)
  \/ (exists k,
        IndexedFastaCollection.add_indices xs m
        = Err (ValueError (IndexedFastaCollection.collision_message k))
        /\ collides m xs k).
Proof.
  induction xs as [|x r IH]; intros m Hnd; cbn [IndexedFastaCollection.add_indices].
  - left. exists m. cbn. rewrite app_nil_r. repeat split.
    intros k [[_ [a [[] _]]] | (l1 & a & l2 & b & l3 & Heq & _)].
    destruct l1; discriminate Heq.
  - inversion Hnd as [|? ? Hx Hr]; subst.
    destruct (add_sequences_cases x (IndexedFasta.sequences x) m Hx)
      as [(m1 & Hok1 & Hm1 & Hnew) | (k & Herr & Hin & Hold)].
    + rewrite Hok1. cbn [bind].
      destruct (IH m1 Hr) as [(m' & Hok & Hm' & Hfree) | (k & Herr & Hcol)].
      * left. exists m'. split; [exact Hok|]. split.
        -- rewrite Hm', Hm1, <- app_assoc. reflexivity.
        -- intros k [[Hkm [a [[<-|Ha] Hka]]] | Hsh].
           ++ exact (Hnew k Hka Hkm).
           ++ apply (Hfree k). left. split.
              ** rewrite Hm1. apply in_or_app. now left.
              ** now exists a.
           ++ apply shared_cons_inv in Hsh.
              destruct Hsh as [[Hkx [b [Hb Hkb]]] | Hsh].
              ** apply (Hfree k). left. split.
                 --- rewrite Hm1. apply in_or_app. now right.
                 --- now exists b.
              ** apply (Hfree k). now right.
      * right. exists k. split; [exact Herr|].
        destruct Hcol as [[Hkm1 [a [Ha Hka]]] | Hsh].
        -- rewrite Hm1 in Hkm1. apply in_app_or in Hkm1.
           destruct Hkm1 as [Hkm | Hkx].
           ++ left. split; [exact Hkm|]. exists a. split; [now right|exact Hka].
           ++ right. now apply (shared_cons_head x r a k).
        -- right. now apply shared_cons_tail.
    + right. exists k. rewrite Herr. cbn [bind]. split; [reflexivity|].
      left. split; [exact Hold|]. exists x. split; [now left|exact Hin].
Qed.

Lemma message_names_key (k : string) :
  exists pre post,
    IndexedFastaCollection.collision_message k = (pre ++ k ++ post)%string.
Proof.
  exists "Key collision: sequence name ", " appears more than once.".
  reflexivity.
Qed.

(** C8, as stated, fails: every member index is built before any name is
    compared (line 219), so a file that is missing makes construction fail
    with that file's error.  [a.fa] and [b.fa] both list [s2], yet with a
    missing third file the error names no sequence; and with no name
    repeated, [c.fa] and a missing file, construction does not succeed. *)
Lemma C8_missing_file_fails_first :
  exists a b,
    IndexedFasta.init example_fs "a.fa" = Ok a
    /\ IndexedFasta.init example_fs "b.fa" = Ok b
    /\ In "s2" (IndexedFasta.sequences a)
    /\ In "s2" (IndexedFasta.sequences b)
    /\ IndexedFastaCollection.init example_fs ["a.fa"; "b.fa"; "missing.fa"]
       = Err (ValueError "missing.fa does not exist")
    /\ IndexedFastaCollection.init example_fs ["c.fa"; "missing.fa"]
       = Err (ValueError "missing.fa does not exist").
Proof.
  eexists. eexists. split; [vm_compute; reflexivity|].
  split; [vm_compute; reflexivity|].
  split; [cbn; tauto|]. split; [cbn; tauto|].
  split; vm_compute; reflexivity.
Qed.

(** C8, amended: let an index be built for each of the files.  If some
    name is in the indices of two of the files, construction raises a
    [ValueError] whose message contains a name that is; otherwise it
    succeeds and [keys()] lists the names of the member indices, file
    after file, so that a name is a key exactly when some member index has
    it. *)
Theorem C8_collection_duplicates_and_keys
    (fs : filesystem) (files : list string) (xs : list IndexedFasta.t) :
  mapM (IndexedFasta.init fs) files = Ok xs ->
  ((exists k, shared xs k) ->
   exists k pre post,
     shared xs k
     /\ IndexedFastaCollection.init fs files
        = Err (ValueError (pre ++ k ++ post)%string))
  /\ ((forall k, ~ shared xs k) ->
      exists c,
        IndexedFastaCollection.init fs files = Ok c
        /\ IndexedFastaCollection.keys c
           = List.concat (map IndexedFasta.sequences xs)
        /\ forall k, In k (IndexedFastaCollection.keys c)
                     <-> exists x, In x xs /\ In k (IndexedFasta.sequences x)).
Proof.
  intros Hxs.
  assert (Hnd : Forall (fun x => NoDup (IndexedFasta.sequences x)) xs).
  { eapply Forall_impl; [|exact (mapM_Ok _ _ _ Hxs)].
    intros x [path Hx]. exact (init_sequences_NoDup fs path x Hx). }
  unfold IndexedFastaCollection.init. rewrite Hxs. cbn [bind].
  destruct (add_indices_cases xs [] Hnd)
    as [(m & Hok & Hkeys & Hfree) | (k & Herr & Hcol)].
  - change (PyDict.keys m = List.concat (map IndexedFasta.sequences xs))
      in Hkeys.
    split.
    + intros [k Hk]. elim (Hfree k). now right.
    + intros _. exists (IndexedFastaCollection.mk m). rewrite Hok. cbn [bind].
      split; [reflexivity|]. unfold IndexedFastaCollection.keys.
      cbn [IndexedFastaCollection.index_map].
      split; [exact Hkeys|]. intros k. rewrite Hkeys.
      rewrite in_concat. split.
      * intros (l & Hl & Hk). apply in_map_iff in Hl.
        destruct Hl as (x & <- & Hx). now exists x.
      * intros (x & Hx & Hk). exists (IndexedFasta.sequences x).
        split; [now apply in_map | exact Hk].
  - assert (Hsh : shared xs k).
    { destruct Hcol as [[[] _] | H]. exact H. }
    split.
    + intros _. destruct (message_names_key k) as (pre & post & Hmsg).
      exists k, pre, post. split; [exact Hsh|].
      rewrite Herr. cbn [bind]. now rewrite Hmsg.
    + intros Hno. elim (Hno k Hsh).
Qed.

Lemma C8_collection_duplicates_and_keys_witness :
  exists xs,
    mapM (IndexedFasta.init example_fs) ["a.fa"; "c.fa"] = Ok xs
    /\ exists c,
         IndexedFastaCollection.init example_fs ["a.fa"; "c.fa"] = Ok c
         /\ IndexedFastaCollection.keys c = ["s1"; "s2"; "s4"].
Proof.
  destruct (mapM (IndexedFasta.init example_fs) ["a.fa"; "c.fa"])
    as [xs|e] eqn:Hxs; [|vm_compute in Hxs; discriminate Hxs].
  exists xs. split; [reflexivity|].
  destruct (C8_collection_duplicates_and_keys example_fs ["a.fa"; "c.fa"] xs Hxs)
    as [_ Hfree].
  assert (Hval : Ok xs = mapM (IndexedFasta.init example_fs) ["a.fa"; "c.fa"])
    by now symmetry.
  vm_compute in Hval. injection Hval as Hval.
  destruct Hfree as (c & Hc & Hkeys & _).
  - intros k Hsh. rewrite Hval in Hsh. apply shared_cons_inv in Hsh.
    destruct Hsh as [[Hk [b [Hb Hkb]]] | Hsh].
    + destruct Hb as [<-|[]]. cbn in Hk, Hkb. destruct Hkb as [<-|[]].
      destruct Hk as [H|[H|[]]]; discriminate H.
    + apply shared_cons_inv in Hsh.
      destruct Hsh as [[_ [b [[] _]]] | (l1 & a & l2 & b & l3 & Heq & _)].
      destruct l1; discriminate Heq.
  - exists c. split; [exact Hc|]. rewrite Hkeys, Hval. reflexivity.
Defined.

(** The other outcome on the same files: [a.fa] and [b.fa] both list
    [s2], and the collection is refused with that name in the message. *)
Lemma collection_collision_example :
  IndexedFastaCollection.init example_fs ["a.fa"; "b.fa"]
  = Err (ValueError "Key collision: sequence name s2 appears more than once.").
Proof. vm_compute. reflexivity. Qed.

End FastaFacts.

(** ** Built-ins: printing and reading integers, splitting and joining *)

Module PyFacts.
Import PyProps.

Lemma chars_app (s1 s2 : string) :
  list_ascii_of_string (s1 ++ s2)
  = list_ascii_of_string s1 ++ list_ascii_of_string s2.
Proof. induction s1 as [|c s1 IH]; cbn; [reflexivity | now rewrite IH]. Qed.

Lemma string_of_chars_app (l1 l2 : list ascii) :
  string_of_list_ascii (l1 ++ l2)
  = (string_of_list_ascii l1 ++ string_of_list_ascii l2)%string.
Proof. induction l1 as [|c l1 IH]; cbn; [reflexivity | now rewrite IH]. Qed.

Lemma string_length_chars (s : string) :
  String.length s = List.length (list_ascii_of_string s).
Proof. induction s as [|c s IH]; cbn; [reflexivity | now rewrite IH]. Qed.

(** The digits that [str] prints are read back with their value. *)
Lemma digits_acc (d : Decimal.uint) : forall p : positive,
  Py.digits (Zpos p) true (chars_of_uint d) = Some (Zpos (Pos.of_uint_acc d p)).
Proof.
  unfold chars_of_uint.
  induction d as [|d IH|d IH|d IH|d IH|d IH|d IH|d IH|d IH|d IH|d IH];
    intros p;
    cbn [NilEmpty.string_of_uint list_ascii_of_string Py.digits
         Pos.of_uint_acc];
    try reflexivity;
    match goal with
    | |- context [Py.is_digit ?c] =>
        change (Py.is_digit c) with true; cbv iota
    end;
    rewrite <- IH; f_equal;
    match goal with
    | |- context [Py.digit_val ?c] =>
        let v := eval vm_compute in (Py.digit_val c) in
        change (Py.digit_val c) with v
    end; lia.
Qed.

Lemma digits_zero (d : Decimal.uint) (b : bool) :
  b = true \/ d <> Decimal.Nil ->
  Py.digits 0 b (chars_of_uint d) = Some (Z.of_N (Pos.of_uint d)).
Proof.
  unfold chars_of_uint. revert b.
  induction d as [|d IH|d IH|d IH|d IH|d IH|d IH|d IH|d IH|d IH|d IH];
    intros b Hb; cbn [NilEmpty.string_of_uint list_ascii_of_string Py.digits];
    try (destruct Hb as [-> | Hb]; [reflexivity | now elim Hb]);
    match goal with
    | |- context [Py.is_digit ?c] =>
        change (Py.is_digit c) with true; cbv iota
    end;
    try (apply IH; now left);
    cbn [Pos.of_uint Z.of_N]; rewrite <- digits_acc; reflexivity.
Qed.

Lemma chars_of_uint_digits (d : Decimal.uint) :
  Forall (fun c => Py.is_digit c = true) (chars_of_uint d).
Proof.
  unfold chars_of_uint.
  induction d; cbn; constructor; try assumption; reflexivity.
Qed.

Lemma digit_facts (c : ascii) :
  Py.is_digit c = true ->
  Py.isspace c = false /\ Py.int_space c = false
  /\ c <> "+"%char /\ c <> "-"%char /\ c <> ","%char /\ c <> "009"%char
  /\ c <> "010"%char.
Proof.
  destruct c as [[] [] [] [] [] [] [] []]; intros H;
    try discriminate H; repeat split; try reflexivity; discriminate.
Qed.

(** Stripping leaves alone what begins and ends with other characters. *)
Lemma strip_by_id (sp : ascii -> bool) (l : list ascii) :
  (forall c r, l = c :: r -> sp c = false) ->
  (forall r c, l = r ++ [c] -> sp c = false) ->
  Py.strip_by sp l = l.
Proof.
  intros Hfirst Hlast. unfold Py.strip_by.
  assert (H1 : Py.lstrip_by sp l = l).
  { destruct l as [|c r]; [reflexivity|]. cbn.
    now rewrite (Hfirst c r eq_refl). }
  rewrite H1.
  assert (H2 : Py.lstrip_by sp (rev l) = rev l).
  { destruct (rev l) as [|c r] eqn:E; [reflexivity|]. cbn.
    rewrite (Hlast (rev r) c); [reflexivity|].
    rewrite <- (rev_involutive l), E. reflexivity. }
  rewrite H2. apply rev_involutive.
Qed.

Lemma strip_by_all_nonspace (sp : ascii -> bool) (l : list ascii) :
  Forall (fun c => sp c = false) l -> Py.strip_by sp l = l.
Proof.
  intros H. rewrite Forall_forall in H. apply strip_by_id.
  - intros c r ->. apply H. now left.
  - intros r c ->. apply H. apply in_or_app. right. now left.
Qed.

(** What [str] prints: an optional minus sign and digits, at least one. *)
Lemma printed_shape (z : Z) :
  exists d,
    d <> Decimal.Nil /\ Z.abs z = Z.of_N (Pos.of_uint d)
    /\ printed z = (if z <? 0 then ["-"%char] else []) ++ chars_of_uint d.
Proof.
  unfold printed, Py.str. destruct z as [|p|p]; cbn [Z.to_int].
  - exists (Decimal.D0 Decimal.Nil). repeat split. discriminate.
  - exists (Pos.to_uint p). split; [apply DecimalPos.Unsigned.to_uint_nonnil|].
    split; [now rewrite DecimalPos.Unsigned.of_to|].
    cbn. unfold NilZero.string_of_uint.
    pose proof (DecimalPos.Unsigned.to_uint_nonnil p).
    destruct (Pos.to_uint p); [contradiction | reflexivity ..].
  - exists (Pos.to_uint p). split; [apply DecimalPos.Unsigned.to_uint_nonnil|].
    split; [now rewrite DecimalPos.Unsigned.of_to|].
    cbn. unfold NilZero.string_of_uint.
    pose proof (DecimalPos.Unsigned.to_uint_nonnil p).
    destruct (Pos.to_uint p); [contradiction | reflexivity ..].
Qed.

Lemma chars_of_uint_nonempty (d : Decimal.uint) :
  d <> Decimal.Nil -> exists c r, chars_of_uint d = c :: r.
Proof.
  unfold chars_of_uint. destruct d; intros H; [now elim H | cbn; eauto ..].
Qed.

(** No character of a printed integer is white space, a comma, a tab or
    a newline, and there is at least one. *)
Lemma printed_chars (z : Z) :
  printed z <> []
  /\ Forall (fun c => Py.isspace c = false /\ Py.int_space c = false
                      /\ c <> ","%char /\ c <> "009"%char /\ c <> "010"%char)
            (printed z).
Proof.
  destruct (printed_shape z) as (d & Hd & _ & ->).
  destruct (chars_of_uint_nonempty d Hd) as (c & r & Hc). split.
  - rewrite Hc. destruct (z <? 0); discriminate.
  - apply Forall_app. split.
    + destruct (z <? 0); repeat constructor; discriminate.
    + eapply Forall_impl; [|apply chars_of_uint_digits].
      intros a Ha. apply digit_facts in Ha. tauto.
Qed.

Lemma parse_digits_first (c : ascii) (r : list ascii) :
  Py.is_digit c = true ->
  match c :: r with
  | "+"%char :: r' => Py.digits 0 false r'
  | "-"%char :: r' => option_map Z.opp (Py.digits 0 false r')
  | l => Py.digits 0 false l
  end = Py.digits 0 false (c :: r).
Proof.
  destruct c as [[] [] [] [] [] [] [] []]; intros H;
    try discriminate H; reflexivity.
Qed.

(** [int(str(z)) == z] *)
Lemma parse_int_str (z : Z) : Py.parse_int (Py.str z) = Some z.
Proof.
  unfold Py.parse_int. fold (printed z).
  destruct (printed_chars z) as [_ Hall].
  rewrite strip_by_all_nonspace
    by (eapply Forall_impl; [|exact Hall]; cbn; tauto).
  destruct (printed_shape z) as (d & Hd & Habs & ->).
  destruct (Z.ltb_spec z 0) as [Hneg|Hpos]; cbn [app].
  - rewrite (digits_zero d false) by now right. cbn. f_equal. lia.
  - destruct (chars_of_uint_nonempty d Hd) as (c & r & Hc).
    pose proof (chars_of_uint_digits d) as Hdig. rewrite Hc in Hdig.
    inversion Hdig as [|? ? Hcd _]; subst. rewrite Hc.
    rewrite (parse_digits_first c r Hcd), <- Hc.
    rewrite (digits_zero d false) by now right. f_equal. lia.
Qed.

Lemma int_str (z : Z) : Py.int (Py.VStr (Py.str z)) = Ok z.
Proof. cbn. now rewrite parse_int_str. Qed.

(** *** Splitting what was joined *)

Lemma split_on_whole (sep : ascii) (l : list ascii) :
  ~ In sep l -> Py.split_on sep l = [l].
Proof.
  induction l as [|c l IH]; intros Hnot; cbn; [reflexivity|].
  destruct (Ascii.eqb_spec c sep) as [->|_]; [elim Hnot; now left|].
  now rewrite IH by (intros H; apply Hnot; now right).
Qed.

Lemma split_on_first (sep : ascii) (l1 l2 : list ascii) :
  ~ In sep l1 ->
  Py.split_on sep (l1 ++ sep :: l2) = l1 :: Py.split_on sep l2.
Proof.
  induction l1 as [|c l1 IH]; intros Hnot; cbn.
  - now rewrite Ascii.eqb_refl.
  - destruct (Ascii.eqb_spec c sep) as [->|_]; [elim Hnot; now left|].
    now rewrite IH by (intros H; apply Hnot; now right).
Qed.

(** [sep.join(parts).split(sep) == parts] when no part holds [sep] and
    there is a part. *)
Lemma split_join (sep : ascii) (parts : list string) :
  parts <> [] ->
  Forall (fun part => ~ In sep (list_ascii_of_string part)) parts ->
  Py.split sep (Py.join (String sep "") parts) = parts.
Proof.
  unfold Py.split. intros Hne Hall.
  induction Hall as [|part rest Hp Hrest IH]; [now elim Hne|].
  destruct rest as [|q rest].
  - cbn [Py.join]. rewrite split_on_whole by exact Hp. cbn.
    now rewrite string_of_list_ascii_of_string.
  - change (Py.join (String sep "") (part :: q :: rest))
      with (part ++ String sep "" ++ Py.join (String sep "") (q :: rest))%string.
    rewrite chars_app. cbn [append list_ascii_of_string].
    rewrite split_on_first by exact Hp. cbn [map].
    rewrite string_of_list_ascii_of_string. f_equal. apply IH. discriminate.
Qed.

Lemma printed_no (sep : ascii) (z : Z) :
  sep = ","%char \/ sep = "009"%char ->
  ~ In sep (list_ascii_of_string (Py.str z)).
Proof.
  intros Hsep Hin. destruct (printed_chars z) as [_ Hall].
  rewrite Forall_forall in Hall. specialize (Hall sep Hin).
  destruct Hsep as [-> | ->]; tauto.
Qed.

Lemma str_nonempty (z : Z) : (String.length (Py.str z) =? 0)%nat = false.
Proof.
  destruct (printed_chars z) as [Hne _]. unfold printed in Hne.
  rewrite string_length_chars.
  destruct (list_ascii_of_string (Py.str z)); [now elim Hne | reflexivity].
Qed.

Lemma mapM_int_str (zs : list Z) :
  mapM (fun s => Py.int (Py.VStr s)) (map Py.str zs) = Ok zs.
Proof.
  induction zs as [|z zs IH]; cbn [map mapM]; [reflexivity|].
  rewrite int_str. cbn [bind]. rewrite IH. reflexivity.
Qed.

Lemma filter_printed (zs : list Z) :
  filter (fun s => negb (String.length s =? 0)%nat) (map Py.str zs)
  = map Py.str zs.
Proof.
  induction zs as [|z zs IH]; cbn [map filter]; [reflexivity|].
  now rewrite str_nonempty, IH.
Qed.

(** The comma-separated text of a list of integers is read back as the
    list, the empty list included. *)
Lemma int_list_join (zs : list Z) :
  Gene.int_list (Py.join "," (map Py.str zs)) = Ok zs.
Proof.
  unfold Gene.int_list. destruct zs as [|z zs]; [reflexivity|].
  rewrite split_join.
  - rewrite filter_printed. apply mapM_int_str.
  - discriminate.
  - apply Forall_forall. intros part Hin. apply in_map_iff in Hin.
    destruct Hin as (y & <- & _). apply printed_no. now left.
Qed.

End PyFacts.

(** ** gene.py: more about records *)

Module GeneMoreFacts.
Import Gene GeneProps.

Lemma init_build ch sa ea nm sc st csa cea rgb bca bsz bst at_ kw :
  init ch sa ea nm sc st csa cea rgb bca bsz bst at_ kw
  = (s <- Py.int sa ;; e <- Py.int ea ;; sco <- Py.int sc ;;
     cs <- Py.int csa ;; ce <- Py.int cea ;; bc <- Py.int bca ;;
     sizes <- int_list bsz ;; starts <- int_list bst ;;
     Ok (build ch s e nm sco st cs ce rgb bc sizes starts
               (match at_ with None => [] | Some d => d end) kw)).
Proof.
  unfold init.
  destruct (Py.int sa) as [s|]; [|reflexivity].
  destruct (Py.int ea) as [e|]; [|reflexivity].
  destruct (Py.int sc) as [sco|]; [|reflexivity].
  destruct (Py.int csa) as [cs|]; [|reflexivity].
  destruct (Py.int cea) as [ce|]; [|reflexivity].
  destruct (Py.int bca) as [bc|]; [|reflexivity].
  destruct (int_list bsz) as [sizes|]; [|reflexivity].
  destruct (int_list bst) as [starts|]; [|reflexivity].
  cbn [bind]. unfold build, derive.
  destruct (fold_left _ _ _) as [exs cds]. reflexivity.
Qed.

Lemma init_constructed ch sa ea nm sc st csa cea rgb bca bsz bst at_ kw g :
  init ch sa ea nm sc st csa cea rgb bca bsz bst at_ kw = Ok g ->
  constructed g.
Proof.
  rewrite init_build.
  destruct (Py.int sa) as [s|]; [|discriminate].
  destruct (Py.int ea) as [e|]; [|discriminate].
  destruct (Py.int sc) as [sco|]; [|discriminate].
  destruct (Py.int csa) as [cs|]; [|discriminate].
  destruct (Py.int cea) as [ce|]; [|discriminate].
  destruct (Py.int bca) as [bc|]; [|discriminate].
  destruct (int_list bsz) as [sizes|]; [|discriminate].
  destruct (int_list bst) as [starts|]; [|discriminate].
  cbn [bind]. intros H. injection H as <-. reflexivity.
Qed.




Lemma copy_build (g : t) :
  copy g = Ok (build (chrom g) (start g) (end_ g) (name g) (score g)
                     (strand g) (cds_start g) (cds_end g) (item_rgb g)
                     (block_count g) (block_sizes g) (block_starts g)
                     (aux_items g) []).
Proof.
  unfold copy. rewrite init_build. cbn [Py.int bind].
  now rewrite !PyFacts.int_list_join.
Qed.

(** X1: [copy()] never raises.  The copy has the twelve positional fields
    of the record, and its exons and CDS exons are derived afresh from
    them; so for a record that came from the constructor the copy also has
    the same [exons], [cds_exons], [length], [cds_length], [fivep] and
    [cds_fivep]. *)
Theorem copy_keeps_fields (g : t) :
  exists c,
    copy g = Ok c
    /\ chrom c = chrom g /\ start c = start g /\ end_ c = end_ g
    /\ name c = name g /\ score c = score g /\ strand c = strand g
    /\ cds_start c = cds_start g /\ cds_end c = cds_end g
    /\ item_rgb c = item_rgb g /\ block_count c = block_count g
    /\ block_sizes c = block_sizes g /\ block_starts c = block_starts g
    /\ exons c = map (Props.block_exon (start g))
                     (combine (block_starts g) (block_sizes g))
    /\ cds_exons c
       = flat_map (Props.block_cds (start g) (cds_start g) (cds_end g))
                  (combine (block_starts g) (block_sizes g))
    /\ forall ch sa ea nm sc st csa cea rgb bca bsz bst at_ kw,
         init ch sa ea nm sc st csa cea rgb bca bsz bst at_ kw = Ok g ->
         exons c = exons g /\ cds_exons c = cds_exons g
         /\ length c = length g /\ cds_length c = cds_length g
         /\ fivep c = fivep g /\ cds_fivep c = cds_fivep g.
Proof.
  eexists. split; [apply copy_build|].
  unfold build, derive. cbn [chrom start end_ name score strand cds_start
    cds_end item_rgb block_count block_sizes block_starts exons cds_exons
    length cds_length fivep cds_fivep].
  rewrite GeneFacts.block_loop. cbn [fst snd app].
  repeat (split; [reflexivity|]).
  intros ch sa ea nm sc st csa cea rgb bca bsz bst at_ kw Hg.
  apply init_constructed in Hg. unfold constructed, build, derive in Hg.
  rewrite GeneFacts.block_loop in Hg. cbn [fst snd app] in Hg.
  pose proof (f_equal exons Hg) as H1. pose proof (f_equal cds_exons Hg) as H2.
  pose proof (f_equal length Hg) as H3.
  pose proof (f_equal cds_length Hg) as H4.
  pose proof (f_equal fivep Hg) as H5. pose proof (f_equal cds_fivep Hg) as H6.
  cbn [exons cds_exons length cds_length fivep cds_fivep] in H1, H2, H3, H4,
    H5, H6.
  repeat split; symmetry; assumption.
Qed.

Lemma copy_keeps_fields_witness :
  exists g c,
    init "chr1" (Py.VStr "100") (Py.VStr "200") "g" (Py.VStr "7") "-"
         (Py.VStr "120") (Py.VStr "180") (Py.VStr "0") (Py.VStr "2")
         "20,30" "0,60" None [("seq", Py.VStr "MK")] = Ok g
    /\ copy g = Ok c
    /\ block_sizes c = block_sizes g
    /\ exons c = exons g /\ cds_exons c = cds_exons g
    /\ length c = length g /\ fivep c = fivep g.
Proof.
  destruct (init "chr1" (Py.VStr "100") (Py.VStr "200") "g" (Py.VStr "7") "-"
                 (Py.VStr "120") (Py.VStr "180") (Py.VStr "0") (Py.VStr "2")
                 "20,30" "0,60" None [("seq", Py.VStr "MK")])
    as [g|e] eqn:Hg; [|vm_compute in Hg; discriminate Hg].
  destruct (copy_keeps_fields g) as (c & Hc & H).
  exists g, c. split; [reflexivity|]. split; [exact Hc|].
  destruct H as (_ & _ & _ & _ & _ & _ & _ & _ & _ & _ & Hsz & _ & _ & _ & H).
  destruct (H _ _ _ _ _ _ _ _ _ _ _ _ _ _ Hg) as (H1 & H2 & H3 & _ & H5 & _).
  repeat split; assumption.
Defined.

Lemma sum_sizes (bs : list (Z * Z)) (s : Z) :
  span_sum (map (Props.block_exon s) bs)
  = Py.sum (map snd bs) + Z.of_nat (List.length bs).
Proof.
  unfold span_sum. induction bs as [|[b sz] bs IH].
  - reflexivity.
  - cbn [map List.length]. rewrite !IntervalFacts.sum_cons, IH.
    unfold Props.block_exon. cbn [fst snd]. lia.
Qed.

Lemma combine_snd {A B : Type} (l1 : list A) (l2 : list B) :
  List.length l1 = List.length l2 -> map snd (combine l1 l2) = l2.
Proof.
  revert l2. induction l1 as [|x l1 IH]; intros [|y l2] H;
    try discriminate H; [reflexivity|].
  cbn. f_equal. apply IH. now injection H.
Qed.

(** X2: in a record the constructor accepts with as many block sizes as
    block starts, [length] is the sum of the block sizes plus the number
    of blocks: the recomputation at the end of [__init__] counts one more
    per exon than the first pass [sum(self.block_sizes)]. *)
Theorem length_is_sizes_plus_count
    ch sa ea nm sc st csa cea rgb bca bsz bst at_ kw g :
  init ch sa ea nm sc st csa cea rgb bca bsz bst at_ kw = Ok g ->
  List.length (block_sizes g) = List.length (block_starts g) ->
  length g = Py.sum (block_sizes g) + Z.of_nat (List.length (block_sizes g))
  /\ length g = Py.sum (map Props.own_length (exons g)).
Proof.
  intros Hg Hlen. apply init_constructed in Hg.
  pose proof (f_equal length Hg) as H3. pose proof (f_equal exons Hg) as H1.
  unfold build, derive in H1, H3. rewrite GeneFacts.block_loop in H1, H3.
  cbn [length exons fst app] in H1, H3. split.
  - rewrite H3, sum_sizes, combine_snd by now symmetry.
    rewrite length_combine, <- Hlen, Nat.min_id. reflexivity.
  - rewrite H3, H1. reflexivity.
Qed.

Lemma length_is_sizes_plus_count_witness :
  exists g,
    init "chr1" (Py.VInt 100) (Py.VInt 200) "g" (Py.VInt 0) "+"
         (Py.VInt 120) (Py.VInt 180) (Py.VInt 0) (Py.VInt 2)
         "20,30" "0,60" None [] = Ok g
    /\ length g = 52.
Proof.
  destruct (init "chr1" (Py.VInt 100) (Py.VInt 200) "g" (Py.VInt 0) "+"
                 (Py.VInt 120) (Py.VInt 180) (Py.VInt 0) (Py.VInt 2)
                 "20,30" "0,60" None [])
    as [g|e] eqn:Hg; [|vm_compute in Hg; discriminate Hg].
  exists g. split; [reflexivity|].
  assert (Hv : Ok g = init "chr1" (Py.VInt 100) (Py.VInt 200) "g" (Py.VInt 0)
                 "+" (Py.VInt 120) (Py.VInt 180) (Py.VInt 0) (Py.VInt 2)
                 "20,30" "0,60" None []) by now symmetry.
  vm_compute in Hv. injection Hv as Hv.
  assert (Hlen : List.length (block_sizes g) = List.length (block_starts g))
    by now rewrite Hv.
  destruct (length_is_sizes_plus_count _ _ _ _ _ _ _ _ _ _ _ _ _ _ g Hg Hlen)
    as [H _].
  rewrite H, Hv. reflexivity.
Defined.

(** What a block with ordered bounds adds to [cds_exons]. *)
Lemma block_cds_cases (s cs ce : Z) (b : Z * Z) :
  0 <= snd b -> cs <= ce ->
  Props.block_cds s cs ce b = []
  \/ (Props.block_cds s cs ce b
      = [(Z.max cs (fst b + s), Z.min ce (fst b + s + snd b))]
      /\ cs < fst b + s + snd b /\ fst b + s < ce).
Proof.
  destruct b as [bstart size]. cbn [fst snd]. intros Hb Hc.
  unfold Props.block_cds, block_step. cbn [Py.sorted].
  GeneFacts.order_bounds; try (now left); right;
    (split; [reflexivity | lia]).
Qed.

Lemma flat_map_cds_clipped (s cs ce : Z) (bs : list (Z * Z)) :
  Forall (fun b : Z * Z => 0 <= snd b) bs -> cs <= ce ->
  Forall (fun c => cs <= fst c /\ fst c <= snd c /\ snd c <= ce
                   /\ exists e, In e (map (Props.block_exon s) bs)
                                /\ fst e <= fst c /\ snd c <= snd e)
         (flat_map (Props.block_cds s cs ce) bs)
  /\ (List.length (flat_map (Props.block_cds s cs ce) bs)
      <= List.length (map (Props.block_exon s) bs))%nat.
Proof.
  intros Hbs Hcds.
  induction Hbs as [|b bs Hb _ [IH1 IH2]]; cbn [flat_map map List.length].
  - split; [constructor | lia].
  - assert (IH1' : Forall
              (fun c => cs <= fst c /\ fst c <= snd c /\ snd c <= ce
                        /\ exists e,
                             In e (Props.block_exon s b
                                   :: map (Props.block_exon s) bs)
                             /\ fst e <= fst c /\ snd c <= snd e)
              (flat_map (Props.block_cds s cs ce) bs)).
    { eapply Forall_impl; [|exact IH1].
      intros c (H1 & H2 & H3 & e & Hin & H4). repeat split; try assumption.
      exists e. split; [now right | exact H4]. }
    destruct (block_cds_cases s cs ce b Hb Hcds) as [-> | (-> & Hlo & Hhi)];
      cbn [app List.length].
    + split; [exact IH1' | lia].
    + split; [|lia]. constructor; [|exact IH1'].
      cbn [fst snd]. repeat split; try lia.
      exists (Props.block_exon s b). split; [now left|].
      unfold Props.block_exon. cbn [fst snd]. lia.
Qed.

(** X3: in a record the constructor accepts with non-negative block sizes
    and [cds_start <= cds_end], every CDS exon has its bounds in order,
    lies within [[cds_start, cds_end]] and within one of the exons; and
    there are at most as many CDS exons as exons. *)
Theorem cds_exons_clipped
    ch sa ea nm sc st csa cea rgb bca bsz bst at_ kw g :
  init ch sa ea nm sc st csa cea rgb bca bsz bst at_ kw = Ok g ->
  Forall (fun size => 0 <= size) (block_sizes g) ->
  cds_start g <= cds_end g ->
  Forall (fun c => cds_start g <= fst c /\ fst c <= snd c
                   /\ snd c <= cds_end g
                   /\ exists e, In e (exons g)
                                /\ fst e <= fst c /\ snd c <= snd e)
         (cds_exons g)
  /\ (List.length (cds_exons g) <= List.length (exons g))%nat.
Proof.
  intros Hg Hsz Hcds.
  destruct (GeneFacts.init_derived _ _ _ _ _ _ _ _ _ _ _ _ _ _ _ Hg)
    as (He & Hc & _).
  rewrite He, Hc. apply flat_map_cds_clipped; [|exact Hcds].
  apply Forall_forall. intros [b sz] Hin. apply in_combine_r in Hin.
  rewrite Forall_forall in Hsz. now apply Hsz.
Qed.

Lemma cds_exons_clipped_witness :
  exists g,
    init "chr1" (Py.VInt 100) (Py.VInt 200) "g" (Py.VInt 0) "+"
         (Py.VInt 110) (Py.VInt 170) (Py.VInt 0) (Py.VInt 2)
         "20,30" "0,60" None [] = Ok g
    /\ cds_exons g = [(110, 120); (160, 170)]
    /\ (List.length (cds_exons g) <= List.length (exons g))%nat.
Proof.
  destruct (init "chr1" (Py.VInt 100) (Py.VInt 200) "g" (Py.VInt 0) "+"
                 (Py.VInt 110) (Py.VInt 170) (Py.VInt 0) (Py.VInt 2)
                 "20,30" "0,60" None [])
    as [g|e] eqn:Hg; [|vm_compute in Hg; discriminate Hg].
  exists g. split; [reflexivity|].
  assert (Hv : Ok g = init "chr1" (Py.VInt 100) (Py.VInt 200) "g" (Py.VInt 0)
                 "+" (Py.VInt 110) (Py.VInt 170) (Py.VInt 0) (Py.VInt 2)
                 "20,30" "0,60" None []) by now symmetry.
  vm_compute in Hv. injection Hv as Hv.
  assert (Hsz : Forall (fun size => 0 <= size) (block_sizes g))
    by (rewrite Hv; repeat constructor; discriminate).
  assert (Hcds : cds_start g <= cds_end g) by (rewrite Hv; discriminate).
  destruct (cds_exons_clipped _ _ _ _ _ _ _ _ _ _ _ _ _ _ g Hg Hsz Hcds)
    as [_ H].
  split; [now rewrite Hv | exact H].
Defined.

End GeneMoreFacts.

(** ** gene.py: more about the comparisons *)

Module IntervalMoreFacts.
Import Gene GeneProps IntervalFacts.
Import Permutation.

Lemma bool_eq_iff (b1 b2 : bool) : (b1 = true <-> b2 = true) -> b1 = b2.
Proof. destruct b1, b2; intros [H1 H2]; auto; symmetry; auto. Qed.

Lemma locus_overlap_sym (a b : t) : locus_overlap a b = locus_overlap b a.
Proof.
  unfold locus_overlap.
  rewrite (orb_comm (start a >? end_ b)).
  rewrite (String.eqb_sym (chrom a)), (String.eqb_sym (strand a)).
  reflexivity.
Qed.

(** X4: [locus_overlap], [overlap] and [is_isoform] do not depend on which
    record is [self] and which is [other]. *)
Theorem comparisons_symmetric (a b : t) (c : comparison) :
  locus_overlap a b = locus_overlap b a
  /\ overlap a b c = overlap b a c
  /\ is_isoform a b c = is_isoform b a c.
Proof.
  split; [apply locus_overlap_sym|]. split; apply bool_eq_iff.
  - rewrite !overlap_true, locus_overlap_sym.
    split; intros [Hl (x & y & Hx & Hy & H1 & H2)];
      (split; [exact Hl|]); exists y, x; tauto.
  - rewrite !is_isoform_true, locus_overlap_sym.
    split; intros [Hl (x & y & Hx & Hy & H1 & H2)];
      (split; [exact Hl|]); exists y, x; repeat split; auto.
Qed.

Lemma pair_overlap_sym (x y : Z * Z) :
  Props.pair_overlap (x, y) = Props.pair_overlap (y, x).
Proof. unfold Props.pair_overlap. cbn [fst snd]. lia. Qed.

Lemma row_column (x : Z * Z) (l : list (Z * Z)) :
  Props.row_sum x l = Props.column_sum l x.
Proof.
  unfold Props.row_sum, Props.column_sum. f_equal.
  apply map_ext. intros y. apply pair_overlap_sym.
Qed.

Lemma product_sum_nil_r (l : list (Z * Z)) : Props.product_sum l [] = 0.
Proof.
  induction l as [|x l IH]; [reflexivity|].
  rewrite product_sum_cons_l, IH. reflexivity.
Qed.

Lemma product_sum_sym (l1 l2 : list (Z * Z)) :
  Props.product_sum l1 l2 = Props.product_sum l2 l1.
Proof.
  induction l1 as [|x l1 IH].
  - now rewrite product_sum_nil_r.
  - rewrite product_sum_cons_l, product_sum_cons_r, IH, row_column.
    reflexivity.
Qed.

(** X5: [overlap_length(a, b) == overlap_length(b, a)]. *)
Theorem overlap_length_symmetric (a b : t) (c : comparison) :
  overlap_length a b c = overlap_length b a c.
Proof.
  destruct (locus_overlap a b) eqn:Hl.
  - rewrite (overlap_length_product_sum a b c Hl).
    rewrite (overlap_length_product_sum b a c)
      by (rewrite locus_overlap_sym; exact Hl).
    apply product_sum_sym.
  - unfold overlap_length. rewrite (locus_overlap_sym b a), Hl. reflexivity.
Qed.

Lemma sum_positive_member {A : Type} (f : A -> Z) (l : list A) :
  (forall x, 0 <= f x) -> 0 < Py.sum (map f l) ->
  exists x, In x l /\ 0 < f x.
Proof.
  intros Hf. induction l as [|x l IH]; cbn [map].
  - unfold Py.sum. cbn. lia.
  - rewrite sum_cons. intros H. destruct (Z.ltb_spec 0 (f x)) as [Hx|Hx].
    + exists x. split; [now left | exact Hx].
    + destruct IH as (y & Hy & Hpos); [pose proof (Hf x); lia|].
      exists y. split; [now right | exact Hpos].
Qed.

Lemma sum_nonneg {A : Type} (f : A -> Z) (l : list A) :
  (forall x, 0 <= f x) -> 0 <= Py.sum (map f l).
Proof.
  intros Hf. induction l as [|x l IH]; cbn [map].
  - unfold Py.sum. cbn. lia.
  - rewrite sum_cons. pose proof (Hf x). lia.
Qed.

(** X6: [overlap_length] is never negative, and when it is positive the
    two records overlap; so records that [overlap] rejects have overlap
    length [0]. *)
Theorem overlap_length_positive_overlap (a b : t) (c : comparison) :
  0 <= overlap_length a b c
  /\ (0 < overlap_length a b c -> overlap a b c = true)
  /\ (overlap a b c = false -> overlap_length a b c = 0).
Proof.
  assert (Hpos : 0 < overlap_length a b c -> overlap a b c = true).
  { destruct (locus_overlap a b) eqn:Hl.
    - rewrite (overlap_length_product_sum a b c Hl). unfold Props.product_sum.
      intros H. apply sum_positive_member in H; [|apply pair_overlap_nonneg].
      destruct H as ([x y] & Hin & Hxy). apply in_prod_iff in Hin.
      apply overlap_true. split; [exact Hl|]. exists x, y.
      unfold Props.pair_overlap in Hxy. cbn [fst snd] in Hxy.
      repeat split; try tauto; lia.
    - unfold overlap_length. rewrite Hl. cbn. lia. }
  assert (Hge : 0 <= overlap_length a b c).
  { destruct (locus_overlap a b) eqn:Hl.
    - rewrite (overlap_length_product_sum a b c Hl).
      apply sum_nonneg, pair_overlap_nonneg.
    - unfold overlap_length. rewrite Hl. cbn. lia. }
  split; [exact Hge|]. split; [exact Hpos|].
  intros Hno. destruct (Z.ltb_spec 0 (overlap_length a b c)) as [H|H];
    [apply Hpos in H; congruence | lia].
Qed.

Lemma overlap_length_positive_overlap_witness :
  exists a b,
    init "chr1" (Py.VInt 100) (Py.VInt 200) "a" (Py.VInt 0) "+"
         (Py.VInt 120) (Py.VInt 180) (Py.VInt 0) (Py.VInt 1)
         "50" "0" None [] = Ok a
    /\ init "chr1" (Py.VInt 120) (Py.VInt 220) "b" (Py.VInt 0) "+"
            (Py.VInt 120) (Py.VInt 180) (Py.VInt 0) (Py.VInt 1)
            "50" "0" None [] = Ok b
    /\ overlap_length a b Exons = 30
    /\ overlap a b Exons = true.
Proof.
  eexists. eexists.
  split; [vm_compute; reflexivity|]. split; [vm_compute; reflexivity|].
  split; [reflexivity|].
  match goal with
  | |- overlap ?a ?b ?c = true =>
      apply (proj1 (proj2 (overlap_length_positive_overlap a b c)))
  end.
  reflexivity.
Defined.

(** *** [identical] and the order of the intervals *)

Lemma pair_leb_spec (a b : Z * Z) : Py.pair_leb a b = true <-> lex_le a b.
Proof.
  unfold Py.pair_leb, lex_le.
  rewrite orb_true_iff, andb_true_iff, Z.ltb_lt, Z.eqb_eq, Z.leb_le. tauto.
Qed.

Lemma pair_leb_false (a b : Z * Z) : Py.pair_leb a b = false -> ~ lex_le a b.
Proof. intros H Hl. apply pair_leb_spec in Hl. congruence. Qed.

Ltac compare_pairs :=
  repeat match goal with
         | |- context [Py.pair_leb ?a ?b] =>
             let E := fresh "E" in
             destruct (Py.pair_leb a b) eqn:E;
             [apply pair_leb_spec in E | apply pair_leb_false in E];
             cbn [Py.insert]
         end;
  unfold lex_le in *; cbn [fst snd] in *.

Lemma insert_insert (x y : Z * Z) (l : list (Z * Z)) :
  Py.insert Py.pair_leb x (Py.insert Py.pair_leb y l)
  = Py.insert Py.pair_leb y (Py.insert Py.pair_leb x l).
Proof.
  destruct x as [x1 x2], y as [y1 y2].
  induction l as [|[z1 z2] l IH]; cbn [Py.insert]; compare_pairs;
    try reflexivity; try (exfalso; lia); try (now rewrite IH);
    repeat f_equal; lia.
Qed.

Lemma sorted_permutation (l1 l2 : list (Z * Z)) :
  Permutation l1 l2 -> Py.sorted Py.pair_leb l1 = Py.sorted Py.pair_leb l2.
Proof.
  induction 1 as [|x l l' _ IH|x y l|l l' l'' _ IH1 _ IH2]; cbn [Py.sorted].
  - reflexivity.
  - now rewrite IH.
  - apply insert_insert.
  - now rewrite IH1.
Qed.

Lemma insert_permutation {A : Type} (leb : A -> A -> bool) (x : A)
    (l : list A) :
  Permutation (x :: l) (Py.insert leb x l).
Proof.
  induction l as [|y l IH]; cbn [Py.insert]; [reflexivity|].
  destruct (leb x y); [reflexivity|].
  rewrite perm_swap. now apply perm_skip.
Qed.

Lemma permutation_sorted {A : Type} (leb : A -> A -> bool) (l : list A) :
  Permutation l (Py.sorted leb l).
Proof.
  induction l as [|x l IH]; cbn [Py.sorted]; [reflexivity|].
  rewrite <- insert_permutation. now apply perm_skip.
Qed.

Lemma all_equal_refl (l : list (Z * Z)) :
  forallb (fun ab => Py.pair_eqb (fst ab) (snd ab)) (combine l l) = true.
Proof.
  induction l as [|x l IH]; [reflexivity|]. cbn. rewrite IH.
  unfold Py.pair_eqb. now rewrite !Z.eqb_refl.
Qed.

(** X7: [identical(a, b)] holds exactly when the chosen interval list of
    [b] is a rearrangement of that of [a]: the order of the intervals and
    everything else in the records is ignored, repetitions are counted. *)
Theorem identical_iff_permutation (a b : t) (c : comparison) :
  identical a b c = true <-> Permutation (intervals a c) (intervals b c).
Proof.
  split.
  - intros H. apply identical_sorted in H.
    rewrite (permutation_sorted Py.pair_leb (intervals a c)), H.
    symmetry. apply permutation_sorted.
  - intros H. apply sorted_permutation in H.
    unfold identical. cbn zeta. rewrite H, Nat.eqb_refl, all_equal_refl.
    reflexivity.
Qed.

End IntervalMoreFacts.

(** ** gene.py: reverse complement and sequence extraction *)

Module GeneSeqFacts.
Import Gene GeneProps GeneMethods.
Import Permutation.

Lemma reverse_complement_length (s : string) :
  String.length (reverse_complement s) = String.length s.
Proof.
  unfold reverse_complement.
  rewrite !PyFacts.string_length_chars, list_ascii_of_string_of_list_ascii.
  now rewrite length_rev, length_map.
Qed.

(** X8: the reverse complement of a concatenation is the concatenation of
    the reverse complements in the opposite order, and reverse
    complementing keeps the length, whatever the characters. *)
Theorem reverse_complement_append (s1 s2 : string) :
  reverse_complement (s1 ++ s2)
  = (reverse_complement s2 ++ reverse_complement s1)%string
  /\ String.length (reverse_complement s1) = String.length s1.
Proof.
  unfold reverse_complement. split.
  - rewrite PyFacts.chars_app, map_app, rev_app_distr.
    apply PyFacts.string_of_chars_app.
  - apply reverse_complement_length.
Qed.

Lemma slice_length (l : list ascii) (a b : Z) :
  0 <= a -> a <= b -> b <= Z.of_nat (List.length l) ->
  Z.of_nat (List.length (slice l a b)) = b - a.
Proof.
  intros Ha Hab Hb. unfold slice, clamp.
  destruct (Z.ltb_spec a 0); [lia|]. destruct (Z.ltb_spec b 0); [lia|].
  rewrite length_firstn, length_skipn. lia.
Qed.

Lemma slices_length (l : list ascii) (es : list (Z * Z)) :
  Forall (in_range (Z.of_nat (List.length l))) es ->
  Z.of_nat (List.length
              (List.concat (map (fun c => slice l (fst c - 1) (snd c)) es)))
  = span_sum es.
Proof.
  unfold span_sum.
  induction 1 as [|e es He _ IH]; [reflexivity|].
  cbn [map List.concat]. rewrite length_app, Nat2Z.inj_add, IH.
  rewrite IntervalFacts.sum_cons. destruct He as (H1 & H2 & H3).
  rewrite slice_length by lia. lia.
Qed.

Lemma sum_permutation (l1 l2 : list Z) :
  Permutation l1 l2 -> Py.sum l1 = Py.sum l2.
Proof.
  induction 1 as [|x l l' _ IH|x y l|l l' l'' _ IH1 _ IH2].
  - reflexivity.
  - now rewrite !IntervalFacts.sum_cons, IH.
  - rewrite !IntervalFacts.sum_cons. lia.
  - now rewrite IH1.
Qed.

Lemma get_seq_length (g : t) (seq : string) (es : list (Z * Z)) :
  Forall (in_range (Z.of_nat (String.length seq))) es ->
  Z.of_nat (String.length (get_seq g seq es)) = span_sum es.
Proof.
  intros Hes. unfold get_seq.
  assert (Hlen : Z.of_nat
                   (String.length
                      (string_of_list_ascii
                         (List.concat
                            (map (fun c => slice (list_ascii_of_string seq)
                                                 (fst c - 1) (snd c))
                                 (Py.sorted start_leb es)))))
                 = span_sum es).
  { rewrite PyFacts.string_length_chars, list_ascii_of_string_of_list_ascii.
    rewrite slices_length.
    - unfold span_sum. apply sum_permutation, Permutation_map.
      symmetry. apply IntervalMoreFacts.permutation_sorted.
    - rewrite <- PyFacts.string_length_chars.
      eapply Permutation_Forall; [|exact Hes].
      apply IntervalMoreFacts.permutation_sorted. }
  destruct (String.eqb (strand g) "-"); [|exact Hlen].
  now rewrite reverse_complement_length.
Qed.

(** X9: for a record from the constructor whose exons are 1-based
    inclusive intervals inside the sequence handed over
    ([1 <= s <= e <= len(seq)]), [get_exons] returns exactly [length]
    letters on either strand; likewise [get_cds] returns [cds_length]
    letters when the CDS exons are such intervals. *)
Theorem extracted_sequence_length
    ch sa ea nm sc st csa cea rgb bca bsz bst at_ kw g (seq : string) :
  init ch sa ea nm sc st csa cea rgb bca bsz bst at_ kw = Ok g ->
  (Forall (in_range (Z.of_nat (String.length seq))) (exons g) ->
   Z.of_nat (String.length (get_exons g seq)) = length g)
  /\ (Forall (in_range (Z.of_nat (String.length seq))) (cds_exons g) ->
      Z.of_nat (String.length (get_cds g seq)) = cds_length g).
Proof.
  intros Hg. apply GeneMoreFacts.init_constructed in Hg.
  pose proof (f_equal length Hg) as H1.
  pose proof (f_equal cds_length Hg) as H2.
  pose proof (f_equal exons Hg) as H3.
  pose proof (f_equal cds_exons Hg) as H4.
  unfold build in H1, H2, H3, H4.
  cbn [length cds_length exons cds_exons] in H1, H2, H3, H4.
  rewrite <- H3 in H1. rewrite <- H4 in H2. rewrite H1, H2.
  split; intros H; now apply get_seq_length.
Qed.

Lemma extracted_sequence_length_witness :
  exists g,
    init "chr1" (Py.VInt 3) (Py.VInt 10) "g" (Py.VInt 0) "-"
         (Py.VInt 4) (Py.VInt 9) (Py.VInt 0) (Py.VInt 2)
         "2,3" "5,0" None [] = Ok g
    /\ get_exons g "ACGTACGTACGT" = "GTAGTAC"
    /\ Z.of_nat (String.length (get_exons g "ACGTACGTACGT")) = length g.
Proof.
  destruct (init "chr1" (Py.VInt 3) (Py.VInt 10) "g" (Py.VInt 0) "-"
                 (Py.VInt 4) (Py.VInt 9) (Py.VInt 0) (Py.VInt 2)
                 "2,3" "5,0" None [])
    as [g|e] eqn:Hg; [|vm_compute in Hg; discriminate Hg].
  exists g. split; [reflexivity|].
  assert (Hv : Ok g = init "chr1" (Py.VInt 3) (Py.VInt 10) "g" (Py.VInt 0) "-"
                 (Py.VInt 4) (Py.VInt 9) (Py.VInt 0) (Py.VInt 2)
                 "2,3" "5,0" None []) by now symmetry.
  vm_compute in Hv. injection Hv as Hv.
  split; [now rewrite Hv|].
  apply (proj1 (extracted_sequence_length _ _ _ _ _ _ _ _ _ _ _ _ _ _ g
                  "ACGTACGTACGT" Hg)).
  rewrite Hv. repeat constructor; cbn; lia.
Defined.

End GeneSeqFacts.

(** ** seq.py: more about reading records *)

Module FastaMoreFacts.
Import Fasta FastaFacts FastaOps.

Lemma find_header_none (l : list ascii) (p : nat) :
  find_header l p = None <-> ~ In ">"%char l.
Proof.
  revert p. induction l as [|c l IH]; intros p; cbn.
  - split; [intros _ [] | reflexivity].
  - destruct (Ascii.eqb_spec c ">") as [->|Hc].
    + split; [discriminate | intros H; elim H; now left].
    + rewrite IH. split; intros H; [intros [E|E]; [now elim Hc | now apply H]|].
      intros E. apply H. now right.
Qed.

Lemma no_header_stops (f : file) :
  ~ In ">"%char (remaining f) -> parse_fasta_record f = Err StopIteration.
Proof.
  intros H. unfold parse_fasta_record.
  now rewrite (proj2 (find_header_none (remaining f) (pos f)) H).
Qed.

(** X10: [parse_fasta_record] raises [StopIteration] exactly when no
    ['>'] is left to read; an empty file and a file of blanks are such. *)
Theorem stop_iteration_iff_no_header (f : file) :
  parse_fasta_record f = Err StopIteration <-> ~ In ">"%char (remaining f).
Proof.
  unfold parse_fasta_record.
  destruct (find_header (remaining f) (pos f)) as [[rest p1]|] eqn:E.
  - assert (Hin : ~ ~ In ">"%char (remaining f)).
    { intros H. apply (find_header_none _ (pos f)) in H. congruence. }
    destruct (readline rest) as [header rest2].
    destruct (split_maxsplit1 _) as [|id tl].
    + split; [discriminate | intros H; now elim Hin].
    + destruct (read_body rest2 [] _) as [[sq p3] eof].
      destruct eof; (split; [discriminate | intros H; now elim Hin]).
  - split; [intros _; now apply (find_header_none _ (pos f)) | reflexivity].
Qed.

Lemma lstrip_all_space (l : list ascii) :
  Forall (fun c => Py.isspace c = true) l -> Py.lstrip_by Py.isspace l = [].
Proof. induction 1 as [|c l Hc _ IH]; cbn; [reflexivity | now rewrite Hc]. Qed.

(** X11: a record whose header line is blank (only white space after the
    ['>'], up to the end of the line or of the file) makes
    [parse_fasta_record] raise [IndexError]: there is no id to take. *)
Theorem blank_header_index_error (f : file) (pre rest : list ascii) :
  remaining f = pre ++ ">"%char :: rest ->
  ~ In ">"%char pre ->
  Forall (fun c => Py.isspace c = true) (fst (readline rest)) ->
  parse_fasta_record f = Err IndexError.
Proof.
  intros Hrem Hpre Hblank. unfold parse_fasta_record.
  rewrite Hrem, find_header_skips by exact Hpre.
  destruct (readline rest) as [header rest2]. cbn [fst] in Hblank.
  unfold Py.strip_by. rewrite (lstrip_all_space header Hblank). reflexivity.
Qed.

Lemma blank_header_index_error_witness :
  parse_fasta_record
    (mkFile (list_ascii_of_string (">  " ++ String "010" "ACGT")) 0)
  = Err IndexError.
Proof.
  apply (blank_header_index_error _ []
           (list_ascii_of_string ("  " ++ String "010" "ACGT"))).
  - reflexivity.
  - intros [].
  - cbn. repeat constructor.
Defined.

(** X12: on the last record of a file, [pre > hdr newline body] with no
    ['>'] in [pre] or [body], [parse_fasta_record] returns the record with
    [body] without its white space, leaves the file at its end, and the
    call after that raises [StopIteration]. *)
Theorem last_record_then_stop
    (f : file) (pre hdr body id : list ascii) (tl : list (list ascii)) :
  remaining f = pre ++ ">"%char :: hdr ++ newline :: body ->
  ~ In ">"%char pre -> ~ In newline hdr -> ~ In ">"%char body ->
  header_fields (hdr ++ [newline]) = id :: tl ->
  exists s f',
    parse_fasta_record f = Ok (s, f')
    /\ name s = string_of_list_ascii id
    /\ sequence s = string_of_list_ascii (nonspace body)
    /\ description s = option_map string_of_list_ascii (hd_error tl)
    /\ remaining f' = []
    /\ parse_fasta_record f' = Err StopIteration.
Proof.
  intros Hrem Hpre Hhdr Hbody Hfields.
  eexists. eexists. split.
  { exact (parse_record_then_end f pre hdr body id tl
             Hrem Hpre Hhdr Hbody Hfields). }
  assert (Hend : remaining
                   (mkFile (content f)
                      (pos f + (List.length pre + 1 + (List.length hdr + 1)
                                + List.length body))) = []).
  { apply (remaining_after f (pre ++ ">"%char :: hdr ++ newline :: body)).
    - now rewrite app_nil_r.
    - rewrite !length_app. cbn [List.length]. rewrite length_app.
      cbn [List.length]. lia. }
  repeat (split; [reflexivity|]). split; [exact Hend|].
  apply no_header_stops. rewrite Hend. intros [].
Qed.

Lemma last_record_then_stop_witness :
  exists s f',
    parse_fasta_record
      (mkFile (list_ascii_of_string
                 (">id2 second one" ++ String "010" ("GG" ++ String "010" "")))
              0) = Ok (s, f')
    /\ name s = "id2" /\ sequence s = "GG"
    /\ description s = Some "second one"
    /\ parse_fasta_record f' = Err StopIteration.
Proof.
  destruct (last_record_then_stop
              (mkFile (list_ascii_of_string
                         (">id2 second one" ++ String "010"
                            ("GG" ++ String "010" ""))) 0)
              [] (list_ascii_of_string "id2 second one")
              (list_ascii_of_string ("GG" ++ String "010" ""))
              (list_ascii_of_string "id2")
              [list_ascii_of_string "second one"])
    as (s & f' & Hp & Hn & Hs & Hd & _ & Hstop).
  - reflexivity.
  - intros [].
  - cbn. intuition discriminate.
  - cbn. intuition discriminate.
  - reflexivity.
  - exists s, f'. repeat split; assumption.
Defined.

End FastaMoreFacts.

(** ** More about dictionaries *)

Module DictMoreFacts.
Section MoreKeyFacts.
Context {K V : Type} (eqb : K -> K -> bool).
Hypothesis eqb_eq : forall a b, eqb a b = true <-> a = b.

Lemma eqb_refl_true (k : K) : eqb k k = true.
Proof. now apply eqb_eq. Qed.

Lemma eqb_neq_false (a b : K) : a <> b -> eqb a b = false.
Proof.
  intros H. destruct (eqb a b) eqn:E; [|reflexivity].
  apply eqb_eq in E. contradiction.
Qed.

Lemma set_new (d : PyDict.t K V) (k : K) (v : V) :
  ~ In k (PyDict.keys d) -> PyDict.set eqb d k v = d ++ [(k, v)].
Proof.
  unfold PyDict.keys. induction d as [|[k' v'] d IH]; cbn; intros Hnot.
  - reflexivity.
  - rewrite eqb_neq_false by (intros ->; apply Hnot; now left).
    f_equal. apply IH. intros H. apply Hnot. now right.
Qed.

Lemma length_set (d : PyDict.t K V) (k : K) (v : V) :
  List.length (PyDict.set eqb d k v)
  = if PyDict.contains eqb d k then List.length d else S (List.length d).
Proof.
  unfold PyDict.contains. induction d as [|[k' v'] d IH]; cbn.
  - reflexivity.
  - destruct (eqb k k'); cbn; [reflexivity|]. rewrite IH.
    now destruct (PyDict.get eqb d k).
Qed.

(** Looking up after storing. *)
Lemma get_set (d : PyDict.t K V) (k k' : K) (v : V) :
  PyDict.get eqb (PyDict.set eqb d k v) k'
  = if eqb k' k then Some v else PyDict.get eqb d k'.
Proof.
  induction d as [|[k0 v0] d IH]; cbn.
  - reflexivity.
  - destruct (eqb k k0) eqn:E; cbn.
    + apply eqb_eq in E. subst k0. now destruct (eqb k' k).
    + destruct (eqb k' k0) eqn:E'; [|exact IH].
      apply eqb_eq in E'. subst k0.
      rewrite eqb_neq_false; [reflexivity|].
      intros ->. rewrite eqb_refl_true in E. discriminate E.
Qed.

Lemma get_none (d : PyDict.t K V) (k : K) :
  PyDict.get eqb d k = None <-> ~ In k (PyDict.keys d).
Proof.
  rewrite <- (PyDictFacts.contains_keys eqb eqb_eq). unfold PyDict.contains.
  destruct (PyDict.get eqb d k); split; congruence.
Qed.

Lemma fold_set_distinct (l : list (K * V)) : forall d : PyDict.t K V,
  NoDup (PyDict.keys d ++ map fst l) ->
  fold_left (fun d kv => PyDict.set eqb d (fst kv) (snd kv)) l d = d ++ l.
Proof.
  induction l as [|[k v] l IH]; intros d Hnd; cbn [fold_left fst snd map].
  - now rewrite app_nil_r.
  - cbn [map fst] in Hnd.
    assert (Hk : ~ In k (PyDict.keys d)).
    { intros H. apply NoDup_remove_2 in Hnd. apply Hnd.
      apply in_or_app. now left. }
    rewrite set_new by exact Hk. rewrite IH.
    + now rewrite <- app_assoc.
    + unfold PyDict.keys in *. rewrite map_app, <- app_assoc. exact Hnd.
Qed.

Lemma fold_set_length_le (l : list (K * V)) : forall d : PyDict.t K V,
  (List.length
     (fold_left (fun d kv => PyDict.set eqb d (fst kv) (snd kv)) l d)
   <= List.length d + List.length l)%nat.
Proof.
  induction l as [|[k v] l IH]; intros d; cbn [fold_left fst snd List.length].
  - lia.
  - specialize (IH (PyDict.set eqb d k v)). rewrite length_set in IH.
    destruct (PyDict.contains eqb d k); lia.
Qed.

Lemma fold_set_full_length (l : list (K * V)) : forall d : PyDict.t K V,
  NoDup (PyDict.keys d) ->
  List.length
    (fold_left (fun d kv => PyDict.set eqb d (fst kv) (snd kv)) l d)
  = (List.length d + List.length l)%nat ->
  NoDup (PyDict.keys d ++ map fst l).
Proof.
  induction l as [|[k v] l IH]; intros d Hd Hlen;
    cbn [fold_left fst snd List.length map] in *.
  - now rewrite app_nil_r.
  - pose proof (fold_set_length_le l (PyDict.set eqb d k v)) as Hle.
    rewrite length_set in Hle.
    destruct (PyDict.contains eqb d k) eqn:E; [lia|].
    assert (Hk : ~ In k (PyDict.keys d)).
    { intros H. apply (PyDictFacts.contains_keys eqb eqb_eq) in H.
      congruence. }
    specialize (IH (PyDict.set eqb d k v)).
    rewrite set_new in IH by exact Hk.
    unfold PyDict.keys in *. rewrite map_app, length_app in IH.
    cbn [map fst List.length] in IH. rewrite <- app_assoc in IH.
    apply IH; [|rewrite <- (set_new d k v Hk); lia].
    apply NoDup_app; [exact Hd | repeat constructor; intros [] |].
    intros x Hx [<-|[]]. contradiction.
Qed.

(** A dict built from pairs has as many entries as there were pairs
    exactly when the keys were distinct, and then it is the list itself. *)
Lemma of_pairs_length (l : list (K * V)) :
  (List.length (PyDict.of_pairs eqb l) = List.length l
   <-> NoDup (map fst l))
  /\ (NoDup (map fst l) -> PyDict.of_pairs eqb l = l).
Proof.
  unfold PyDict.of_pairs. split; [split|].
  - intros H. apply (fold_set_full_length l []); [constructor | exact H].
  - intros H. now rewrite (fold_set_distinct l []).
  - intros H. now rewrite (fold_set_distinct l []).
Qed.

End MoreKeyFacts.
End DictMoreFacts.

(** ** seq.py: the index and the collection *)

Module IndexFacts.
Import Fasta FastaFacts FastaOps IndexProps.

Lemma mapM_length {A B : Type} (f : A -> result B) (l : list A) (ys : list B) :
  mapM f l = Ok ys -> List.length ys = List.length l.
Proof.
  revert ys. induction l as [|x l IH]; intros ys H; cbn in H.
  - now injection H as <-.
  - destruct (f x) as [y|]; [|discriminate H]. cbn in H.
    destruct (mapM f l) as [ys'|]; [|discriminate H]. cbn in H.
    injection H as <-. cbn. f_equal. now apply IH.
Qed.

Lemma names_of_records (recs : list FastaIndexRecord.t) :
  map fst (map (fun r => (FastaIndexRecord.name r, r)) recs)
  = map FastaIndexRecord.name recs.
Proof. rewrite map_map. reflexivity. Qed.

(** X13: let the sequence file and its [.fai] be present and every index
    line parse.  If the names on the lines are distinct, the index loads,
    with its records in file order, so that [len(index)] is the number of
    lines and [sequences()] lists the names; if a name is repeated, the
    constructor raises [ValueError("Non-unique sequence names in ...")]. *)
Theorem index_loads_iff_names_distinct
    (fs : filesystem) (path text : string) (recs : list FastaIndexRecord.t) :
  exists_ fs path = true ->
  fs (path ++ ".fai")%string = Some text ->
  mapM FastaIndexRecord.from_string (file_lines text) = Ok recs ->
  (NoDup (map FastaIndexRecord.name recs) ->
   exists x,
     IndexedFasta.init fs path = Ok x
     /\ IndexedFasta.records x
        = map (fun r => (FastaIndexRecord.name r, r)) recs
     /\ IndexedFasta.sequences x = map FastaIndexRecord.name recs
     /\ len x = List.length (file_lines text))
  /\ (~ NoDup (map FastaIndexRecord.name recs) ->
      IndexedFasta.init fs path
      = Err (ValueError ("Non-unique sequence names in " ++ path)%string)).
Proof.
  intros Hex Hfai Hrecs. unfold IndexedFasta.init.
  rewrite Hex, Hfai, Hrecs. cbn [negb bind].
  destruct (DictMoreFacts.of_pairs_length String.eqb String.eqb_eq
              (map (fun r => (FastaIndexRecord.name r, r)) recs))
    as [Hiff Hid].
  rewrite names_of_records in Hiff, Hid. rewrite length_map in Hiff.
  split.
  - intros Hnd. rewrite (Hid Hnd), length_map, Nat.eqb_refl. cbn [negb].
    eexists. split; [reflexivity|]. cbn [IndexedFasta.records].
    split; [reflexivity|]. split.
    + unfold IndexedFasta.sequences, PyDict.keys. cbn [IndexedFasta.records].
      apply names_of_records.
    + unfold len. cbn [IndexedFasta.records].
      rewrite length_map. exact (mapM_length _ _ _ Hrecs).
  - intros Hdup.
    destruct (Nat.eqb_spec
                (List.length
                   (PyDict.of_pairs String.eqb
                      (map (fun r => (FastaIndexRecord.name r, r)) recs)))
                (List.length recs)) as [E|E]; [|reflexivity].
    elim Hdup. now apply Hiff.
Qed.

Lemma index_loads_iff_names_distinct_witness :
  exists x,
    IndexedFasta.init example_fs "a.fa" = Ok x
    /\ IndexedFasta.sequences x = ["s1"; "s2"]
    /\ len x = 2%nat.
Proof.
  destruct (mapM FastaIndexRecord.from_string
              (file_lines (index_line "s1" ++ index_line "s2")))
    as [recs|e] eqn:Hrecs; [|vm_compute in Hrecs; discriminate Hrecs].
  destruct (index_loads_iff_names_distinct example_fs "a.fa"
              (index_line "s1" ++ index_line "s2") recs
              eq_refl eq_refl Hrecs) as [Hok _].
  assert (Hv : Ok recs = mapM FastaIndexRecord.from_string
                           (file_lines (index_line "s1" ++ index_line "s2")))
    by now symmetry.
  vm_compute in Hv. injection Hv as Hv.
  destruct Hok as (x & Hx & _ & Hseq & Hlen).
  - rewrite Hv. cbn. repeat constructor; cbn; intuition discriminate.
  - exists x. split; [exact Hx|]. split.
    + rewrite Hseq, Hv. reflexivity.
    + rewrite Hlen. reflexivity.
Defined.

(** *** Looking a sequence up *)

Lemma scan_back_step (text : list ascii) (o : nat) :
  scan_back text o
  = match nth_error text o with
    | Some c =>
        if Ascii.eqb c ">" then Ok o
        else match o with
             | O => Err (ValueError "negative seek position -1")
             | S o' => scan_back text o'
             end
    | None => match o with
              | O => Err (ValueError "negative seek position -1")
              | S o' => scan_back text o'
              end
    end.
Proof.
  destruct o; cbn [scan_back]; destruct (nth_error text _) as [c|];
    try reflexivity;
    destruct c as [[] [] [] [] [] [] [] []]; reflexivity.
Qed.

(** From any place on the header line or in the body of a record, the
    backward scan stops on the ['>'] of that record. *)
Lemma scan_back_finds (pre mid tail : list ascii) (j : nat) :
  ~ In ">"%char mid -> (j <= List.length mid)%nat ->
  scan_back (pre ++ ">"%char :: mid ++ tail) (List.length pre + j)
  = Ok (List.length pre).
Proof.
  intros Hmid. induction j as [|j IH]; intros Hj.
  - rewrite scan_back_step, Nat.add_0_r, nth_error_app2 by lia.
    rewrite Nat.sub_diag. reflexivity.
  - rewrite scan_back_step, nth_error_app2 by lia.
    replace (List.length pre + S j - List.length pre)%nat with (S j) by lia.
    cbn [nth_error]. rewrite Nat.add_succ_r.
    rewrite nth_error_app1 by lia.
    destruct (nth_error mid j) as [c|] eqn:E.
    + destruct (Ascii.eqb_spec c ">") as [->|_].
      * elim Hmid. eapply nth_error_In. exact E.
      * apply IH. lia.
    + apply IH. lia.
Qed.

Lemma scan_back_no_key_error (text : list ascii) (o : nat) (msg : string) :
  scan_back text o <> Err (KeyError msg).
Proof.
  induction o as [|o IH]; rewrite scan_back_step;
    destruct (nth_error text _) as [c|]; try destruct (Ascii.eqb c ">");
    try discriminate; exact IH.
Qed.

Lemma parse_no_key_error (f : file) (msg : string) :
  parse_fasta_record f <> Err (KeyError msg).
Proof.
  unfold parse_fasta_record.
  destruct (find_header _ _) as [[rest p1]|]; [|discriminate].
  destruct (readline rest) as [header rest2].
  destruct (split_maxsplit1 _) as [|id tl]; [discriminate|].
  destruct (read_body rest2 [] _) as [[sq p3] eof].
  destruct eof; discriminate.
Qed.

(** X14: [get_sequence] raises [KeyError], naming the sequence and the
    file, exactly for the names that are not in the index. *)
Theorem key_error_iff_unknown_name
    (text : list ascii) (x : IndexedFasta.t) (nm : string) :
  (~ In nm (IndexedFasta.sequences x) ->
   get_sequence text x nm
   = Err (KeyError ("No such sequence " ++ nm ++ " in "
                    ++ IndexedFasta.filename x)%string))
  /\ (In nm (IndexedFasta.sequences x) ->
      forall msg, get_sequence text x nm <> Err (KeyError msg))
  /\ (contains x nm = true <-> In nm (IndexedFasta.sequences x)).
Proof.
  unfold get_sequence, IndexedFasta.sequences, contains. split; [|split].
  - intros H. apply (DictMoreFacts.get_none String.eqb String.eqb_eq) in H.
    now rewrite H.
  - intros H msg.
    destruct (PyDict.get String.eqb (IndexedFasta.records x) nm) as [r|] eqn:E.
    + destruct (FastaIndexRecord.offset r <? 0); [discriminate|].
      destruct (scan_back text _) as [o|e] eqn:Es; cbn [bind].
      * destruct (parse_fasta_record _) as [[sq f']|e] eqn:Ep; cbn [bind];
          [discriminate|].
        intros Hk. injection Hk as ->. now apply parse_no_key_error in Ep.
      * intros Hk. injection Hk as ->. now apply scan_back_no_key_error in Es.
    + apply (DictMoreFacts.get_none String.eqb String.eqb_eq) in E.
      contradiction.
  - apply PyDictFacts.contains_keys, String.eqb_eq.
Qed.

Lemma universal_newlines_plain (text : list ascii) :
  ~ In "013"%char text -> universal_newlines text = text.
Proof.
  induction text as [|c r IH]; intros H; [reflexivity|].
  cbn [universal_newlines].
  destruct (Ascii.eqb_spec c "013") as [->|_]; [elim H; now left|].
  f_equal. apply IH. intros Hin. apply H. now right.
Qed.

Lemma plain_bytes_no_cr (text : list ascii) :
  plain_bytes text -> ~ In "013"%char text.
Proof.
  unfold plain_bytes. rewrite Forall_forall. intros H Hin.
  now destruct (H _ Hin) as [_ Hc].
Qed.

(** X15: let the file hold bytes below 128 and no carriage return, and
    let the index give, for a name, an offset that falls on the header
    line or in the body of a record [> hdr newline body] of the file,
    neither of which holds a ['>'], the record being followed by another
    header or by the end of the file.  Then [get_sequence] scans back to
    that record's ['>'] and returns the record: the id of its header
    line, its description and [body] without white space. *)
Theorem get_sequence_returns_record
    (x : IndexedFasta.t) (nm : string) (r : FastaIndexRecord.t)
    (pre hdr body tail id : list ascii) (tl : list (list ascii)) (j : nat) :
  plain_bytes (pre ++ ">"%char :: hdr ++ newline :: body ++ tail) ->
  PyDict.get String.eqb (IndexedFasta.records x) nm = Some r ->
  FastaIndexRecord.offset r = Z.of_nat (List.length pre + 1 + j) ->
  (j < List.length (hdr ++ newline :: body))%nat ->
  ~ In ">"%char hdr -> ~ In newline hdr -> ~ In ">"%char body ->
  tail = [] \/ (exists rest, tail = ">"%char :: rest) ->
  header_fields (hdr ++ [newline]) = id :: tl ->
  get_sequence (pre ++ ">"%char :: hdr ++ newline :: body ++ tail) x nm
  = Ok (mkSeq (string_of_list_ascii id)
              (string_of_list_ascii (nonspace body))
              (option_map string_of_list_ascii (hd_error tl))).
Proof.
  intros Hplain Hget Hoff Hj Hhdr Hnl Hbody Htail Hfields.
  apply plain_bytes_no_cr in Hplain.
  unfold get_sequence. rewrite Hget, Hoff.
  destruct (Z.ltb_spec (Z.of_nat (List.length pre + 1 + j)) 0); [lia|].
  rewrite Nat2Z.id.
  set (text := pre ++ ">"%char :: hdr ++ newline :: body ++ tail).
  assert (Hscan : scan_back text (List.length pre + 1 + j)
                  = Ok (List.length pre)).
  { unfold text.
    replace (hdr ++ newline :: body ++ tail)
      with ((hdr ++ newline :: body) ++ tail)
      by (rewrite <- app_assoc; reflexivity).
    replace (List.length pre + 1 + j)%nat
      with (List.length pre + S j)%nat by lia.
    apply scan_back_finds.
    - intros Hin. apply in_app_or in Hin. destruct Hin as [Hin|[Hin|Hin]];
        [now apply Hhdr | discriminate Hin | now apply Hbody].
    - lia. }
  rewrite Hscan. cbn [bind].
  assert (Hrem : remaining
                   (mkFile (universal_newlines (skipn (List.length pre) text))
                           0)
                 = ">"%char :: hdr ++ newline :: body ++ tail).
  { unfold remaining, text. cbn [content pos skipn].
    rewrite skipn_app, skipn_all, Nat.sub_diag. cbn [skipn app].
    apply universal_newlines_plain. intros Hin. apply Hplain.
    apply in_or_app. now right. }
  destruct Htail as [-> | [rest ->]].
  - rewrite app_nil_r in Hrem.
    rewrite (parse_record_then_end _ [] hdr body id tl Hrem);
      [reflexivity | intros [] | assumption ..].
  - rewrite (parse_record_then_header _ [] hdr body rest id tl Hrem);
      [reflexivity | intros [] | assumption ..].
Qed.

Lemma get_sequence_returns_record_witness :
  get_sequence
    (list_ascii_of_string
       (">s1 first" ++ String "010" ("ACGT" ++ String "010"
          (">s2" ++ String "010" ("GG" ++ String "010" "")))))
    (IndexedFasta.mk "x.fa" "x.fa.fai"
       [("s1", FastaIndexRecord.mk "s1" 4 10 4 5);
        ("s2", FastaIndexRecord.mk "s2" 2 19 2 3)])
    "s2"
  = Ok (mkSeq "s2" "GG" None).
Proof.
  apply (get_sequence_returns_record
           (IndexedFasta.mk "x.fa" "x.fa.fai"
              [("s1", FastaIndexRecord.mk "s1" 4 10 4 5);
               ("s2", FastaIndexRecord.mk "s2" 2 19 2 3)])
           "s2" (FastaIndexRecord.mk "s2" 2 19 2 3)
           (list_ascii_of_string
              (">s1 first" ++ String "010" ("ACGT" ++ String "010" "")))
           (list_ascii_of_string "s2")
           (list_ascii_of_string ("GG" ++ String "010" ""))
           [] (list_ascii_of_string "s2") [] 3).
  - unfold IndexProps.plain_bytes. cbn [list_ascii_of_string append app].
    repeat (constructor; [split; [reflexivity | discriminate]|]).
    constructor.
  - reflexivity.
  - reflexivity.
  - cbn. lia.
  - cbn. intuition discriminate.
  - cbn. intuition discriminate.
  - cbn. intuition discriminate.
  - now left.
  - reflexivity.
Defined.

(** Carriage returns: the offsets count the bytes of the file, and the
    record is read with every line end as a line feed. *)
Lemma get_sequence_carriage_returns :
  get_sequence
    (list_ascii_of_string
       (">s1" ++ String "013" ("ACGT" ++ String "013" "")))
    (IndexedFasta.mk "x.fa" "x.fa.fai"
       [("s1", FastaIndexRecord.mk "s1" 4 4 4 5)]) "s1"
  = Ok (mkSeq "s1" "ACGT" None)
  /\ get_sequence
       (list_ascii_of_string
          (">a" ++ String "013" (String "010"
             ("AC" ++ String "013" (String "010"
                (">b" ++ String "013" (String "010"
                   ("GG" ++ String "013" (String "010" "")))))))))
       (IndexedFasta.mk "x.fa" "x.fa.fai"
          [("a", FastaIndexRecord.mk "a" 2 4 2 4);
           ("b", FastaIndexRecord.mk "b" 2 12 2 4)]) "b"
     = Ok (mkSeq "b" "GG" None).
Proof. split; vm_compute; reflexivity. Qed.

(** *** The collection routes a name to the index that holds it *)

Lemma add_sequences_owned (xs : list IndexedFasta.t) (x : IndexedFasta.t)
    (ks : list string) : forall m m',
  In x xs -> incl ks (IndexedFasta.sequences x) -> owned xs m ->
  IndexedFastaCollection.add_sequences x ks m = Ok m' -> owned xs m'.
Proof.
  induction ks as [|k ks IH]; intros m m' Hx Hks Hm Hadd; cbn in Hadd.
  - now injection Hadd as <-.
  - destruct (PyDict.contains String.eqb m k); [discriminate Hadd|].
    apply (IH (PyDict.set String.eqb m k x) m' Hx); [| |exact Hadd].
    + intros k' Hk'. apply Hks. now right.
    + intros k' x' Hget.
      rewrite (DictMoreFacts.get_set String.eqb String.eqb_eq) in Hget.
      destruct (String.eqb_spec k' k) as [->|_].
      * injection Hget as <-. split; [exact Hx|]. apply Hks. now left.
      * now apply Hm.
Qed.

Lemma add_indices_owned (all : list IndexedFasta.t)
    (xs : list IndexedFasta.t) : forall m m',
  incl xs all -> owned all m ->
  IndexedFastaCollection.add_indices xs m = Ok m' -> owned all m'.
Proof.
  induction xs as [|x xs IH]; intros m m' Hincl Hm Hadd; cbn in Hadd.
  - now injection Hadd as <-.
  - destruct (IndexedFastaCollection.add_sequences x _ m) as [m1|] eqn:E;
      [|discriminate Hadd]. cbn [bind] in Hadd.
    apply (IH m1 m'); [| |exact Hadd].
    + intros y Hy. apply Hincl. now right.
    + apply (add_sequences_owned all x (IndexedFasta.sequences x) m m1);
        [apply Hincl; now left | apply incl_refl | exact Hm | exact E].
Qed.

(** X16: in a collection that was built, every key is stored with a
    member index that lists it, and [get_sequence] on the collection is
    [get_sequence] on that member with that member's file; a name that is
    no key gets [KeyError("No such sequence ... found in any index!")]. *)
Theorem collection_routes_to_owner
    (fs : filesystem) (files : list string) (c : IndexedFastaCollection.t)
    (open_text : string -> list ascii) (nm : string) :
  IndexedFastaCollection.init fs files = Ok c ->
  (In nm (IndexedFastaCollection.keys c) ->
   exists x path,
     In path files /\ IndexedFasta.init fs path = Ok x
     /\ In nm (IndexedFasta.sequences x)
     /\ PyDict.get String.eqb (IndexedFastaCollection.index_map c) nm = Some x
     /\ collection_get_sequence open_text c nm
        = get_sequence (open_text (IndexedFasta.filename x)) x nm)
  /\ (~ In nm (IndexedFastaCollection.keys c) ->
      collection_get_sequence open_text c nm
      = Err (KeyError ("No such sequence " ++ nm
                       ++ " found in any index!")%string))
  /\ (collection_contains c nm = true
      <-> In nm (IndexedFastaCollection.keys c)).
Proof.
  unfold IndexedFastaCollection.init.
  destruct (mapM (IndexedFasta.init fs) files) as [xs|] eqn:Hxs;
    [|discriminate]. cbn [bind].
  destruct (IndexedFastaCollection.add_indices xs []) as [m|] eqn:Hm;
    [|discriminate]. cbn [bind]. intros H. injection H as <-.
  unfold IndexedFastaCollection.keys, collection_get_sequence,
    collection_contains. cbn [IndexedFastaCollection.index_map].
  assert (Hown : owned xs m).
  { apply (add_indices_owned xs xs [] m); [apply incl_refl | | exact Hm].
    intros k x Hget. discriminate Hget. }
  split; [|split].
  - intros Hin.
    destruct (PyDict.get String.eqb m nm) as [x|] eqn:Hget.
    + destruct (Hown nm x Hget) as [Hx Hk].
      assert (Hfrom : exists path, In path files
                                   /\ IndexedFasta.init fs path = Ok x).
      { clear - Hxs Hx. revert xs Hxs Hx.
        induction files as [|p files IH]; intros xs Hxs Hx; cbn in Hxs.
        - injection Hxs as <-. elim Hx.
        - destruct (IndexedFasta.init fs p) as [y|] eqn:Ey;
            [|discriminate Hxs]. cbn in Hxs.
          destruct (mapM (IndexedFasta.init fs) files) as [ys|];
            [|discriminate Hxs]. cbn in Hxs. injection Hxs as <-.
          destruct Hx as [<-|Hx].
          + exists p. split; [now left | exact Ey].
          + destruct (IH ys eq_refl Hx) as (path & Hp & Hi).
            exists path. split; [now right | exact Hi]. }
      destruct Hfrom as (path & Hp & Hi).
      exists x, path. repeat split; assumption.
    + apply (DictMoreFacts.get_none String.eqb String.eqb_eq) in Hget.
      contradiction.
  - intros Hnot.
    apply (DictMoreFacts.get_none String.eqb String.eqb_eq) in Hnot.
    now rewrite Hnot.
  - apply PyDictFacts.contains_keys, String.eqb_eq.
Qed.

Lemma collection_routes_to_owner_witness :
  exists c x,
    IndexedFastaCollection.init example_fs ["a.fa"; "c.fa"] = Ok c
    /\ PyDict.get String.eqb (IndexedFastaCollection.index_map c) "s4" = Some x
    /\ IndexedFasta.filename x = "c.fa"
    /\ collection_get_sequence (fun _ => []) c "zz"
       = Err (KeyError "No such sequence zz found in any index!").
Proof.
  destruct (IndexedFastaCollection.init example_fs ["a.fa"; "c.fa"])
    as [c|e] eqn:Hc; [|vm_compute in Hc; discriminate Hc].
  destruct (collection_routes_to_owner example_fs ["a.fa"; "c.fa"] c
              (fun _ => []) "zz" Hc) as (_ & Hno & _).
  assert (Hv : Ok c = IndexedFastaCollection.init example_fs ["a.fa"; "c.fa"])
    by now symmetry.
  vm_compute in Hv. injection Hv as Hv.
  exists c. eexists. split; [reflexivity|].
  split; [rewrite Hv; reflexivity|]. split; [reflexivity|].
  apply Hno. rewrite Hv. cbn. intuition discriminate.
Defined.

End IndexFacts.

(** ** seq.py: writing a record and reading it back *)

Module RoundTripFacts.
Import Fasta FastaFacts FastaOps RoundTripProps.

Lemma slice_nonneg (l : list ascii) (a b : Z) :
  0 <= a -> 0 <= b ->
  GeneMethods.slice l a b
  = firstn (Z.to_nat b - Z.to_nat a) (skipn (Z.to_nat a) l).
Proof.
  intros Ha Hb. unfold GeneMethods.slice, GeneMethods.clamp.
  destruct (Z.ltb_spec a 0); [lia|]. destruct (Z.ltb_spec b 0); [lia|].
  destruct (Z_le_gt_dec a (Z.of_nat (List.length l))) as [Hin|Hout].
  - rewrite (Z.min_l a) by lia.
    destruct (Z_le_gt_dec b (Z.of_nat (List.length l))) as [Hbin|Hbout].
    + rewrite (Z.min_l b) by lia. f_equal. lia.
    + rewrite (Z.min_r b) by lia.
      rewrite !firstn_all2; [reflexivity | rewrite length_skipn; lia ..].
  - rewrite (Z.min_r a) by lia. rewrite Nat2Z.id, skipn_all.
    rewrite (skipn_all2 l) by lia. now rewrite !firstn_nil.
Qed.

Lemma chunks_concat (w : nat) : forall (m : nat) (l : list ascii),
  (0 < w)%nat -> (List.length l <= m * w)%nat ->
  List.concat (map (fun k => firstn w (skipn (k * w) l)) (seq 0 m)) = l.
Proof.
  induction m as [|m IH]; intros l Hw Hlen.
  - destruct l; [reflexivity | cbn in Hlen; lia].
  - cbn [seq map List.concat]. rewrite <- seq_shift, map_map.
    rewrite (map_ext _ (fun k => firstn w (skipn (k * w) (skipn w l)))).
    + rewrite IH; [apply firstn_skipn | exact Hw |].
      rewrite length_skipn. cbn in Hlen. lia.
    + intros k. rewrite skipn_skipn. f_equal. f_equal. cbn. lia.
Qed.

Lemma range0_positive (n step : Z) :
  0 < step ->
  range0 n step
  = Ok (map (fun k => Z.of_nat k * step)
            (seq 0 (Z.to_nat ((n + step - 1) / step)))).
Proof.
  intros H. unfold range0.
  destruct (Z.eqb_spec step 0); [lia|].
  destruct (Z.ltb_spec step 0); [lia | reflexivity].
Qed.

(** The lines that [fasta_string] wraps the sequence into, put end to
    end, are the sequence. *)
Lemma wrapped_chunks (l : list ascii) (wrap : Z) :
  0 < wrap ->
  List.concat
    (map (fun i => GeneMethods.slice l i (i + wrap))
         (map (fun k => Z.of_nat k * wrap)
              (seq 0 (Z.to_nat ((Z.of_nat (List.length l) + wrap - 1)
                                / wrap))))) = l.
Proof.
  intros Hw. rewrite map_map.
  rewrite (map_ext _ (fun k => firstn (Z.to_nat wrap)
                                      (skipn (k * Z.to_nat wrap) l))).
  - apply chunks_concat; [lia|].
    pose proof (Z.mul_succ_div_gt (Z.of_nat (List.length l) + wrap - 1)
                  wrap Hw) as Hdiv.
    assert (Hq : 0 <= (Z.of_nat (List.length l) + wrap - 1) / wrap)
      by (apply Z.div_pos; lia).
    nia.
  - intros k. rewrite slice_nonneg by nia. f_equal; [nia|].
    f_equal. nia.
Qed.

Lemma nonspace_app (l1 l2 : list ascii) :
  nonspace (l1 ++ l2) = nonspace l1 ++ nonspace l2.
Proof. apply filter_app. Qed.

Lemma nonspace_id (l : list ascii) :
  Forall (fun c => Py.isspace c = false) l -> nonspace l = l.
Proof.
  unfold nonspace. induction 1 as [|c l Hc _ IH]; cbn [filter]; [reflexivity|].
  rewrite Hc. cbn [negb]. now rewrite IH.
Qed.

Lemma join_newline_chars (parts : list (list ascii)) :
  nonspace (list_ascii_of_string
              (Py.join (String "010" "") (map string_of_list_ascii parts)))
  = nonspace (List.concat parts)
  /\ forall c,
       In c (list_ascii_of_string
               (Py.join (String "010" "") (map string_of_list_ascii parts))) ->
       c = newline \/ In c (List.concat parts).
Proof.
  induction parts as [|p parts [IH1 IH2]].
  - split; [reflexivity | intros c []].
  - destruct parts as [|q parts].
    + cbn [map Py.join List.concat].
      rewrite list_ascii_of_string_of_list_ascii, app_nil_r.
      split; [reflexivity | intros c H; now right].
    + change (Py.join (String "010" "")
                (map string_of_list_ascii (p :: q :: parts)))
        with (string_of_list_ascii p
              ++ String "010" ""
              ++ Py.join (String "010" "")
                   (map string_of_list_ascii (q :: parts)))%string.
      rewrite PyFacts.chars_app, list_ascii_of_string_of_list_ascii.
      cbn [append list_ascii_of_string]. split.
      * rewrite nonspace_app. cbn [nonspace filter].
        change (Py.isspace "010") with true. cbn [negb].
        fold (nonspace
                (list_ascii_of_string
                   (Py.join (String "010" "")
                      (map string_of_list_ascii (q :: parts))))).
        rewrite IH1. change (List.concat (p :: q :: parts))
          with (p ++ List.concat (q :: parts)).
        now rewrite nonspace_app.
      * intros c H. apply in_app_or in H. destruct H as [H|[H|H]].
        -- right. cbn [List.concat]. apply in_or_app. now left.
        -- left. now symmetry.
        -- destruct (IH2 c H) as [E|E]; [now left|].
           right. change (List.concat (p :: q :: parts))
             with (p ++ List.concat (q :: parts)).
           apply in_or_app. now right.
Qed.

(** *** Header lines *)

Lemma strip_trailing_space (l : list ascii) (c : ascii) :
  l <> [] -> trimmed l -> Py.isspace c = true ->
  Py.strip_by Py.isspace (l ++ [c]) = l.
Proof.
  intros Hne [Hfirst Hlast] Hc. unfold Py.strip_by.
  destruct l as [|a r]; [now elim Hne|].
  cbn [app Py.lstrip_by]. rewrite (Hfirst a r eq_refl).
  change (a :: r ++ [c]) with ((a :: r) ++ [c]). rewrite rev_unit.
  cbn [Py.lstrip_by]. rewrite Hc.
  assert (H2 : Py.lstrip_by Py.isspace (rev (a :: r)) = rev (a :: r)).
  { destruct (rev (a :: r)) as [|z t] eqn:E; [reflexivity|]. cbn.
    rewrite (Hlast (rev t) z); [reflexivity|].
    rewrite <- (rev_involutive (a :: r)), E. reflexivity. }
  rewrite H2. apply rev_involutive.
Qed.

Lemma span_word_stops (w r : list ascii) :
  Forall (fun c => Py.isspace c = false) w ->
  (r = [] \/ exists c t, r = c :: t /\ Py.isspace c = true) ->
  span_word (w ++ r) = (w, r).
Proof.
  intros Hw Hr. induction Hw as [|c w Hc _ IH]; cbn [app].
  - destruct Hr as [-> | (c & t & -> & Hc)]; cbn; [reflexivity|].
    now rewrite Hc.
  - cbn [span_word]. rewrite Hc, IH. reflexivity.
Qed.

Lemma trimmed_all_nonspace (l : list ascii) :
  Forall (fun c => Py.isspace c = false) l -> trimmed l.
Proof.
  intros H. rewrite Forall_forall in H. split.
  - intros c r ->. apply H. now left.
  - intros r c ->. apply H. apply in_or_app. right. now left.
Qed.

Lemma header_fields_name (n : list ascii) :
  n <> [] -> Forall (fun c => Py.isspace c = false) n ->
  header_fields (n ++ [newline]) = [n].
Proof.
  intros Hne Hn. unfold header_fields.
  rewrite strip_trailing_space;
    [| exact Hne | now apply trimmed_all_nonspace | reflexivity].
  unfold split_maxsplit1. destruct n as [|c n]; [now elim Hne|].
  inversion Hn as [|? ? Hc Hrest]; subst.
  cbn [Py.lstrip_by]. rewrite Hc.
  rewrite <- (app_nil_r (c :: n)) at 1.
  rewrite span_word_stops; [reflexivity | exact Hn | now left].
Qed.

Lemma header_fields_name_description (n d : list ascii) :
  n <> [] -> Forall (fun c => Py.isspace c = false) n ->
  d <> [] -> trimmed d ->
  header_fields ((n ++ " "%char :: d) ++ [newline]) = [n; d].
Proof.
  intros Hne Hn Hd [Hfirst Hlast]. unfold header_fields.
  rewrite strip_trailing_space; [| | |reflexivity].
  - unfold split_maxsplit1. destruct n as [|c n]; [now elim Hne|].
    inversion Hn as [|? ? Hc Hrest]; subst.
    cbn [app Py.lstrip_by]. rewrite Hc.
    change (c :: n ++ " "%char :: d) with ((c :: n) ++ " "%char :: d).
    rewrite span_word_stops;
      [| exact Hn | right; exists " "%char, d; now split].
    cbn [Py.lstrip_by]. change (Py.isspace " ") with true. cbv iota.
    destruct d as [|a t]; [now elim Hd|].
    cbn [Py.lstrip_by]. now rewrite (Hfirst a t eq_refl).
  - destruct n; [now elim Hne | discriminate].
  - split.
    + intros c r E. destruct n as [|a n]; [now elim Hne|].
      injection E as <- _. now inversion Hn.
    + intros r c E. destruct (exists_last Hd) as (r' & z & ->).
      rewrite app_comm_cons, app_assoc in E.
      apply app_inj_tail in E. destruct E as [_ <-].
      now apply (Hlast r' z).
Qed.

(** X17: writing a record with [fasta_string] and reading the text with
    [parse_fasta_record] gives the record back, for every positive wrap
    width, when the name is not empty and has no white space, the
    description (if any) is not empty, has no newline and no white space
    at its ends, and the sequence has no white space and no ['>']; the
    file is left at its end. *)
Theorem fasta_string_then_parse (s : Seq) (wrap : Z) :
  0 < wrap ->
  plain_name (name s) -> plain_description (description s) ->
  plain_sequence (sequence s) ->
  exists text,
    fasta_string s wrap = Ok text
    /\ parse_fasta_record (mkFile (list_ascii_of_string text) 0)
       = Ok (s, mkFile (list_ascii_of_string text) (String.length text)).
Proof.
  intros Hw [Hn1 Hn2] Hd Hq. destruct s as [nm sq descr].
  cbn [name description sequence] in *.
  unfold plain_sequence, plain_description in *.
  unfold fasta_string. cbn [name description sequence].
  rewrite range0_positive by exact Hw. cbn [bind].
  rewrite <- (map_map (fun i => GeneMethods.slice (list_ascii_of_string sq)
                                   i (i + wrap)) string_of_list_ascii).
  set (parts := map (fun i => GeneMethods.slice (list_ascii_of_string sq)
                                 i (i + wrap)) _).
  assert (Hparts : List.concat parts = list_ascii_of_string sq)
    by (apply wrapped_chunks; exact Hw).
  destruct (join_newline_chars parts) as [Hjoin Hin].
  set (wrapped := Py.join (String "010" "") (map string_of_list_ascii parts))
    in *.
  set (hdr := list_ascii_of_string
                (nm ++ match descr with
                       | Some d => (" " ++ d)%string
                       | None => ""
                       end)).
  set (body := list_ascii_of_string wrapped ++ [newline]).
  eexists. split; [reflexivity|].
  assert (Htext : list_ascii_of_string
                    (">" ++ nm ++ match descr with
                                  | Some d => (" " ++ d)%string
                                  | None => ""
                                  end ++ String "010" (wrapped ++ String "010" ""))
                  = ">"%char :: hdr ++ newline :: body).
  { unfold hdr, body. cbn [append list_ascii_of_string].
    rewrite !PyFacts.chars_app. cbn [list_ascii_of_string].
    rewrite PyFacts.chars_app, <- app_assoc. reflexivity. }
  rewrite PyFacts.string_length_chars, Htext.
  assert (Hnospace : Forall (fun c => Py.isspace c = false)
                            (list_ascii_of_string sq)).
  { eapply Forall_impl; [|exact Hq]. cbn. tauto. }
  assert (Hbody : ~ In ">"%char body).
  { unfold body. intros H. apply in_app_or in H.
    destruct H as [H|[H|[]]]; [|discriminate H].
    destruct (Hin _ H) as [E|E]; [discriminate E|].
    rewrite Hparts in E. rewrite Forall_forall in Hq.
    now destruct (Hq _ E). }
  assert (Hseq : nonspace body = list_ascii_of_string sq).
  { unfold body. rewrite nonspace_app, Hjoin, Hparts.
    cbn. rewrite app_nil_r. now apply nonspace_id. }
  assert (Hnl : forall l, Forall (fun c => Py.isspace c = false) l ->
                          ~ In newline l).
  { intros l Hl H. rewrite Forall_forall in Hl. apply Hl in H.
    discriminate H. }
  destruct descr as [d|].
  - destruct Hd as (Hd1 & Hd2 & Hd3).
    assert (Hhdr : hdr = list_ascii_of_string nm
                         ++ " "%char :: list_ascii_of_string d).
    { unfold hdr. now rewrite PyFacts.chars_app. }
    rewrite (parse_record_then_end _ [] hdr body (list_ascii_of_string nm)
               [list_ascii_of_string d]).
    + cbn [hd_error option_map]. rewrite Hseq.
      rewrite !string_of_list_ascii_of_string. cbn [pos List.length].
      repeat f_equal. rewrite length_app. cbn [List.length]. lia.
    + reflexivity.
    + intros [].
    + rewrite Hhdr. intros H. apply in_app_or in H.
      destruct H as [H|[H|H]];
        [now apply (Hnl _ Hn2) | discriminate H | now apply Hd3].
    + exact Hbody.
    + rewrite Hhdr. now apply header_fields_name_description.
  - assert (Hhdr : hdr = list_ascii_of_string nm).
    { unfold hdr. rewrite PyFacts.chars_app. apply app_nil_r. }
    rewrite (parse_record_then_end _ [] hdr body (list_ascii_of_string nm) []).
    + cbn [hd_error option_map]. rewrite Hseq.
      rewrite !string_of_list_ascii_of_string. cbn [pos List.length].
      repeat f_equal. rewrite length_app. cbn [List.length]. lia.
    + reflexivity.
    + intros [].
    + rewrite Hhdr. now apply Hnl.
    + exact Hbody.
    + rewrite Hhdr. now apply header_fields_name.
Qed.

End RoundTripFacts.

(** ** parsers.py *)

Module ParsersFacts.
Import Parsers ParsersProps.

Lemma mapM_relative (start_arg : Py.pyval) (s0 : Z) (toks : list string) :
  Py.int start_arg = Ok s0 ->
  mapM (fun s => a <- Py.int (Py.VStr s) ;;
                 b <- Py.int start_arg ;;
                 Ok (Py.str (a - b))) toks
  = (abs <- mapM (fun s => Py.int (Py.VStr s)) toks ;;
     Ok (map (fun a => Py.str (a - s0)) abs)).
Proof.
  intros Hs. rewrite Hs.
  induction toks as [|t toks IH]; cbn [mapM bind] in *; [reflexivity|].
  destruct (Py.int (Py.VStr t)) as [a|]; cbn [bind]; [|reflexivity].
  rewrite IH.
  destruct (mapM (fun s => Py.int (Py.VStr s)) toks) as [abs|]; reflexivity.
Qed.

Lemma init_needs_start ch sa ea nm sc st csa cea rgb bca bsz bst at_ kw g :
  Gene.init ch sa ea nm sc st csa cea rgb bca bsz bst at_ kw = Ok g ->
  Py.int sa = Ok (Gene.start g).
Proof.
  intros H.
  now destruct (GeneFacts.init_derived _ _ _ _ _ _ _ _ _ _ _ _ _ _ _ H)
    as (_ & _ & _ & _ & Hs & _).
Qed.

(** X18: a record that [parse_psl_line] returns has its exons at the
    absolute block starts of the PSL line, [(s, s + size)] for each
    start [s] and size in turn, whatever [start] is; its CDS bounds are
    [0, 0]. *)
Theorem psl_exons_absolute
    (matches strand_arg name_arg chrom_arg : string)
    (start_arg end_arg block_count_arg : Py.pyval)
    (block_sizes_arg block_starts_arg : string) (g : Gene.t) :
  parse_psl_line matches strand_arg name_arg chrom_arg start_arg end_arg
                 block_count_arg block_sizes_arg block_starts_arg = Ok g ->
  exists abs,
    Gene.int_list block_starts_arg = Ok abs
    /\ Gene.int_list block_sizes_arg = Ok (Gene.block_sizes g)
    /\ Gene.block_starts g = map (fun a => a - Gene.start g) abs
    /\ Gene.exons g
       = map (fun b => (fst b, fst b + snd b))
             (combine abs (Gene.block_sizes g))
    /\ Gene.cds_start g = 0 /\ Gene.cds_end g = 0.
Proof.
  unfold parse_psl_line, corr_block_starts.
  destruct (mapM _ _) as [parts|] eqn:Hparts; [|discriminate].
  cbn [bind]. intros Hg.
  pose proof (init_needs_start _ _ _ _ _ _ _ _ _ _ _ _ _ _ _ Hg) as Hs.
  rewrite (mapM_relative start_arg (Gene.start g) _ Hs) in Hparts.
  fold (Gene.int_list block_starts_arg) in Hparts.
  destruct (Gene.int_list block_starts_arg) as [abs|]; [|discriminate Hparts].
  cbn [bind] in Hparts. injection Hparts as <-.
  destruct (GeneFacts.init_derived _ _ _ _ _ _ _ _ _ _ _ _ _ _ _ Hg)
    as (He & _ & Hsz & Hst & _ & _ & Hcs & Hce & _).
  rewrite <- (map_map (fun a => a - Gene.start g) Py.str) in Hst.
  rewrite PyFacts.int_list_join in Hst. injection Hst as Hst.
  cbn in Hcs, Hce. injection Hcs as Hcs. injection Hce as Hce.
  exists abs. split; [reflexivity|]. split; [exact Hsz|].
  split; [now symmetry|]. split; [|split; now symmetry].
  rewrite He, <- Hst. generalize (Gene.block_sizes g) as sizes.
  clear. induction abs as [|a abs IH]; intros [|sz sizes]; cbn;
    try reflexivity.
  rewrite IH. unfold Props.block_exon. cbn [fst snd]. f_equal.
  f_equal; lia.
Qed.

Lemma psl_exons_absolute_witness :
  exists g,
    parse_psl_line "10" "+" "q" "chr1" (Py.VStr "100") (Py.VStr "200")
                   (Py.VStr "2") "10,20," "100,150," = Ok g
    /\ Gene.exons g = [(100, 110); (150, 170)].
Proof.
  destruct (parse_psl_line "10" "+" "q" "chr1" (Py.VStr "100")
              (Py.VStr "200") (Py.VStr "2") "10,20," "100,150,")
    as [g|e] eqn:Hg; [|vm_compute in Hg; discriminate Hg].
  exists g. split; [reflexivity|].
  destruct (psl_exons_absolute _ _ _ _ _ _ _ _ _ g Hg)
    as (abs & Habs & _ & _ & He & _).
  vm_compute in Habs. injection Habs as <-.
  assert (Hv : Ok g = parse_psl_line "10" "+" "q" "chr1" (Py.VStr "100")
                        (Py.VStr "200") (Py.VStr "2") "10,20," "100,150,")
    by now symmetry.
  vm_compute in Hv. injection Hv as Hv.
  rewrite He, Hv. reflexivity.
Defined.

(** *** A BED line written and read back *)

Lemma join_chars_in (sep : ascii) (parts : list string) (c : ascii) :
  In c (list_ascii_of_string (Py.join (String sep "") parts)) ->
  c = sep \/ exists part, In part parts /\ In c (list_ascii_of_string part).
Proof.
  induction parts as [|p parts IH]; [intros []|].
  destruct parts as [|q parts].
  - cbn [Py.join]. intros H. right. exists p. split; [now left | exact H].
  - change (Py.join (String sep "") (p :: q :: parts))
      with (p ++ String sep "" ++ Py.join (String sep "") (q :: parts))%string.
    rewrite PyFacts.chars_app. cbn [append list_ascii_of_string].
    intros H. apply in_app_or in H. destruct H as [H|[H|H]].
    + right. exists p. split; [now left | exact H].
    + left. now symmetry.
    + destruct (IH H) as [E|(part & Hp & Hc)]; [now left|].
      right. exists part. split; [now right | exact Hc].
Qed.

Lemma join_last (sep : ascii) (parts : list string) (z : string) :
  parts <> [] ->
  list_ascii_of_string (Py.join (String sep "") (parts ++ [z]))
  = list_ascii_of_string (Py.join (String sep "") parts)
    ++ sep :: list_ascii_of_string z.
Proof.
  intros Hne. induction parts as [|p parts IH]; [now elim Hne|].
  destruct parts as [|q parts].
  - cbn [app Py.join]. rewrite PyFacts.chars_app. reflexivity.
  - change (Py.join (String sep "") ((p :: q :: parts) ++ [z]))
      with (p ++ String sep ""
            ++ Py.join (String sep "") ((q :: parts) ++ [z]))%string.
    change (Py.join (String sep "") (p :: q :: parts))
      with (p ++ String sep "" ++ Py.join (String sep "") (q :: parts))%string.
    rewrite !PyFacts.chars_app. cbn [append list_ascii_of_string].
    rewrite IH by discriminate. rewrite <- app_assoc. reflexivity.
Qed.

Lemma last_of_tail (P : ascii -> Prop) (x y : list ascii) :
  y <> [] -> Forall P y -> forall r c, x ++ y = r ++ [c] -> P c.
Proof.
  intros Hy Hall r c E. destruct (exists_last Hy) as (y' & z & ->).
  rewrite app_assoc in E. apply app_inj_tail in E. destruct E as [_ <-].
  rewrite Forall_forall in Hall. apply Hall. apply in_or_app. right. now left.
Qed.

(** The characters of a comma-separated list of printed integers. *)
Lemma joined_integers_chars (zs : list Z) (c : ascii) :
  In c (list_ascii_of_string (Py.join "," (map Py.str zs))) ->
  Py.isspace c = false /\ c <> "009"%char /\ c <> "010"%char.
Proof.
  intros H. apply (join_chars_in ","%char) in H.
  destruct H as [-> | (part & Hp & Hc)].
  - repeat split; discriminate.
  - apply in_map_iff in Hp. destruct Hp as (z & <- & _).
    destruct (PyFacts.printed_chars z) as [_ Hall].
    rewrite Forall_forall in Hall. specialize (Hall c Hc). tauto.
Qed.

Lemma printed_column (z : Z) : column_text (Py.str z).
Proof.
  destruct (PyFacts.printed_chars z) as [_ Hall].
  rewrite Forall_forall in Hall.
  split; intros H; specialize (Hall _ H); tauto.
Qed.

Lemma joined_integers_column (zs : list Z) :
  column_text (Py.join "," (map Py.str zs)).
Proof.
  split; intros H; apply joined_integers_chars in H; tauto.
Qed.

Lemma columns_are_text (g : Gene.t) :
  column_text (Gene.chrom g) -> column_text (Gene.name g) ->
  column_text (Gene.strand g) ->
  column_text (GeneMethods.str_val (Gene.item_rgb g)) ->
  Forall column_text (GeneMethods.columns g).
Proof.
  intros H1 H2 H3 H4. unfold GeneMethods.columns.
  repeat (constructor;
          [first [assumption | apply printed_column
                 | apply joined_integers_column]|]).
  constructor.
Qed.

Lemma lines_of_single (l : list ascii) : forall cur : list ascii,
  ~ In "010"%char l ->
  Fasta.lines_of (l ++ ["010"%char]) cur
  = [string_of_list_ascii (rev cur ++ l ++ ["010"%char])].
Proof.
  induction l as [|c l IH]; intros cur Hnot; cbn [app Fasta.lines_of].
  - rewrite Ascii.eqb_refl. cbn [Fasta.lines_of rev]. reflexivity.
  - destruct (Ascii.eqb_spec c "010") as [->|_]; [elim Hnot; now left|].
    rewrite IH by (intros H; apply Hnot; now right).
    cbn [rev]. rewrite <- app_assoc. reflexivity.
Qed.

(** What [BedIterator] makes of the one line that the writer prints. *)
Lemma bed_line_record (g : Gene.t) :
  bed_printable g ->
  BedIterator (Fasta.file_lines (write_gene "" g))
  = ([GeneProps.build (Gene.chrom g) (Gene.start g) (Gene.end_ g)
        (Gene.name g) (Gene.score g) (Gene.strand g) (Gene.cds_start g)
        (Gene.cds_end g) (Py.VStr (GeneMethods.str_val (Gene.item_rgb g)))
        (Gene.block_count g) (Gene.block_sizes g) (Gene.block_starts g)
        [] []], None).
Proof.
  intros ((c0 & r0 & Hch & Hsp & Hhash) & Hc1 & Hc2 & Hc3 & Hc4 & Hbs).
  pose proof (columns_are_text g Hc1 Hc2 Hc3 Hc4) as Hcols.
  set (line := GeneMethods.to_str g).
  assert (Hnonl : ~ In "010"%char (list_ascii_of_string line)).
  { intros H. apply (join_chars_in "009"%char) in H.
    destruct H as [E | (part & Hp & Hc)]; [discriminate E|].
    rewrite Forall_forall in Hcols. now apply (proj2 (Hcols part Hp)). }
  assert (Hlines : Fasta.file_lines (write_gene "" g)
                   = [(line ++ String "010" "")%string]).
  { unfold Fasta.file_lines, write_gene. cbn [append]. fold line.
    rewrite PyFacts.chars_app. cbn [list_ascii_of_string].
    rewrite lines_of_single by exact Hnonl. cbn [rev app].
    rewrite PyFacts.string_of_chars_app, string_of_list_ascii_of_string.
    reflexivity. }
  assert (Hfirst : list_ascii_of_string line
                   = c0 :: r0 ++ "009"%char
                        :: list_ascii_of_string
                             (Py.join (String "009" "")
                                (tl (GeneMethods.columns g)))).
  { unfold line, GeneMethods.to_str, GeneMethods.columns. cbn [tl].
    match goal with
    | |- list_ascii_of_string (Py.join ?sep (?p :: ?q :: ?r)) = _ =>
        change (Py.join sep (p :: q :: r))
          with (p ++ sep ++ Py.join sep (q :: r))%string
    end.
    rewrite PyFacts.chars_app, Hch. reflexivity. }
  assert (Htrim : RoundTripProps.trimmed (list_ascii_of_string line)).
  { split.
    - intros c r E. rewrite Hfirst in E. now injection E as <- _.
    - unfold line, GeneMethods.to_str.
      change (GeneMethods.columns g)
        with ([Gene.chrom g; Py.str (Gene.start g); Py.str (Gene.end_ g);
               Gene.name g; Py.str (Gene.score g); Gene.strand g;
               Py.str (Gene.cds_start g); Py.str (Gene.cds_end g);
               GeneMethods.str_val (Gene.item_rgb g);
               Py.str (Gene.block_count g);
               Py.join "," (map Py.str (Gene.block_sizes g))]
              ++ [Py.join "," (map Py.str (Gene.block_starts g))]).
      rewrite join_last by discriminate.
      match goal with
      | |- forall r c, ?X ++ ?sp :: ?Y = _ -> _ =>
          intros r c E; change (X ++ sp :: Y) with (X ++ [sp] ++ Y) in E;
          rewrite app_assoc in E; revert r c E;
          apply (last_of_tail (fun c => Py.isspace c = false) (X ++ [sp]) Y)
      end.
      + destruct (Gene.block_starts g) as [|z zs]; [now elim Hbs|].
        destruct (PyFacts.printed_chars z) as [Hne _].
        unfold PyProps.printed in Hne.
        destruct zs as [|z' zs]; [exact Hne|].
        change (Py.join "," (map Py.str (z :: z' :: zs)))
          with (Py.str z ++ "," ++ Py.join "," (map Py.str (z' :: zs)))%string.
        rewrite PyFacts.chars_app. intros E. apply app_eq_nil in E.
        now apply Hne.
      + apply Forall_forall. intros c Hc.
        now apply joined_integers_chars in Hc. }
  assert (Hne : list_ascii_of_string line <> [])
    by (rewrite Hfirst; discriminate).
  assert (Hstrip : Py.strip (line ++ String "010" "") = line).
  { unfold Py.strip. rewrite PyFacts.chars_app. cbn [list_ascii_of_string].
    rewrite RoundTripFacts.strip_trailing_space;
      [apply string_of_list_ascii_of_string | exact Hne | exact Htrim
      | reflexivity]. }
  assert (Hstart : startswith (line ++ String "010" "") "#" = false).
  { destruct line as [|a rest] eqn:El; [now elim Hne|].
    cbn [list_ascii_of_string] in Hfirst. injection Hfirst as -> _.
    cbn [append startswith]. now destruct (Ascii.eqb_spec c0 "#"). }
  assert (Hlen : (String.length line =? 0)%nat = false).
  { rewrite PyFacts.string_length_chars.
    destruct (list_ascii_of_string line); [now elim Hne | reflexivity]. }
  assert (Hsplit : Py.split "009" line = GeneMethods.columns g).
  { unfold line, GeneMethods.to_str. apply PyFacts.split_join.
    - discriminate.
    - eapply Forall_impl; [|exact Hcols]. intros part [H _]. exact H. }
  unfold BedIterator. rewrite Hlines. cbn [BedIterator_from].
  rewrite Hstart, Hstrip, Hlen, Hsplit. unfold GeneMethods.columns.
  cbv iota. rewrite GeneMoreFacts.init_build.
  rewrite !PyFacts.int_str. cbn [bind].
  rewrite !PyFacts.int_list_join. cbn [bind fst snd]. reflexivity.
Qed.

(** X19: the line that [Bed12Writer] prints for a record is read back by
    [BedIterator] as one record with the same positional fields (the
    colour column as text), provided the text columns hold no tab and no
    newline, the chromosome name begins with a character that is neither
    white space nor ['#'], and there is a block start; for a record that
    came from the constructor the exons, CDS exons, lengths and
    5' coordinates are the same too. *)
Theorem bed_line_read_back (g : Gene.t) :
  bed_printable g ->
  exists c,
    BedIterator (Fasta.file_lines (write_gene "" g)) = ([c], None)
    /\ Gene.chrom c = Gene.chrom g /\ Gene.start c = Gene.start g
    /\ Gene.end_ c = Gene.end_ g /\ Gene.name c = Gene.name g
    /\ Gene.score c = Gene.score g /\ Gene.strand c = Gene.strand g
    /\ Gene.cds_start c = Gene.cds_start g
    /\ Gene.cds_end c = Gene.cds_end g
    /\ Gene.item_rgb c = Py.VStr (GeneMethods.str_val (Gene.item_rgb g))
    /\ Gene.block_count c = Gene.block_count g
    /\ Gene.block_sizes c = Gene.block_sizes g
    /\ Gene.block_starts c = Gene.block_starts g
    /\ forall ch sa ea nm sc st csa cea rgb bca bsz bst at_ kw,
         Gene.init ch sa ea nm sc st csa cea rgb bca bsz bst at_ kw = Ok g ->
         Gene.exons c = Gene.exons g /\ Gene.cds_exons c = Gene.cds_exons g
         /\ Gene.length c = Gene.length g
         /\ Gene.cds_length c = Gene.cds_length g
         /\ Gene.fivep c = Gene.fivep g
         /\ Gene.cds_fivep c = Gene.cds_fivep g.
Proof.
  intros Hg. eexists. split; [exact (bed_line_record g Hg)|].
  unfold GeneProps.build.
  cbn [Gene.chrom Gene.start Gene.end_ Gene.name Gene.score Gene.strand
       Gene.cds_start Gene.cds_end Gene.item_rgb Gene.block_count
       Gene.block_sizes Gene.block_starts Gene.exons Gene.cds_exons
       Gene.length Gene.cds_length Gene.fivep Gene.cds_fivep].
  repeat (split; [reflexivity|]).
  intros ch sa ea nm sc st csa cea rgb bca bsz bst at_ kw Hi.
  apply GeneMoreFacts.init_constructed in Hi.
  unfold GeneProps.constructed, GeneProps.build in Hi.
  pose proof (f_equal Gene.exons Hi) as H1.
  pose proof (f_equal Gene.cds_exons Hi) as H2.
  pose proof (f_equal Gene.length Hi) as H3.
  pose proof (f_equal Gene.cds_length Hi) as H4.
  pose proof (f_equal Gene.fivep Hi) as H5.
  pose proof (f_equal Gene.cds_fivep Hi) as H6.
  cbn [Gene.exons Gene.cds_exons Gene.length Gene.cds_length Gene.fivep
       Gene.cds_fivep] in H1, H2, H3, H4, H5, H6.
  repeat split; symmetry; assumption.
Qed.

Lemma bed_line_read_back_witness :
  exists g c,
    Gene.init "chr1" (Py.VInt 100) (Py.VInt 200) "g 1" (Py.VInt 0) "+"
              (Py.VInt 120) (Py.VInt 180) (Py.VStr "255,0,0") (Py.VInt 2)
              "20,30" "0,60" None [] = Ok g
    /\ BedIterator (Fasta.file_lines (write_gene "" g)) = ([c], None)
    /\ Gene.name c = "g 1" /\ Gene.exons c = Gene.exons g.
Proof.
  destruct (Gene.init "chr1" (Py.VInt 100) (Py.VInt 200) "g 1" (Py.VInt 0)
              "+" (Py.VInt 120) (Py.VInt 180) (Py.VStr "255,0,0") (Py.VInt 2)
              "20,30" "0,60" None [])
    as [g|e] eqn:Hg; [|vm_compute in Hg; discriminate Hg].
  assert (Hv : Ok g = Gene.init "chr1" (Py.VInt 100) (Py.VInt 200) "g 1"
                 (Py.VInt 0) "+" (Py.VInt 120) (Py.VInt 180)
                 (Py.VStr "255,0,0") (Py.VInt 2) "20,30" "0,60" None [])
    by now symmetry.
  vm_compute in Hv. injection Hv as Hv.
  assert (Hp : bed_printable g).
  { rewrite Hv. unfold bed_printable, column_text. cbn.
    split; [exists "c"%char; eexists; repeat split; discriminate|].
    repeat split; try discriminate; intuition discriminate. }
  destruct (bed_line_read_back g Hp)
    as (c & Hc & _ & _ & _ & Hn & _ & _ & _ & _ & _ & _ & _ & _ & Hd).
  destruct (Hd _ _ _ _ _ _ _ _ _ _ _ _ _ _ Hg) as (He & _).
  exists g, c. split; [reflexivity|]. split; [exact Hc|].
  split; [rewrite Hn, Hv; reflexivity | exact He].
Defined.

(** What is yielded does not depend on the line number, which only
    appears in the error message. *)
Lemma bed_records_any_number (handle : list string) : forall n m : nat,
  fst (BedIterator_from n handle) = fst (BedIterator_from m handle)
  /\ (snd (BedIterator_from n handle) = None
      <-> snd (BedIterator_from m handle) = None).
Proof.
  induction handle as [|line rest IH]; intros n m; cbn [BedIterator_from].
  - split; [reflexivity | tauto].
  - destruct (IH (S n) (S m)) as [IH1 IH2].
    destruct (startswith line "#"); [now split|].
    destruct (String.length (Py.strip line) =? 0)%nat; [now split|].
    destruct (Py.split "009" (Py.strip line))
      as [|f0 [|f1 [|f2 [|f3 [|f4 [|f5 [|f6 [|f7 [|f8 [|f9 [|f10 [|f11 [|f12 t]
         ]]]]]]]]]]]];
      try (split; [reflexivity | split; discriminate]).
    destruct (Gene.init _ _ _ _ _ _ _ _ _ _ _ _ _ _) as [g|e]; cbn [fst snd].
    + split; [now rewrite IH1 | exact IH2].
    + split; [reflexivity | split; discriminate].
Qed.

(** X20: comment lines (beginning with ['#']) and blank lines never
    change what [BedIterator] yields: dropping them from the input gives
    the same records, and an exception ends the iteration of the one input
    exactly when one ends the iteration of the other. *)
Theorem bed_comments_and_blanks_ignored (handle : list string) :
  fst (BedIterator handle) = fst (BedIterator (filter bed_data_line handle))
  /\ (snd (BedIterator handle) = None
      <-> snd (BedIterator (filter bed_data_line handle)) = None).
Proof.
  unfold BedIterator. generalize 0%nat at 1 3. generalize 0%nat.
  induction handle as [|line rest IH]; intros m n.
  - split; [reflexivity | tauto].
  - cbn [filter BedIterator_from].
    assert (Hk : bed_data_line line
                 = negb (startswith line "#")
                   && negb (String.length (Py.strip line) =? 0)%nat)
      by reflexivity.
    rewrite Hk.
    destruct (startswith line "#") eqn:Hs; cbn [negb andb]; [apply IH|].
    destruct (String.length (Py.strip line) =? 0)%nat eqn:Hb; cbn [negb];
      [apply IH|].
    cbn [BedIterator_from]. rewrite Hs, Hb.
    destruct (IH (S m) (S n)) as [IH1 IH2].
    destruct (Py.split "009" (Py.strip line))
      as [|f0 [|f1 [|f2 [|f3 [|f4 [|f5 [|f6 [|f7 [|f8 [|f9 [|f10 [|f11
         [|f12 t]]]]]]]]]]]]];
      try (split; [reflexivity | split; discriminate]).
    destruct (Gene.init _ _ _ _ _ _ _ _ _ _ _ _ _ _) as [g|e];
      cbn [fst snd].
    + split; [now rewrite IH1 | exact IH2].
    + split; [reflexivity | split; discriminate].
Qed.

End ParsersFacts.

(** ** More witnesses and edge cases *)

Module EdgeFacts.
Import Fasta FastaFacts FastaOps RoundTripProps.
Import Permutation.

Lemma fasta_string_then_parse_witness :
  exists text,
    fasta_string (mkSeq "t1" "ACGTA" (Some "a  b")) 2 = Ok text
    /\ parse_fasta_record (mkFile (list_ascii_of_string text) 0)
       = Ok (mkSeq "t1" "ACGTA" (Some "a  b"),
             mkFile (list_ascii_of_string text) (String.length text)).
Proof.
  apply (RoundTripFacts.fasta_string_then_parse
           (mkSeq "t1" "ACGTA" (Some "a  b")) 2).
  - lia.
  - split; [discriminate | repeat constructor].
  - unfold plain_description. cbn [description].
    split; [discriminate|]. split; [split|].
    + intros c r E. now injection E as <- _.
    + intros r c E.
      change (list_ascii_of_string "a  b")
        with (list_ascii_of_string "a  " ++ ["b"%char]) in E.
      apply app_inj_tail in E. now destruct E as [_ <-].
    + cbn. intuition discriminate.
  - unfold plain_sequence. cbn.
    repeat (constructor; [split; [reflexivity | discriminate]|]).
    constructor.
Defined.

Lemma identical_iff_permutation_witness :
  Gene.identical
    (GeneProps.build "chr1" 100 200 "a" 0 "+" 0 0 (Py.VInt 0) 2
       [20; 30] [0; 60] [] [])
    (GeneProps.build "chr2" 100 200 "b" 0 "-" 0 0 (Py.VInt 0) 2
       [30; 20] [60; 0] [] [])
    Gene.Exons = true.
Proof.
  apply (proj2 (IntervalMoreFacts.identical_iff_permutation _ _ Gene.Exons)).
  cbn. apply perm_swap.
Defined.

Lemma stop_iteration_iff_no_header_witness :
  parse_fasta_record (mkFile (list_ascii_of_string " ") 0)
  = Err StopIteration.
Proof.
  apply (proj2 (FastaMoreFacts.stop_iteration_iff_no_header _)).
  cbn. intuition discriminate.
Defined.

Lemma key_error_iff_unknown_name_witness :
  get_sequence (list_ascii_of_string ">s1")
    (IndexedFasta.mk "x.fa" "x.fa.fai"
       [("s1", FastaIndexRecord.mk "s1" 0 4 1 2)]) "idontexist"
  = Err (KeyError "No such sequence idontexist in x.fa").
Proof.
  assert (H : ~ In "idontexist"
                   (IndexedFasta.sequences
                      (IndexedFasta.mk "x.fa" "x.fa.fai"
                         [("s1", FastaIndexRecord.mk "s1" 0 4 1 2)])))
    by (cbn; intuition discriminate).
  exact (proj1 (IndexFacts.key_error_iff_unknown_name
                  (list_ascii_of_string ">s1")
                  (IndexedFasta.mk "x.fa" "x.fa.fai"
                     [("s1", FastaIndexRecord.mk "s1" 0 4 1 2)])
                  "idontexist") H).
Defined.

(** *** The backward scan when there is no header to find *)




(** *** Index lines *)

Lemma parse_int_str_newline (z : Z) :
  Py.parse_int (Py.str z ++ String "010" "") = Some z.
Proof.
  assert (Hs : Py.strip_by Py.int_space
                 (list_ascii_of_string (Py.str z ++ String "010" ""))
               = Py.strip_by Py.int_space (list_ascii_of_string (Py.str z))).
  { rewrite PyFacts.chars_app. cbn [list_ascii_of_string].
    destruct (PyFacts.printed_chars z) as [Hne Hall].
    unfold PyProps.printed in Hne, Hall.
    assert (Hsp : Forall (fun c => Py.int_space c = false)
                         (list_ascii_of_string (Py.str z)))
      by (eapply Forall_impl; [|exact Hall]; cbn; tauto).
    rewrite (PyFacts.strip_by_all_nonspace _ _ Hsp).
    unfold Py.strip_by.
    destruct (list_ascii_of_string (Py.str z)) as [|a t] eqn:E;
      [now elim Hne|].
    inversion Hsp as [|? ? Ha Ht]; subst.
    cbn [app Py.lstrip_by]. rewrite Ha.
    change (a :: t ++ ["010"%char]) with ((a :: t) ++ ["010"%char]).
    rewrite rev_unit. cbn [Py.lstrip_by].
    change (Py.int_space "010") with true. cbv iota.
    assert (H2 : Py.lstrip_by Py.int_space (rev (a :: t)) = rev (a :: t)).
    { destruct (rev (a :: t)) as [|y u] eqn:Er; [reflexivity|]. cbn.
      assert (Hy : In y (a :: t))
        by (apply in_rev; rewrite Er; now left).
      rewrite Forall_forall in Hsp. now rewrite (Hsp y Hy). }
    now rewrite H2, rev_involutive. }
  unfold Py.parse_int. rewrite Hs. apply PyFacts.parse_int_str.
Qed.

(** X22: an index line made of a name without tab and four integers as
    [str] prints them, separated by tabs and ended by a newline, is read
    by [FastaIndexRecord.from_string] as the record of that name and those
    integers: the newline that iterating over the file leaves on the last
    field does no harm. *)
Theorem index_line_read_back (nm : string) (a b c d : Z) :
  ~ In "009"%char (list_ascii_of_string nm) ->
  FastaIndexRecord.from_string
    (Py.join (String "009" "")
       [nm; Py.str a; Py.str b; Py.str c;
        (Py.str d ++ String "010" "")%string])
  = Ok (FastaIndexRecord.mk nm a b c d).
Proof.
  intros Hnm. unfold FastaIndexRecord.from_string.
  rewrite PyFacts.split_join.
  - rewrite !PyFacts.int_str. cbn [bind Py.int].
    rewrite parse_int_str_newline. reflexivity.
  - discriminate.
  - repeat (constructor; [first [exact Hnm | apply PyFacts.printed_no; now right]
                         |]).
    constructor; [|constructor].
    rewrite PyFacts.chars_app. intros H. apply in_app_or in H.
    destruct H as [H|[H|[]]]; [|discriminate H].
    revert H. apply PyFacts.printed_no. now right.
Qed.

Lemma index_line_read_back_witness :
  FastaIndexRecord.from_string (index_line "s1")
  = Ok (FastaIndexRecord.mk "s1" 2 4 2 3).
Proof.
  apply (index_line_read_back "s1" 2 4 2 3). cbn. intuition discriminate.
Defined.

End EdgeFacts.
